(** * The Taskfile reader: include resolution, cycle guard, manifest adapter

    A shallow embedding of package [read] (the reader of declaration files:
    [Taskfile], [readTaskfile], [readPackageJson], [findLineNumber],
    [exists], [checkCircularIncludes]) together with the statements the
    specification makes about it, and of [ListTaskNames] of package [task],
    which lists the tasks of a declaration read.

    Conventions of the embedding.
    - A Go call returning [(T, error)] is a value of [outcome T]; a run-time
      panic is the outcome [Panic], and the recursion of [Taskfile] is bounded
      by a fuel argument, [OutOfFuel] being the outcome of a run that needs
      more.  Neither of the two is an [error] value, so no [err != nil] test
      of the program ever sees them.
    - What the reader imports (the operating system, [path/filepath],
      [filepathext], the templater, the YAML and JSON decoders, and the
      operations of package [taskfile]) is gathered in a record [World]:
      every function of the reader takes the world it runs in.
    - [map[string]*Task] is a [gmap string (option Task)], [None] being a nil
      pointer; a pointer to a set of variables is an option too.  Tasks are
      held by value: the decoders allocate one task per entry and the reader
      never stores one pointer under two keys. *)

From Stdlib Require Import PrimFloat Ascii String.
From stdpp Require Import base option list strings gmap fin_maps pretty
  sorting.

Set Warnings "-register-all".
Set Default Proof Using "Type".

(* ================================================================= *)
(** ** Errors and outcomes *)

(** The error values the reader builds itself, and [ErrForeign] for the ones
    handed to it by what it calls. *)
Inductive error : Type :=
| ErrIncludedTaskfilesCantHaveDotenvs
| ErrNoTaskfileFound (dir : string)
| ErrAbsPath (dir : string) (cause : error)
| ErrParse (file : string) (cause : error)
| ErrCycleNilNode
| ErrCycleNilParent
| ErrIncludeCycle (curPath parentPath : string)
| ErrForeign (msg : string).

Inductive panic : Type :=
| NilDereference
| PanicError (e : error).

Inductive outcome (A : Type) : Type :=
| Ok (a : A)
| Err (e : error)
| Panic (p : panic)
| OutOfFuel.
Arguments Ok {A} a.
Arguments Err {A} e.
Arguments Panic {A} p.
Arguments OutOfFuel {A}.

#[global] Instance outcome_ret : MRet outcome := fun A a => Ok a.
#[global] Instance outcome_bind : MBind outcome := fun A B f r =>
  match r with
  | Ok a => f a
  | Err e => Err e
  | Panic p => Panic p
  | OutOfFuel => OutOfFuel
  end.

Definition is_ok {A} (r : outcome A) : bool :=
  match r with Ok _ => true | _ => false end.

Definition is_cycle_error (e : error) : bool :=
  match e with ErrIncludeCycle _ _ => true | _ => false end.

Definition is_empty (s : string) : bool :=
  match s with EmptyString => true | String _ _ => false end.

(** The double quote, and the eight bytes with which the format string of
    line 300, and so every synthesized description, starts:
    [c3 a2 e2 80 a0 e2 80 99]. *)
Definition dquote : string := String "034"%char EmptyString.
Definition arrow : string :=
  String "195"%char (String "162"%char
    (String "226"%char (String "128"%char (String "160"%char
      (String "226"%char (String "128"%char (String "153"%char
         EmptyString))))))).

(* ================================================================= *)
(** ** Package taskfile: the data model *)

Module taskfile.

(** Modelled from the spec: the type declarations of package [taskfile] are
    not among the sources.  The records below follow the data model of the
    specification (Declaration, Task, IncludeSpec, Variable) and carry the
    fields the reader touches, under the names it uses for them.  A field
    that holds a pointer to a set of variables ([Vars] and [Env] of a
    declaration, [Vars] of an include, the two scopes of a task) is an
    option, [None] being the nil pointer: the reader builds declarations
    that leave them nil, copies them from one structure to another, and
    reads through them. *)
Record Var : Type := mkVar {
  Var_Static : string;
  Var_Dir : string
}.

Record Vars : Type := mkVars {
  Mapping : gmap string Var
}.

Record Cmd : Type := mkCmd {
  Cmd_Cmd : string
}.

Record IncludedTaskfile : Type := mkIncludedTaskfile {
  Inc_Taskfile : string;
  Inc_Dir : string;
  Inc_Optional : bool;
  Inc_Internal : bool;
  Inc_Aliases : list string;
  Inc_AdvancedImport : bool;
  Inc_Vars : option Vars;
  Inc_BaseDir : string
}.

Record Task : Type := mkTask {
  Task_Task : string;
  Task_Dir : string;
  Task_Taskfile : string;
  Task_Desc : string;
  Task_Cmds : list Cmd;
  Task_Aliases : list string;
  Task_Internal : bool;
  Task_IncludeVars : option Vars;
  Task_IncludedTaskfileVars : option Vars;
  Task_IncludedTaskfile : option IncludedTaskfile
}.

Record Taskfile : Type := mkTaskfile {
  Version : string;
  Tasks : gmap string (option Task);
  Includes : list (string * IncludedTaskfile);
  Vars_ : option Vars;
  Env : option Vars;
  Dotenv : list string
}.

(** [taskfile.Task{}] and [taskfile.Vars{}]: every field at its zero value. *)
Definition emptyVars : Vars := mkVars ∅.

Definition emptyTask : Task :=
  mkTask EmptyString EmptyString EmptyString EmptyString [] [] false
         None None None.

(** Field assignments. *)
Definition Var_setDir (d : string) (v : Var) : Var :=
  mkVar (Var_Static v) d.

Definition Vars_setDir (d : string) (vs : Vars) : Vars :=
  mkVars (Var_setDir d <$> Mapping vs).

Definition Inc_setBaseDir (d : string) (i : IncludedTaskfile) : IncludedTaskfile :=
  mkIncludedTaskfile (Inc_Taskfile i) (Inc_Dir i) (Inc_Optional i)
    (Inc_Internal i) (Inc_Aliases i) (Inc_AdvancedImport i) (Inc_Vars i) d.

Definition Task_setTask (n : string) (t : Task) : Task :=
  mkTask n (Task_Dir t) (Task_Taskfile t) (Task_Desc t) (Task_Cmds t)
    (Task_Aliases t) (Task_Internal t) (Task_IncludeVars t)
    (Task_IncludedTaskfileVars t) (Task_IncludedTaskfile t).

Definition Task_setDir (d : string) (t : Task) : Task :=
  mkTask (Task_Task t) d (Task_Taskfile t) (Task_Desc t) (Task_Cmds t)
    (Task_Aliases t) (Task_Internal t) (Task_IncludeVars t)
    (Task_IncludedTaskfileVars t) (Task_IncludedTaskfile t).

Definition Task_setTaskfile (f : string) (t : Task) : Task :=
  mkTask (Task_Task t) (Task_Dir t) f (Task_Desc t) (Task_Cmds t)
    (Task_Aliases t) (Task_Internal t) (Task_IncludeVars t)
    (Task_IncludedTaskfileVars t) (Task_IncludedTaskfile t).

Definition Task_setAliases (a : list string) (t : Task) : Task :=
  mkTask (Task_Task t) (Task_Dir t) (Task_Taskfile t) (Task_Desc t)
    (Task_Cmds t) a (Task_Internal t) (Task_IncludeVars t)
    (Task_IncludedTaskfileVars t) (Task_IncludedTaskfile t).

Definition Task_setImport (iv tv : option Vars) (i : IncludedTaskfile)
    (t : Task) : Task :=
  mkTask (Task_Task t) (Task_Dir t) (Task_Taskfile t) (Task_Desc t)
    (Task_Cmds t) (Task_Aliases t) (Task_Internal t) iv tv (Some i).

Definition setTasks (ts : gmap string (option Task)) (t : Taskfile) : Taskfile :=
  mkTaskfile (Version t) ts (Includes t) (Vars_ t) (Env t) (Dotenv t).

Definition setIncludes (incs : list (string * IncludedTaskfile)) (t : Taskfile) : Taskfile :=
  mkTaskfile (Version t) (Tasks t) incs (Vars_ t) (Env t) (Dotenv t).

Definition setVarsEnv (vs es : option Vars) (t : Taskfile) : Taskfile :=
  mkTaskfile (Version t) (Tasks t) (Includes t) vs es (Dotenv t).

End taskfile.

(* ================================================================= *)
(** ** The world the reader runs in *)

(** An open [*os.File], named by the path it was opened with. *)
Definition File : Type := string.

Record FileInfo : Type := mkFileInfo {
  IsRegular : bool
}.

Record packageJson : Type := mkPackageJson {
  Scripts : gmap string string
}.

Record World : Type := mkWorld {
  (* package os, package runtime *)
  os_Getwd : outcome string;
  os_Stat : string -> outcome FileInfo;
  os_Open : string -> outcome File;
  runtime_GOOS : string;
  (* readers and decoders *)
  ioutil_ReadAll : File -> outcome string;
  yaml_Decode : File -> outcome taskfile.Taskfile;
  json_Unmarshal : string -> outcome packageJson;
  (* the lines [bufio.Scanner] yields for a content, and its final [Err()] *)
  bufio_Scan : string -> list string * option error;
  (* package path/filepath and internal/filepathext *)
  filepath_Dir : string -> string;
  filepath_Base : string -> string;
  filepath_Join : string -> string -> string;
  filepath_Abs : string -> outcome string;
  filepath_Rel : string -> string -> outcome string;
  SmartJoin : string -> string -> string;
  TryAbsToRel : string -> string;
  (* the default-file search of this package, kept in another file *)
  searchForFile : string -> string -> outcome (string * bool);
  (* internal/templater, used with an empty variable set *)
  Replace : string -> outcome string;
  (* package taskfile *)
  ParsedVersion : taskfile.Taskfile -> outcome float;
  FullTaskfilePath : taskfile.IncludedTaskfile -> outcome string;
  FullDirPath : taskfile.IncludedTaskfile -> outcome string;
  Merge : taskfile.Taskfile -> taskfile.Taskfile ->
          option taskfile.IncludedTaskfile -> list string ->
          outcome taskfile.Taskfile
}.

(** A location node.  [Parent] is the pointer to the node of the including
    file; it is only ever read. *)
Inductive ReaderNode : Type := mkReaderNode {
  Dir : string;
  Entrypoint : string;
  Optional : bool;
  Parent : option ReaderNode
}.

Definition ReaderNode_setDir (d : string) (n : ReaderNode) : ReaderNode :=
  mkReaderNode d (Entrypoint n) (Optional n) (Parent n).

Definition ReaderNode_setEntrypoint (e : string) (n : ReaderNode) : ReaderNode :=
  mkReaderNode (Dir n) e (Optional n) (Parent n).

(* ================================================================= *)
(** ** Go idioms *)

(** [m[k]] on a map of pointers: nil for a missing key as for a nil entry. *)
Definition index {A} (m : gmap string (option A)) (k : string) : option A :=
  mjoin (m !! k).

(** [for k, v := range m { ... }] whose body may end the function early.
    The order of the visits is the one of [map_fold]; every loop of the
    reader that can stop does so with one and the same outcome whatever the
    entry it stops at. *)
Definition forEach {A B} (body : string -> A -> outcome B)
    (m : gmap string A) : outcome (gmap string B) :=
  map_fold (fun k a acc => r ← acc; b ← body k a; Ok (<[k := b]> r))
           (Ok ∅) m.

(** [strings.HasSuffix] and [strings.Contains]. *)
Definition strings_HasSuffix (s suffix : string) : bool :=
  (String.length suffix <=? String.length s)%nat &&
  String.eqb
    (substring (String.length s - String.length suffix)
               (String.length suffix) s)
    suffix.

Definition strings_Contains (s substr : string) : bool :=
  match String.index 0 substr s with
  | Some _ => true
  | None => false
  end.

(** [p.f] on a pointer [p]: a nil pointer is dereferenced. *)
Definition deref {A} (p : option A) : outcome A :=
  match p with
  | Some a => Ok a
  | None => Panic NilDereference
  end.

(** [err != nil] turned into a wrapped error, a panic, or a default. *)
Definition wrapErr {A} (wrap : error -> error) (r : outcome A) : outcome A :=
  match r with
  | Err err => Err (wrap err)
  | _ => r
  end.

Definition panicOnErr {A} (r : outcome A) : outcome A :=
  match r with
  | Err err => Panic (PanicError err)
  | _ => r
  end.

Definition orElse {A} (dflt : A) (r : outcome A) : outcome A :=
  match r with
  | Err _ => Ok dflt
  | _ => r
  end.

(* ================================================================= *)
(** ** File handles *)

(** The loaders run over the table of the handles that are open.  [os.Open]
    adds the handle it returns; [Close] would take it out. *)
Definition IO (A : Type) : Type := list File -> outcome A * list File.

Definition io_ret {A} (a : A) : IO A := fun h => (Ok a, h).

Definition io_bind {A B} (m : IO A) (f : A -> IO B) : IO B := fun h =>
  match m h with
  | (Ok a, h') => f a h'
  | (Err e, h') => (Err e, h')
  | (Panic p, h') => (Panic p, h')
  | (OutOfFuel, h') => (OutOfFuel, h')
  end.

Definition io_call {A} (r : outcome A) : IO A := fun h => (r, h).

Definition io_Open (W : World) (name : string) : IO File := fun h =>
  match os_Open W name with
  | Ok f => (Ok f, f :: h)
  | r => (r, h)
  end.

Definition io_Close (f : File) : IO unit := fun h =>
  (Ok tt, filter (fun g => g ≠ f) h).

Definition run {A} (m : IO A) : outcome A := fst (m []).

#[global] Instance IO_ret : MRet IO := @io_ret.
#[global] Instance IO_bind : MBind IO := fun A B f m => io_bind m f.

(* ================================================================= *)
(** ** Package read *)

Definition defaultTaskfiles : list string :=
  [ "Taskfile.yml"; "Taskfile.yaml"; "Taskfile.dist.yml";
    "Taskfile.dist.yaml"; "package.json" ].

(** *** readTaskfile *)

Definition stampTaskfile (file : string) (_ : string)
    (task : option taskfile.Task) : outcome (option taskfile.Task) :=
  match task with
  | None => Panic NilDereference
  | Some task => Ok (Some (taskfile.Task_setTaskfile file task))
  end.

Definition readTaskfile (W : World) (file : string) : IO taskfile.Taskfile :=
  f ← io_Open W file;
  t ← io_call (wrapErr (ErrParse (TryAbsToRel W file)) (yaml_Decode W f));
  tasks ← io_call (forEach (stampTaskfile file) (taskfile.Tasks t));
  io_ret (taskfile.setTasks tasks t).

(** *** findLineNumber *)

Fixpoint scanFor (needle : string) (lines : list string) (line : nat)
    : option string :=
  match lines with
  | [] => None
  | text :: rest =>
      if strings_Contains text needle then Some (":" +:+ pretty line)
      else scanFor needle rest (S line)
  end.

Definition findLineNumber (W : World) (f : string) (scriptName : string)
    : outcome string :=
  let '(lines, err) := bufio_Scan W f in
  match scanFor (dquote +:+ scriptName +:+ dquote +:+ ":") lines 1 with
  | Some suffix => Ok suffix
  | None =>
      match err with
      | Some err => Panic (PanicError err)
      | None => Ok EmptyString
      end
  end.

(** *** readPackageJson *)

(** The declaration is built from a version and an empty task mapping
    (lines 276-279): its other fields are at their zero value, the pointers
    to its variables and to its environment being nil. *)

Definition packageTask (W : World) (file relFile cmd fd : string)
    (name : string) (_ : string) : outcome (option taskfile.Task) :=
  ln ← findLineNumber W fd name;
  Ok (Some (taskfile.mkTask
              EmptyString EmptyString file
              (arrow +:+ " " +:+ relFile +:+ ln)
              [ taskfile.mkCmd (cmd +:+ " install --silent --frozen-lockfile");
                taskfile.mkCmd (cmd +:+ " run " +:+ name) ]
              [] false None None None)).

Definition lockfileCmd (W : World) (file : string) : outcome string :=
  match os_Stat W (filepath_Join W (filepath_Dir W file) "yarn.lock") with
  | Ok _ => Ok "yarn"
  | Err _ => Ok "npm"
  | Panic p => Panic p
  | OutOfFuel => OutOfFuel
  end.

Definition readPackageJson (W : World) (projectRoot file : string)
    : IO taskfile.Taskfile :=
  f ← io_Open W file;
  fd ← io_call (ioutil_ReadAll W f);
  p ← io_call (json_Unmarshal W fd);
  let t := taskfile.mkTaskfile "3" ∅ [] None None [] in
  wd ← io_call (panicOnErr (os_Getwd W));
  relFile ← io_call (orElse file (filepath_Rel W wd file));
  cmd ← io_call (lockfileCmd W file);
  tasks ← io_call (forEach (packageTask W file relFile cmd fd) (Scripts p));
  io_ret (taskfile.setTasks tasks t).

(** *** exists *)

Fixpoint probe (W : World) (path : string) (names : list string)
    : outcome string :=
  match names with
  | [] => Err (ErrNoTaskfileFound path)
  | n :: rest =>
      let fpath := SmartJoin W path n in
      match os_Stat W fpath with
      | Ok _ => Ok fpath
      | Err _ => probe W path rest
      | Panic p => Panic p
      | OutOfFuel => OutOfFuel
      end
  end.

Definition exists_ (W : World) (path : string) : outcome string :=
  fi ← os_Stat W path;
  if IsRegular fi then Ok path else probe W path defaultTaskfiles.

(** *** checkCircularIncludes *)

Definition nodePath (W : World) (n : ReaderNode) : string :=
  SmartJoin W (Dir n) (Entrypoint n).

Fixpoint walkAncestors (W : World) (basePath parentPath : string)
    (curNode : ReaderNode) : outcome unit :=
  match Parent curNode with
  | None => Ok tt
  | Some curNode =>
      let curPath := nodePath W curNode in
      if String.eqb curPath basePath
      then Err (ErrIncludeCycle curPath parentPath)
      else walkAncestors W basePath parentPath curNode
  end.

Definition checkCircularIncludes (W : World) (node : option ReaderNode)
    : outcome unit :=
  match node with
  | None => Err ErrCycleNilNode
  | Some node =>
      match Parent node with
      | None => Err ErrCycleNilParent
      | Some parent =>
          walkAncestors W (nodePath W node) (nodePath W parent) node
      end
  end.

(** *** Taskfile *)

(** Lines 46-52: an empty directory becomes the working directory.  The node
    is the caller's: what is returned with the outcome is the node as the
    call leaves it. *)
Definition defaultDir (W : World) (readerNode : ReaderNode)
    : ReaderNode * outcome unit :=
  if is_empty (Dir readerNode) then
    match os_Getwd W with
    | Ok d => (ReaderNode_setDir d readerNode, Ok tt)
    | Err err => (readerNode, Err err)
    | Panic p => (readerNode, Panic p)
    | OutOfFuel => (readerNode, OutOfFuel)
    end
  else (readerNode, Ok tt).

(** Lines 54-70: an empty entrypoint is searched for, and the node is moved
    to the file found. *)
Definition defaultEntrypoint (W : World) (readerNode : ReaderNode)
    : ReaderNode * outcome unit :=
  if is_empty (Entrypoint readerNode) then
    match searchForFile W (SmartJoin W (Dir readerNode) (Entrypoint readerNode))
                        "Taskfile.yml" with
    | Ok (path, found) =>
        if found then
          (ReaderNode_setEntrypoint (filepath_Base W path)
             (ReaderNode_setDir (filepath_Dir W path) readerNode), Ok tt)
        else (readerNode, Err (ErrNoTaskfileFound (Dir readerNode)))
    | Err err => (readerNode, Err err)
    | Panic p => (readerNode, Panic p)
    | OutOfFuel => (readerNode, OutOfFuel)
    end
  else (readerNode, Ok tt).

(** Lines 99-104. *)
Definition defaulted (taskFileDir : string) (task : taskfile.Task)
    : taskfile.Task :=
  if is_empty (taskfile.Task_Dir task)
  then taskfile.Task_setDir taskFileDir task
  else task.

Definition defaultTaskDir (taskFileDir : string) (_ : string)
    (task : option taskfile.Task) : outcome (option taskfile.Task) :=
  match task with
  | None => Panic NilDereference
  | Some task => Ok (Some (defaulted taskFileDir task))
  end.

(** Lines 85-95: the manifest adapter for a manifest, the native loader
    for any other file. *)
Definition readDeclaration (W : World) (projectRoot path : string)
    : outcome taskfile.Taskfile :=
  if strings_HasSuffix path "package.json"
  then run (readPackageJson W projectRoot path)
  else run (readTaskfile W path).

(** Lines 71-104: the declaration of the node is read and its tasks get
    their directory. *)
Definition loadDeclaration (W : World) (readerNode : ReaderNode)
    : outcome (taskfile.Taskfile * string) :=
  let path := SmartJoin W (Dir readerNode) (Entrypoint readerNode) in
  projectRoot ← wrapErr (ErrAbsPath (Dir readerNode))
                        (filepath_Abs W (Dir readerNode));
  t ← readDeclaration W projectRoot path;
  let taskFileDir := filepath_Dir W path in
  tasks ← forEach (defaultTaskDir taskFileDir) (taskfile.Tasks t);
  Ok (taskfile.setTasks tasks t, taskFileDir).

(** Lines 112-121. *)
Definition annotateIncludes (readerNode : ReaderNode) (t : taskfile.Taskfile)
    : taskfile.Taskfile :=
  taskfile.setIncludes
    (map (fun '(key, includedFile) =>
            (key, if is_empty (taskfile.Inc_BaseDir includedFile)
                  then taskfile.Inc_setBaseDir (Dir readerNode) includedFile
                  else includedFile))
         (taskfile.Includes t))
    t.

(** [IncludedTaskfiles.Range]: the entries in the order of the keys, up to
    the first one whose callback returns an error.  The callback works on the
    declaration being built, which is threaded through. *)
Fixpoint Range {S : Type} (includes : list (string * taskfile.IncludedTaskfile))
    (yield : string -> taskfile.IncludedTaskfile -> S -> outcome S) (s : S)
    : outcome S :=
  match includes with
  | [] => Ok s
  | (key, includedTaskfile) :: rest =>
      s' ← yield key includedTaskfile s;
      Range rest yield s'
  end.

(** Lines 124-139. *)
Definition templateInclude (W : World) (v : float)
    (includedTask : taskfile.IncludedTaskfile)
    : outcome taskfile.IncludedTaskfile :=
  if (3 <=? v)%float then
    tf ← Replace W (taskfile.Inc_Taskfile includedTask);
    d ← Replace W (taskfile.Inc_Dir includedTask);
    Ok (taskfile.mkIncludedTaskfile tf d
          (taskfile.Inc_Optional includedTask)
          (taskfile.Inc_Internal includedTask)
          (taskfile.Inc_Aliases includedTask)
          (taskfile.Inc_AdvancedImport includedTask)
          (taskfile.Inc_Vars includedTask)
          (taskfile.Inc_BaseDir includedTask))
  else Ok includedTask.

(** Lines 176-199.  The two loops over the variables read the mapping
    through the pointers [includedTaskfile.Vars] and [includedTaskfile.Env],
    in this order, and every task gets the two pointers [includedTask.Vars]
    and [includedTaskfile.Vars] as they are. *)
Definition rebased (W : World) (dir : string)
    (includedTask : taskfile.IncludedTaskfile) (vars : option taskfile.Vars)
    (task : taskfile.Task) : taskfile.Task :=
  taskfile.Task_setImport (taskfile.Inc_Vars includedTask) vars includedTask
    (taskfile.Task_setDir (SmartJoin W dir (taskfile.Task_Dir task)) task).

Definition rebaseTask (W : World) (dir : string)
    (includedTask : taskfile.IncludedTaskfile) (vars : option taskfile.Vars)
    (_ : string) (task : option taskfile.Task)
    : outcome (option taskfile.Task) :=
  match task with
  | None => Panic NilDereference
  | Some task => Ok (Some (rebased W dir includedTask vars task))
  end.

Definition advancedImport (W : World)
    (includedTask : taskfile.IncludedTaskfile)
    (includedTaskfile : taskfile.Taskfile) : outcome taskfile.Taskfile :=
  dir ← FullDirPath W includedTask;
  vars ← deref (taskfile.Vars_ includedTaskfile);
  let vars := taskfile.Vars_setDir dir vars in
  env ← deref (taskfile.Env includedTaskfile);
  let env := taskfile.Vars_setDir dir env in
  tasks ← forEach (rebaseTask W dir includedTask (Some vars))
                  (taskfile.Tasks includedTaskfile);
  Ok (taskfile.setTasks tasks
        (taskfile.setVarsEnv (Some vars) (Some env) includedTaskfile)).

(** Lines 205-209. *)
Definition defaultAlias (namespace : string)
    (includedTask : taskfile.IncludedTaskfile)
    (includedTaskfile t : taskfile.Taskfile) : outcome taskfile.Taskfile :=
  match index (taskfile.Tasks includedTaskfile) "default",
        index (taskfile.Tasks t) namespace with
  | Some _, None =>
      let defaultTaskName := namespace +:+ ":default" in
      match index (taskfile.Tasks t) defaultTaskName with
      | None => Panic NilDereference
      | Some task =>
          Ok (taskfile.setTasks
                (<[defaultTaskName :=
                     Some (taskfile.Task_setAliases
                             (taskfile.Task_Aliases task ++ [namespace]
                                ++ taskfile.Inc_Aliases includedTask)
                             task)]> (taskfile.Tasks t))
                t)
      end
  | _, _ => Ok t
  end.

(** Lines 172-211: what is done with an included declaration once it has
    been resolved. *)
Definition mergeInclude (W : World) (v : float) (namespace : string)
    (includedTask : taskfile.IncludedTaskfile)
    (includedTaskfile t : taskfile.Taskfile) : outcome taskfile.Taskfile :=
  if (3 <=? v)%float && (0 <? length (taskfile.Dotenv includedTaskfile))%nat
  then Err ErrIncludedTaskfilesCantHaveDotenvs
  else
    includedTaskfile ←
      (if taskfile.Inc_AdvancedImport includedTask
       then advancedImport W includedTask includedTaskfile
       else Ok includedTaskfile);
    t ← Merge W t includedTaskfile (Some includedTask) [namespace];
    defaultAlias namespace includedTask includedTaskfile t.

Definition includeNode (W : World) (readerNode : ReaderNode)
    (includedTask : taskfile.IncludedTaskfile) (path : string) : ReaderNode :=
  mkReaderNode (filepath_Dir W path) (filepath_Base W path)
               (taskfile.Inc_Optional includedTask) (Some readerNode).

(** Lines 164-211: what the callback does with the outcome of the
    recursive call. *)
Definition followInclude (W : World) (v : float) (namespace : string)
    (includedTask : taskfile.IncludedTaskfile) (t : taskfile.Taskfile)
    (r : outcome (taskfile.Taskfile * string)) : outcome taskfile.Taskfile :=
  match r with
  | Err err => if taskfile.Inc_Optional includedTask then Ok t else Err err
  | Panic p => Panic p
  | OutOfFuel => OutOfFuel
  | Ok (includedTaskfile, _) =>
      mergeInclude W v namespace includedTask includedTaskfile t
  end.

(** Lines 123-212: the callback of the second [Range].  [self] is the
    recursive call. *)
Definition includeStep (W : World)
    (self : ReaderNode -> ReaderNode * outcome (taskfile.Taskfile * string))
    (readerNode : ReaderNode) (v : float)
    (namespace : string) (includedTask : taskfile.IncludedTaskfile)
    (t : taskfile.Taskfile) : outcome taskfile.Taskfile :=
  includedTask ← templateInclude W v includedTask;
  path ← FullTaskfilePath W includedTask;
  match exists_ W path with
  | Err err => if taskfile.Inc_Optional includedTask then Ok t else Err err
  | Panic p => Panic p
  | OutOfFuel => OutOfFuel
  | Ok path =>
      let includeReaderNode := includeNode W readerNode includedTask path in
      _ ← checkCircularIncludes W (Some includeReaderNode);
      followInclude W v namespace includedTask t
        (snd (self includeReaderNode))
  end.

(** Lines 217-228. *)
Definition osTaskfilePath (W : World) (readerNode : ReaderNode) : string :=
  SmartJoin W (Dir readerNode) ("Taskfile_" +:+ runtime_GOOS W +:+ ".yml").

Definition mergeOSTaskfile (W : World) (readerNode : ReaderNode) (v : float)
    (t : taskfile.Taskfile) : outcome taskfile.Taskfile :=
  if (v <? 3)%float then
    let path := osTaskfilePath W readerNode in
    match os_Stat W path with
    | Ok _ =>
        osTaskfile ← run (readTaskfile W path);
        Merge W t osTaskfile None []
    | Err _ => Ok t
    | Panic p => Panic p
    | OutOfFuel => OutOfFuel
    end
  else Ok t.

(** Lines 230-236. *)
Definition normalizeTask (name : string) (task : option taskfile.Task)
    : option taskfile.Task :=
  Some (taskfile.Task_setTask name (default taskfile.emptyTask task)).

Definition normalizeTasks (t : taskfile.Taskfile) : taskfile.Taskfile :=
  taskfile.setTasks
    (map_imap (fun name task => Some (normalizeTask name task))
              (taskfile.Tasks t))
    t.

(** Lines 46-70 together. *)
Definition locate (W : World) (readerNode : ReaderNode)
    : ReaderNode * outcome unit :=
  match defaultDir W readerNode with
  | (readerNode, Ok _) => defaultEntrypoint W readerNode
  | r => r
  end.

(** Lines 71-121: the declaration as it stands when the includes are
    about to be followed, the directory of its file and its version. *)
Definition prepare (W : World) (readerNode : ReaderNode)
    : outcome (taskfile.Taskfile * string * float) :=
  '(t, taskFileDir) ← loadDeclaration W readerNode;
  v ← ParsedVersion W t;
  Ok (annotateIncludes readerNode t, taskFileDir, v).

(** Lines 71-238, on the node as lines 46-70 left it. *)
Definition resolve (W : World)
    (self : ReaderNode -> ReaderNode * outcome (taskfile.Taskfile * string))
    (readerNode : ReaderNode) : outcome (taskfile.Taskfile * string) :=
  '(t, taskFileDir, v) ← prepare W readerNode;
  t ← Range (taskfile.Includes t) (includeStep W self readerNode v) t;
  t ← mergeOSTaskfile W readerNode v t;
  Ok (normalizeTasks t, taskFileDir).

Definition TaskfileBody (W : World)
    (self : ReaderNode -> ReaderNode * outcome (taskfile.Taskfile * string))
    (readerNode : ReaderNode)
    : ReaderNode * outcome (taskfile.Taskfile * string) :=
  match locate W readerNode with
  | (readerNode, Ok _) => (readerNode, resolve W self readerNode)
  | (readerNode, Err err) => (readerNode, Err err)
  | (readerNode, Panic p) => (readerNode, Panic p)
  | (readerNode, OutOfFuel) => (readerNode, OutOfFuel)
  end.

(** [Taskfile]: the declaration of [readerNode] with its includes merged,
    and the directory of its file; with them, the node as the call leaves
    it. *)
Fixpoint Taskfile (W : World) (fuel : nat) (readerNode : ReaderNode)
    : ReaderNode * outcome (taskfile.Taskfile * string) :=
  match fuel with
  | O => (readerNode, OutOfFuel)
  | S fuel => TaskfileBody W (Taskfile W fuel) readerNode
  end.


(** The node an include leads to (lines 124-158, when the file is found):
    the include as templated, and the node of the file it names. *)
Definition includeTarget (W : World) (readerNode : ReaderNode) (v : float)
    (includedTask : taskfile.IncludedTaskfile)
    : outcome (taskfile.IncludedTaskfile * ReaderNode) :=
  includedTask ← templateInclude W v includedTask;
  path ← FullTaskfilePath W includedTask;
  path ← exists_ W path;
  Ok (includedTask, includeNode W readerNode includedTask path).

(** Every entry of a task mapping is a task with a directory. *)
Definition hasDir (task : option taskfile.Task) : bool :=
  match task with
  | Some task => negb (is_empty (taskfile.Task_Dir task))
  | None => false
  end.

Definition tasksHaveDir (t : taskfile.Taskfile) : Prop :=
  map_Forall (fun _ task => hasDir task = true) (taskfile.Tasks t).

(* ================================================================= *)
(** ** The ancestors of a node *)

(** The nodes that [checkCircularIncludes] walks through from a node: its
    parent, the parent of its parent, and so on up to the root. *)
Fixpoint ancestors (n : ReaderNode) : list ReaderNode :=
  match Parent n with
  | None => []
  | Some p => p :: ancestors p
  end.

(* ================================================================= *)
(** ** Package task: the listing of task names *)

(** [strings.TrimRight(s, cutset)] for a cutset of ASCII bytes: the
    trailing bytes of [s] that are in the cutset are removed. *)
Definition inCutset (cutset : string) (c : ascii) : bool :=
  existsb (Ascii.eqb c) (list_ascii_of_string cutset).

Fixpoint strings_TrimRight (s cutset : string) : string :=
  match s with
  | EmptyString => EmptyString
  | String c rest =>
      let rest := strings_TrimRight rest cutset in
      if is_empty rest && inCutset cutset c then EmptyString
      else String c rest
  end.

(** [sort.Strings]: ascending in the order of [<] on strings, which compares
    byte by byte. *)
Definition stringLe (a b : string) : Prop := String.leb a b = true.

#[global] Instance stringLe_dec : RelDecision stringLe :=
  fun a b => decide (String.leb a b = true).

Definition sort_Strings (s : list string) : list string :=
  merge_sort stringLe s.

(** Lines 87-96 of [ListTaskNames]: the names one task adds to the slice,
    and the loop over the task mapping, in the order of [map_fold].  A nil
    task is dereferenced by [t.Desc]. *)
Definition namesOfTask (allTasks : bool) (t : taskfile.Task) : list string :=
  if (allTasks || negb (is_empty (taskfile.Task_Desc t)))
     && negb (taskfile.Task_Internal t)
  then strings_TrimRight (taskfile.Task_Task t) ":"
       :: map (fun alias => strings_TrimRight alias ":")
              (taskfile.Task_Aliases t)
  else [].

Definition collectNames (allTasks : bool)
    (tasks : gmap string (option taskfile.Task)) : outcome (list string) :=
  map_fold
    (fun _ t acc =>
       s ← acc;
       match t with
       | None => Panic NilDereference
       | Some t => Ok (s ++ namesOfTask allTasks t)
       end)
    (Ok []) tasks.

(** [ListTaskNames] on an executor whose declaration has been read: the
    lines it writes, one name a line.  (The executor, its reading of the
    declaration when it has none yet, and the writer it prints to are not
    among the sources.) *)
Definition ListTaskNames (allTasks : bool) (tf : taskfile.Taskfile)
    : outcome (list string) :=
  s ← collectNames allTasks (taskfile.Tasks tf);
  Ok (sort_Strings s).

(* ================================================================= *)
(** ** A Merger, and worlds held in memory *)

Module mem.

(** The worlds of this module give the collaborators of the reader a
    concrete form, for the sample projects further down.  What is proved of
    the reader is proved for every world. *)

(** ["ns:name"], and the name itself under no namespace. *)
Definition taskNameWithNamespace (namespaces : list string) (taskName : string)
    : string :=
  foldr (fun ns name => ns +:+ ":" +:+ name) taskName namespaces.

Definition joinVars (parent child : option taskfile.Vars)
    : option taskfile.Vars :=
  Some (taskfile.mkVars
          (taskfile.Mapping (default taskfile.emptyVars parent)
           ∪ taskfile.Mapping (default taskfile.emptyVars child))).

(** Modelled from the spec: the Merger collaborator ([taskfile.Merge] is not
    among the sources).  Following the contract the specification gives for
    it, every task of the child is inserted under
    [<namespace>:<taskName>], or under its own name by the flat merge that
    is given no namespace; the variable and environment mappings are joined,
    an entry of the parent winning over one of the child, and a set of
    variables that is nil counting as empty; and the merge fails when an
    inserted key is already taken in the parent.  The entry under the
    bare namespace, which the specification mentions in passing, is left to
    the reader's own default-alias step, the only place of the sources that
    deals with it. *)
Definition Merge (t1 t2 : taskfile.Taskfile)
    (includedTaskfile : option taskfile.IncludedTaskfile)
    (namespaces : list string) : outcome taskfile.Taskfile :=
  let added :=
    list_to_map (M := gmap string (option taskfile.Task))
      (prod_map (taskNameWithNamespace namespaces) id
         <$> map_to_list (taskfile.Tasks t2)) in
  if bool_decide (map_Forall (fun k _ => taskfile.Tasks t1 !! k = None) added)
  then Ok (taskfile.mkTaskfile
             (taskfile.Version t1)
             (taskfile.Tasks t1 ∪ added)
             (taskfile.Includes t1)
             (joinVars (taskfile.Vars_ t1) (taskfile.Vars_ t2))
             (joinVars (taskfile.Env t1) (taskfile.Env t2))
             (taskfile.Dotenv t1))
  else Err (ErrForeign "task: colliding task names").

(** Paths of the worlds in memory: components separated by a slash, with no
    cleaning. *)
Fixpoint splitLast (p : string) : option (string * string) :=
  match p with
  | EmptyString => None
  | String c rest =>
      match splitLast rest with
      | Some (d, b) => Some (String c d, b)
      | None => if Ascii.eqb c "/" then Some (EmptyString, rest) else None
      end
  end.

Definition dir (p : string) : string :=
  match splitLast p with
  | Some (d, _) => if is_empty d then "/" else d
  | None => "."
  end.

Definition base (p : string) : string :=
  match splitLast p with
  | Some (_, b) => if is_empty b then "/" else b
  | None => if is_empty p then "." else p
  end.

Definition isAbs (p : string) : bool :=
  match p with
  | String c _ => Ascii.eqb c "/"
  | EmptyString => false
  end.

Definition join (a b : string) : string :=
  if is_empty a then b else if is_empty b then a else a +:+ "/" +:+ b.

Definition smartJoin (a b : string) : string :=
  if isAbs b then b else join a b.

(** The lines of a content, split at the line feeds. *)
Fixpoint lines (acc : string) (s : string) : list string :=
  match s with
  | EmptyString => if is_empty acc then [] else [acc]
  | String c rest =>
      if Ascii.eqb c "010" then acc :: lines EmptyString rest
      else lines (acc +:+ String c EmptyString) rest
  end.

(** [suffix] ends [s]. *)
Fixpoint endsWith (suffix s : string) : bool :=
  String.eqb s suffix ||
  match s with
  | String _ rest => endsWith suffix rest
  | EmptyString => false
  end.

(** What a path of a world in memory holds. *)
Inductive Entry : Type :=
| Directory
| Declaration (t : taskfile.Taskfile)
| Manifest (content : string) (p : packageJson)
| Lockfile.

Definition Files : Type := list (string * Entry).

Fixpoint find (files : Files) (path : string) : option Entry :=
  match files with
  | [] => None
  | (p, e) :: rest => if String.eqb p path then Some e else find rest path
  end.

Definition noent {A} : outcome A := Err (ErrForeign "no such file or directory").

Definition Stat (files : Files) (path : string) : outcome FileInfo :=
  match find files path with
  | Some Directory => Ok (mkFileInfo false)
  | Some _ => Ok (mkFileInfo true)
  | None => noent
  end.

Definition Open (files : Files) (path : string) : outcome File :=
  match find files path with
  | Some _ => Ok path
  | None => noent
  end.

Definition ReadAll (files : Files) (f : File) : outcome string :=
  match find files f with
  | Some (Manifest content _) => Ok content
  | Some _ => Ok EmptyString
  | None => noent
  end.

Definition Decode (files : Files) (f : File) : outcome taskfile.Taskfile :=
  match find files f with
  | Some (Declaration t) => Ok t
  | _ => Err (ErrForeign "yaml: cannot decode")
  end.

Fixpoint Unmarshal (files : Files) (fd : string) : outcome packageJson :=
  match files with
  | [] => Err (ErrForeign "json: cannot decode")
  | (_, Manifest content p) :: rest =>
      if String.eqb content fd then Ok p else Unmarshal rest fd
  | _ :: rest => Unmarshal rest fd
  end.

(** Modelled from the spec: [searchForFile] is kept in a file that is not
    among the sources.  The first of the default names that exists in the
    directory is the file found. *)
Fixpoint search (files : Files) (dir : string) (names : list string)
    : outcome (string * bool) :=
  match names with
  | [] => Ok (EmptyString, false)
  | n :: rest =>
      match find files (smartJoin dir n) with
      | Some _ => Ok (smartJoin dir n, true)
      | None => search files dir rest
      end
  end.

(** Modelled from the spec: [ParsedVersion], [FullTaskfilePath] and
    [FullDirPath] of package [taskfile] are not among the sources.  The
    version string is read as a number, here for the two versions of the
    sample projects; the path and the directory of an include are taken
    from its base directory. *)
Definition parsedVersion (t : taskfile.Taskfile) : outcome float :=
  if String.eqb (taskfile.Version t) "3" then Ok 3%float
  else if String.eqb (taskfile.Version t) "2" then Ok 2%float
  else Err (ErrForeign "task: Could not parse taskfile version").

Definition resolvePath (i : taskfile.IncludedTaskfile) (path : string)
    : outcome string :=
  Ok (smartJoin (taskfile.Inc_BaseDir i) path).

(** The world over a table of files, a working directory and a platform. *)
Definition world (wd goos : string) (files : Files) : World :=
  mkWorld
    (* os.Getwd, os.Stat, os.Open, runtime.GOOS *)
    (Ok wd) (Stat files) (Open files) goos
    (* ioutil.ReadAll, the YAML decoder, json.Unmarshal, bufio.Scanner *)
    (ReadAll files) (Decode files) (Unmarshal files)
    (fun fd => (lines EmptyString fd, None))
    (* filepath.Dir, Base, Join, Abs, Rel *)
    dir base join (fun p => Ok (smartJoin wd p)) (fun _ p => Ok p)
    (* filepathext.SmartJoin, TryAbsToRel; searchForFile *)
    smartJoin (fun p => p) (fun d _ => search files d defaultTaskfiles)
    (* the templater over no variable *)
    (fun s => Ok s)
    (* ParsedVersion, FullTaskfilePath, FullDirPath, Merge *)
    parsedVersion
    (fun i => resolvePath i (taskfile.Inc_Taskfile i))
    (fun i => resolvePath i (taskfile.Inc_Dir i))
    Merge.

End mem.

(* ================================================================= *)
(** ** Sample projects *)

Module sample.

Definition task (dir : string) : taskfile.Task :=
  taskfile.Task_setDir dir taskfile.emptyTask.

Definition vars (name value : string) : taskfile.Vars :=
  taskfile.mkVars {[ name := taskfile.mkVar value EmptyString ]}.

Definition include (file : string) (optional : bool)
    : taskfile.IncludedTaskfile :=
  taskfile.mkIncludedTaskfile file EmptyString optional false [] false
    None EmptyString.

Definition declaration (version : string)
    (tasks : gmap string (option taskfile.Task))
    (includes : list (string * taskfile.IncludedTaskfile))
    : taskfile.Taskfile :=
  taskfile.mkTaskfile version tasks includes (Some taskfile.emptyVars)
    (Some taskfile.emptyVars) [].

(** Two declarations that include each other, with the optional flags of the
    two edges. *)
Definition cycleFiles (optionalAB optionalBA : bool) : mem.Files :=
  [ ("/p", mem.Directory);
    ("/p/A.yml",
     mem.Declaration
       (declaration "3" {[ "a" := Some (task EmptyString) ]}
          [ ("b", include "B.yml" optionalAB) ]));
    ("/p/B.yml",
     mem.Declaration
       (declaration "3" {[ "b" := Some (task EmptyString) ]}
          [ ("a", include "A.yml" optionalBA) ])) ].

Definition cycleWorld (optionalAB optionalBA : bool) : World :=
  mem.world "/p" "linux" (cycleFiles optionalAB optionalBA).

Definition nodeA : ReaderNode := mkReaderNode "/p" "A.yml" false None.

(** The include of [file] as it stands once its base directory is set, the
    node of the second declaration, and the node that closes the cycle. *)
Definition edge (file : string) (optional : bool) : taskfile.IncludedTaskfile :=
  taskfile.Inc_setBaseDir "/p" (include file optional).

Definition nodeB (optionalAB : bool) : ReaderNode :=
  mkReaderNode "/p" "B.yml" optionalAB (Some nodeA).

Definition nodeA' (optionalAB optionalBA : bool) : ReaderNode :=
  mkReaderNode "/p" "A.yml" optionalBA (Some (nodeB optionalAB)).

(** A declaration that includes one with a dotenv list. *)
Definition dotenvChild : taskfile.Taskfile :=
  taskfile.mkTaskfile "3" {[ "build" := Some (task EmptyString) ]} []
    (Some taskfile.emptyVars) (Some taskfile.emptyVars) [ ".env" ].

Definition dotenvFiles (optional : bool) : mem.Files :=
  [ ("/p", mem.Directory);
    ("/p/Taskfile.yml",
     mem.Declaration
       (declaration "3" {[ "all" := Some (task EmptyString) ]}
          [ ("lib", include "lib/Taskfile.yml" optional);
            ("gone", include "gone/Taskfile.yml" optional) ]));
    ("/p/lib", mem.Directory);
    ("/p/lib/Taskfile.yml", mem.Declaration dotenvChild) ].

Definition dotenvWorld (optional : bool) : World :=
  mem.world "/p" "linux" (dotenvFiles optional).

Definition rootNode : ReaderNode := mkReaderNode "/p" "Taskfile.yml" false None.

Definition libNode (optional : bool) : ReaderNode :=
  mkReaderNode "/p/lib" "Taskfile.yml" optional (Some rootNode).

(** A declaration whose optional include names a file that does not
    decode. *)
Definition brokenFiles : mem.Files :=
  [ ("/p", mem.Directory);
    ("/p/Taskfile.yml",
     mem.Declaration
       (declaration "3" {[ "all" := Some (task EmptyString) ]}
          [ ("lib", include "lib/Taskfile.yml" true) ]));
    ("/p/lib", mem.Directory);
    ("/p/lib/Taskfile.yml", mem.Lockfile) ].

Definition brokenWorld : World := mem.world "/p" "linux" brokenFiles.

(** An advanced import under the namespace [sub], with an alias, of a
    declaration that has a default task. *)
Definition subInclude : taskfile.IncludedTaskfile :=
  taskfile.mkIncludedTaskfile "sub/Taskfile.yml" "sub" false false [ "s" ]
    true (Some (vars "MODE" "fast")) EmptyString.

Definition subDeclaration : taskfile.Taskfile :=
  taskfile.mkTaskfile "3"
    {[ "default" := Some (task EmptyString); "build" := Some (task "out") ]}
    [] (Some (vars "NAME" "x")) (Some (vars "HOME" "y")) [].

Definition importFiles : mem.Files :=
  [ ("/q", mem.Directory);
    ("/q/Taskfile.yml",
     mem.Declaration
       (declaration "3" {[ "all" := Some (task EmptyString) ]}
          [ ("sub", subInclude) ]));
    ("/q/sub", mem.Directory);
    ("/q/sub/Taskfile.yml", mem.Declaration subDeclaration) ].

Definition importWorld : World := mem.world "/q" "linux" importFiles.

Definition importNode : ReaderNode := mkReaderNode "/q" "Taskfile.yml" false None.

Definition subNode : ReaderNode :=
  mkReaderNode "/q/sub" "Taskfile.yml" false (Some importNode).

(** A manifest with one script, without and with a lockfile of yarn. *)
Definition manifestContent : string :=
  "{" +:+ String "010" (" " +:+ dquote +:+ "scripts" +:+ dquote +:+ ": {"
    +:+ String "010" ("  " +:+ dquote +:+ "build" +:+ dquote +:+ ": "
    +:+ dquote +:+ "tsc" +:+ dquote +:+ String "010" (" }"
    +:+ String "010" "}"))).

Definition manifest : mem.Entry :=
  mem.Manifest manifestContent (mkPackageJson {[ "build" := "tsc" ]}).

Definition npmWorld : World :=
  mem.world "/n" "linux"
    [ ("/n", mem.Directory); ("/n/package.json", manifest) ].

Definition yarnWorld : World :=
  mem.world "/n" "linux"
    [ ("/n", mem.Directory); ("/n/package.json", manifest);
      ("/n/yarn.lock", mem.Lockfile) ].

(** A declaration of version 2 with a sibling for the platform. *)
Definition legacyFiles : mem.Files :=
  [ ("/l", mem.Directory);
    ("/l/Taskfile.yml",
     mem.Declaration
       (declaration "2" {[ "all" := Some (task EmptyString) ]} []));
    ("/l/Taskfile_linux.yml",
     mem.Declaration
       (declaration "2" {[ "build" := Some (task EmptyString) ]} [])) ].

Definition legacyWorld : World := mem.world "/l" "linux" legacyFiles.

Definition legacyNode : ReaderNode := mkReaderNode "/l" "Taskfile.yml" false None.

(** The node of a caller that names neither a directory nor a file. *)
Definition blankNode : ReaderNode :=
  mkReaderNode EmptyString EmptyString false None.

(** The declaration a run returns, and the empty one when it returns
    none. *)
Definition declarationOf
    (r : ReaderNode * outcome (taskfile.Taskfile * string))
    : taskfile.Taskfile :=
  match snd r with
  | Ok (t, _) => t
  | _ => declaration EmptyString ∅ []
  end.

(** The declaration of a node when its includes are about to be
    followed. *)
Definition prepared (W : World) (n : ReaderNode) : taskfile.Taskfile :=
  match prepare W n with
  | Ok (t, _, _) => t
  | _ => declaration EmptyString ∅ []
  end.

Definition importResult : taskfile.Taskfile :=
  declarationOf (Taskfile importWorld 2 importNode).

Definition subResult : taskfile.Taskfile :=
  declarationOf (Taskfile importWorld 1 subNode).

Definition subEdge : taskfile.IncludedTaskfile :=
  taskfile.Inc_setBaseDir "/q" subInclude.

(** The declaration an operation returns, and the empty one when it returns
    none; with it, what the Merger of the sample is given and what it
    leaves. *)
Definition valueOf (r : outcome taskfile.Taskfile) : taskfile.Taskfile :=
  match r with
  | Ok t => t
  | _ => declaration EmptyString ∅ []
  end.

Definition subRebased : taskfile.Taskfile :=
  valueOf (advancedImport importWorld subEdge subResult).

Definition subMerged : taskfile.Taskfile :=
  valueOf (Merge importWorld (prepared importWorld importNode) subRebased
             (Some subEdge) [ "sub" ]).

Definition cycleResult : taskfile.Taskfile :=
  declarationOf (Taskfile (cycleWorld true false) 2 nodeA).

Definition legacyResult : taskfile.Taskfile :=
  declarationOf (Taskfile legacyWorld 1 legacyNode).

End sample.

(* ================================================================= *)
(** ** More sample projects *)

Module cases.

(** Two declarations that include each other, each after an include of a
    third one; the second of the two includes the first optionally. *)
Definition under (dir : string) (i : taskfile.IncludedTaskfile)
    : taskfile.IncludedTaskfile :=
  taskfile.Inc_setBaseDir dir i.

Definition ringFiles : mem.Files :=
  [ ("/r", mem.Directory);
    ("/r/A.yml",
     mem.Declaration
       (sample.declaration "3" {[ "a" := Some (sample.task EmptyString) ]}
          [ ("lib", sample.include "L.yml" false);
            ("b", sample.include "B.yml" false) ]));
    ("/r/B.yml",
     mem.Declaration
       (sample.declaration "3" {[ "b" := Some (sample.task EmptyString) ]}
          [ ("lib", sample.include "L.yml" false);
            ("a", sample.include "A.yml" true) ]));
    ("/r/L.yml",
     mem.Declaration
       (sample.declaration "3" {[ "l" := Some (sample.task EmptyString) ]}
          [])) ].

Definition ringWorld : World := mem.world "/r" "linux" ringFiles.

Definition ringA : ReaderNode := mkReaderNode "/r" "A.yml" false None.

Definition ringB : ReaderNode := mkReaderNode "/r" "B.yml" false (Some ringA).

Definition ringA' : ReaderNode := mkReaderNode "/r" "A.yml" true (Some ringB).

(** The declaration of a node once its include of the third declaration has
    merged. *)
Definition afterLib (n : ReaderNode) : taskfile.Taskfile :=
  sample.valueOf
    (Range [ ("lib", under "/r" (sample.include "L.yml" false)) ]
       (includeStep ringWorld (Taskfile ringWorld 1) n 3)
       (sample.prepared ringWorld n)).

(** A declaration that includes itself, under an optional include. *)
Definition selfFiles : mem.Files :=
  [ ("/s", mem.Directory);
    ("/s/Taskfile.yml",
     mem.Declaration
       (sample.declaration "3" {[ "all" := Some (sample.task EmptyString) ]}
          [ ("me", sample.include "Taskfile.yml" true) ])) ].

Definition selfWorld : World := mem.world "/s" "linux" selfFiles.

Definition selfNode : ReaderNode := mkReaderNode "/s" "Taskfile.yml" false None.

Definition selfEdge : taskfile.IncludedTaskfile :=
  taskfile.Inc_setBaseDir "/s" (sample.include "Taskfile.yml" true).

Definition selfChild : ReaderNode :=
  mkReaderNode "/s" "Taskfile.yml" true (Some selfNode).

(** A declaration that imports a manifest in the advanced way. *)
Definition webInclude : taskfile.IncludedTaskfile :=
  taskfile.mkIncludedTaskfile "web/package.json" "web" false false [] true
    None EmptyString.

Definition webFiles : mem.Files :=
  [ ("/m", mem.Directory);
    ("/m/Taskfile.yml",
     mem.Declaration
       (sample.declaration "3" {[ "all" := Some (sample.task EmptyString) ]}
          [ ("web", webInclude) ]));
    ("/m/web", mem.Directory);
    ("/m/web/package.json", sample.manifest) ].

Definition webWorld : World := mem.world "/m" "linux" webFiles.

Definition webNode : ReaderNode := mkReaderNode "/m" "Taskfile.yml" false None.

Definition webChild : ReaderNode :=
  mkReaderNode "/m/web" "package.json" false (Some webNode).

(** The project of the advanced import, the include now giving a directory
    of its own, which is not the directory of the file it names. *)
Definition otherInclude : taskfile.IncludedTaskfile :=
  taskfile.mkIncludedTaskfile "sub/Taskfile.yml" "other" false false []
    true (Some (sample.vars "MODE" "fast")) EmptyString.

Definition otherFiles : mem.Files :=
  [ ("/q", mem.Directory);
    ("/q/Taskfile.yml",
     mem.Declaration
       (sample.declaration "3" {[ "all" := Some (sample.task EmptyString) ]}
          [ ("sub", otherInclude) ]));
    ("/q/sub", mem.Directory);
    ("/q/sub/Taskfile.yml", mem.Declaration sample.subDeclaration) ].

Definition otherWorld : World := mem.world "/q" "linux" otherFiles.

Definition otherResult : taskfile.Taskfile :=
  sample.declarationOf (Taskfile otherWorld 2 sample.importNode).

(** A declaration of version 2 whose sibling for the platform gives its
    task a directory. *)
Definition tidyFiles : mem.Files :=
  [ ("/w", mem.Directory);
    ("/w/Taskfile.yml",
     mem.Declaration
       (sample.declaration "2" {[ "all" := Some (sample.task EmptyString) ]}
          []));
    ("/w/Taskfile_linux.yml",
     mem.Declaration
       (sample.declaration "2" {[ "build" := Some (sample.task "/w/os") ]}
          [])) ].

Definition tidyWorld : World := mem.world "/w" "linux" tidyFiles.

Definition tidyNode : ReaderNode := mkReaderNode "/w" "Taskfile.yml" false None.

Definition tidyResult : taskfile.Taskfile :=
  sample.declarationOf (Taskfile tidyWorld 1 tidyNode).

(** A declaration of version 2 whose sibling for the platform does not
    decode. *)
Definition siblingFiles : mem.Files :=
  [ ("/l", mem.Directory);
    ("/l/Taskfile.yml",
     mem.Declaration
       (sample.declaration "2" {[ "all" := Some (sample.task EmptyString) ]}
          []));
    ("/l/Taskfile_linux.yml", mem.Lockfile) ].

Definition siblingWorld : World := mem.world "/l" "linux" siblingFiles.

(** A declaration with a name that holds no task. *)
Definition ghostDeclaration : taskfile.Taskfile :=
  sample.declaration "3"
    {[ "all" := Some (sample.task EmptyString); "ghost" := None ]} [].

Definition ghostFiles : mem.Files :=
  [ ("/g", mem.Directory);
    ("/g/Taskfile.yml", mem.Declaration ghostDeclaration) ].

Definition ghostWorld : World := mem.world "/g" "linux" ghostFiles.

Definition ghostNode : ReaderNode := mkReaderNode "/g" "Taskfile.yml" false None.

(** A directory with no declaration file, as the working directory. *)
Definition emptyWorld : World :=
  mem.world "/e" "linux" [ ("/e", mem.Directory) ].

(** The project of the manifest in a process with no working directory. *)
Definition noCwdWorld : World :=
  let W := sample.npmWorld in
  mkWorld (Err (ErrForeign "getwd: no such file or directory"))
    (os_Stat W) (os_Open W) (runtime_GOOS W)
    (ioutil_ReadAll W) (yaml_Decode W) (json_Unmarshal W) (bufio_Scan W)
    (filepath_Dir W) (filepath_Base W) (filepath_Join W) (filepath_Abs W)
    (filepath_Rel W)
    (SmartJoin W) (TryAbsToRel W) (searchForFile W)
    (Replace W)
    (ParsedVersion W) (FullTaskfilePath W) (FullDirPath W) (Merge W).

(** Two declarations with one task each, the second with no task
    [default]. *)
Definition hostDeclaration : taskfile.Taskfile :=
  sample.declaration "3" {[ "all" := Some (sample.task "/h") ]} [].

Definition toolsDeclaration : taskfile.Taskfile :=
  sample.declaration "3" {[ "lint" := Some (sample.task "/h/tools") ]} [].

(** A declaration with an optional include whose task collides, once
    merged, with a task of its own. *)
Definition clashFiles : mem.Files :=
  [ ("/c", mem.Directory);
    ("/c/Taskfile.yml",
     mem.Declaration
       (sample.declaration "3"
          {[ "lib:build" := Some (sample.task EmptyString) ]}
          [ ("lib", sample.include "lib/Taskfile.yml" true) ]));
    ("/c/lib", mem.Directory);
    ("/c/lib/Taskfile.yml",
     mem.Declaration
       (sample.declaration "3"
          {[ "build" := Some (sample.task EmptyString) ]} [])) ].

Definition clashWorld : World := mem.world "/c" "linux" clashFiles.

Definition clashNode : ReaderNode := mkReaderNode "/c" "Taskfile.yml" false None.

Definition clashEdge : taskfile.IncludedTaskfile :=
  taskfile.Inc_setBaseDir "/c" (sample.include "lib/Taskfile.yml" true).

Definition clashChild : ReaderNode :=
  mkReaderNode "/c/lib" "Taskfile.yml" true (Some clashNode).

(** A declaration to list: a described task with two aliases, an internal
    task, and a task with no description whose name ends with a colon. *)
Definition named (name desc : string) (aliases : list string)
    (internal : bool) : taskfile.Task :=
  taskfile.mkTask name EmptyString EmptyString desc [] aliases internal
    None None None.

Definition listed : taskfile.Taskfile :=
  sample.declaration "3"
    {[ "build" := Some (named "build" "Builds" [ "make"; "b:" ] false);
       "secret" := Some (named "secret" "Hidden" [ "s" ] true);
       "plain:" := Some (named "plain:" EmptyString [] false) ]}
    [].

End cases.

(** The functions of the reader are unfolded on request only. *)
#[global] Arguments checkCircularIncludes : simpl never.
#[global] Arguments walkAncestors : simpl nomatch.
#[global] Arguments templateInclude : simpl never.
#[global] Arguments exists_ : simpl never.
#[global] Arguments mergeInclude : simpl never.
#[global] Arguments advancedImport : simpl never.
#[global] Arguments defaultAlias : simpl never.
#[global] Arguments followInclude : simpl never.
#[global] Arguments includeStep : simpl never.
#[global] Arguments includeTarget : simpl never.
#[global] Arguments mergeOSTaskfile : simpl never.
#[global] Arguments loadDeclaration : simpl never.
#[global] Arguments readDeclaration : simpl never.
#[global] Arguments prepare : simpl never.
#[global] Arguments locate : simpl never.
#[global] Arguments resolve : simpl never.
#[global] Arguments TaskfileBody : simpl never.
#[global] Arguments Taskfile : simpl never.
#[global] Arguments normalizeTasks : simpl never.
#[global] Arguments forEach : simpl never.
#[global] Arguments readTaskfile : simpl never.
#[global] Arguments readPackageJson : simpl never.
#[global] Arguments findLineNumber : simpl never.

(** Steps through a loader: the binds of [IO] unfolded, then one call of
    the world rewritten at a time. *)
Ltac io_unfold :=
  cbv [mbind IO_bind io_bind io_call io_Open io_ret run].

Ltac io_with H := rewrite H; simpl.

(* ================================================================= *)
(** ** Outcomes and loops *)

Lemma bind_Ok_inv {A B} (r : outcome A) (f : A -> outcome B) (b : B) :
  r ≫= f = Ok b -> exists a, r = Ok a /\ f a = Ok b.
Proof. destruct r; simpl; intros H; try discriminate; eauto. Qed.

Lemma bind_not_OutOfFuel {A B} (r : outcome A) (f : A -> outcome B) :
  r ≫= f <> OutOfFuel -> r <> OutOfFuel.
Proof. destruct r; simpl; congruence. Qed.

Lemma forEach_empty {A B} (body : string -> A -> outcome B) :
  forEach body ∅ = Ok ∅.
Proof. unfold forEach. by rewrite map_fold_empty. Qed.

(** A loop that runs to its end has visited every entry, and every visit
    has returned. *)
Lemma forEach_Ok_inv {A B} (body : string -> A -> outcome B)
    (m : gmap string A) (r : gmap string B) :
  forEach body m = Ok r ->
  forall k,
    match m !! k with
    | Some a => exists b, body k a = Ok b /\ r !! k = Some b
    | None => r !! k = None
    end.
Proof.
  unfold forEach. revert r.
  apply (map_fold_weak_ind
    (fun acc m => forall r, acc = Ok r -> forall k,
       match m !! k with
       | Some a => exists b, body k a = Ok b /\ r !! k = Some b
       | None => r !! k = None
       end)).
  - intros r [= <-] k. by rewrite !lookup_empty.
  - intros i x m' acc Hi IH r Hr k.
    apply bind_Ok_inv in Hr as (r0 & -> & Hr).
    apply bind_Ok_inv in Hr as (b & Hb & [= <-]).
    specialize (IH r0 eq_refl k).
    destruct (decide (i = k)) as [->|Hne].
    + rewrite !lookup_insert_eq. eauto.
    + by rewrite !lookup_insert_ne.
Qed.

(** A loop whose visits all return runs to its end. *)
Lemma forEach_Ok_intro {A B} (body : string -> A -> outcome B)
    (g : string -> A -> B) (m : gmap string A) :
  (forall k a, m !! k = Some a -> body k a = Ok (g k a)) ->
  forEach body m = Ok (map_imap (fun k a => Some (g k a)) m).
Proof.
  unfold forEach.
  apply (map_fold_weak_ind
    (fun acc m => (forall k a, m !! k = Some a -> body k a = Ok (g k a)) ->
       acc = Ok (map_imap (fun k a => Some (g k a)) m))).
  - intros _. by rewrite map_imap_empty.
  - intros i x m' acc Hi IH Hall.
    rewrite IH.
    + simpl. rewrite (Hall i x) by apply lookup_insert_eq. simpl.
      by rewrite (map_imap_insert_Some _ _ _ _ (g i x)).
    + intros k a Hk. apply Hall. rewrite lookup_insert_ne; [done|].
      intros ->. congruence.
Qed.

Lemma forEach_Forall {A B} (body : string -> A -> outcome B)
    (P : B -> Prop) (m : gmap string A) (r : gmap string B) :
  forEach body m = Ok r ->
  (forall k a b, m !! k = Some a -> body k a = Ok b -> P b) ->
  map_Forall (fun _ b => P b) r.
Proof.
  intros H HP k b Hk.
  pose proof (forEach_Ok_inv body m r H k) as Hinv.
  destruct (m !! k) as [a|] eqn:Hm.
  - destruct Hinv as (b' & Hb & Hr). rewrite Hr in Hk. injection Hk as <-. eauto.
  - congruence.
Qed.

Lemma Range_app {S : Type} (pre post : list (string * taskfile.IncludedTaskfile))
    (yield : string -> taskfile.IncludedTaskfile -> S -> outcome S) (s : S) :
  Range (pre ++ post) yield s = Range pre yield s ≫= Range post yield.
Proof.
  revert s. induction pre as [|[k i] pre IH]; intros s; simpl; [done|].
  destruct (yield k i s); simpl; auto.
Qed.

Lemma Range_invariant {S : Type} (P : S -> Prop)
    (incs : list (string * taskfile.IncludedTaskfile))
    (yield : string -> taskfile.IncludedTaskfile -> S -> outcome S) (s s' : S) :
  (forall k i s s', P s -> yield k i s = Ok s' -> P s') ->
  P s -> Range incs yield s = Ok s' -> P s'.
Proof.
  intros Hstep. revert s. induction incs as [|[k i] incs IH]; intros s Hs; simpl.
  - by intros [= <-].
  - intros H. apply bind_Ok_inv in H as (s1 & H1 & H2). eauto.
Qed.

Lemma Range_ext_on {S : Type}
    (incs : list (string * taskfile.IncludedTaskfile))
    (yield1 yield2 : string -> taskfile.IncludedTaskfile -> S -> outcome S) (s : S) :
  (forall k i s, yield1 k i s <> OutOfFuel -> yield2 k i s = yield1 k i s) ->
  Range incs yield1 s <> OutOfFuel ->
  Range incs yield2 s = Range incs yield1 s.
Proof.
  intros Hy. revert s. induction incs as [|[k i] incs IH]; intros s; simpl; [done|].
  intros H. rewrite Hy by (by apply bind_not_OutOfFuel in H).
  destruct (yield1 k i s); simpl in *; auto.
Qed.

(* ================================================================= *)
(** ** Fuel *)

Lemma includeStep_ext_on (W : World) self1 self2 readerNode v namespace
    includedTask t :
  (forall n, snd (self1 n) <> OutOfFuel -> self2 n = self1 n) ->
  includeStep W self1 readerNode v namespace includedTask t <> OutOfFuel ->
  includeStep W self2 readerNode v namespace includedTask t
  = includeStep W self1 readerNode v namespace includedTask t.
Proof.
  intros Hself. unfold includeStep.
  destruct (templateInclude W v includedTask) as [i'| | |]; simpl; try done.
  destruct (FullTaskfilePath W i') as [p| | |]; simpl; try done.
  destruct (exists_ W p) as [path| | |]; simpl; try done.
  destruct (checkCircularIncludes W (Some (includeNode W readerNode i' path)))
    as [[]| | |]; simpl; try done.
  intros H. rewrite Hself; [done|].
  intros Hoof. rewrite Hoof in H. by apply H.
Qed.

Lemma TaskfileBody_ext_on (W : World) self1 self2 readerNode :
  (forall n, snd (self1 n) <> OutOfFuel -> self2 n = self1 n) ->
  snd (TaskfileBody W self1 readerNode) <> OutOfFuel ->
  TaskfileBody W self2 readerNode = TaskfileBody W self1 readerNode.
Proof.
  intros Hself. unfold TaskfileBody.
  destruct (locate W readerNode) as [n [[]| | |]]; simpl; try done.
  unfold resolve.
  destruct (prepare W n) as [[[t d] v]| | |]; simpl; try done.
  intros H.
  rewrite (Range_ext_on _ (includeStep W self1 n v) (includeStep W self2 n v)).
  - done.
  - intros k i s. by apply includeStep_ext_on.
  - by apply bind_not_OutOfFuel in H.
Qed.

Lemma Taskfile_S (W : World) (fuel : nat) (readerNode : ReaderNode) :
  Taskfile W (S fuel) readerNode
  = TaskfileBody W (Taskfile W fuel) readerNode.
Proof. reflexivity. Qed.

(** A run that ends within its fuel ends the same way with more. *)
Lemma Taskfile_fuel_mono (W : World) (fuel fuel' : nat) (readerNode : ReaderNode) :
  snd (Taskfile W fuel readerNode) <> OutOfFuel ->
  fuel <= fuel' ->
  Taskfile W fuel' readerNode = Taskfile W fuel readerNode.
Proof.
  revert fuel' readerNode.
  induction fuel as [|fuel IH]; intros fuel' readerNode H Hle; [done|].
  destruct fuel' as [|fuel']; [lia|]. rewrite !Taskfile_S in *.
  apply TaskfileBody_ext_on; [|done].
  intros n Hn. apply IH; [done|lia].
Qed.

(* ================================================================= *)
(** ** The shape of a run *)

Lemma Taskfile_located (W : World) (fuel : nat) (readerNode node : ReaderNode) :
  locate W readerNode = (node, Ok tt) ->
  Taskfile W (S fuel) readerNode = (node, resolve W (Taskfile W fuel) node).
Proof. intros H. rewrite Taskfile_S. unfold TaskfileBody. by rewrite H. Qed.

Lemma Taskfile_node (W : World) (fuel : nat) (readerNode : ReaderNode) :
  fst (Taskfile W (S fuel) readerNode) = fst (locate W readerNode).
Proof.
  rewrite Taskfile_S. unfold TaskfileBody.
  by destruct (locate W readerNode) as [n [[]| | |]].
Qed.

Lemma Taskfile_Ok_inv (W : World) (fuel : nat) (readerNode node : ReaderNode)
    (t : taskfile.Taskfile) (dir : string) :
  Taskfile W fuel readerNode = (node, Ok (t, dir)) ->
  exists fuel0 t0 v t1 t2,
    fuel = S fuel0 /\
    locate W readerNode = (node, Ok tt) /\
    prepare W node = Ok (t0, dir, v) /\
    Range (taskfile.Includes t0)
          (includeStep W (Taskfile W fuel0) node v) t0 = Ok t1 /\
    mergeOSTaskfile W node v t1 = Ok t2 /\
    t = normalizeTasks t2.
Proof.
  destruct fuel as [|fuel0]; [done|]. rewrite Taskfile_S. unfold TaskfileBody.
  destruct (locate W readerNode) as [n [[]| | |]]; try done.
  intros [= -> H]. exists fuel0. unfold resolve in H.
  apply bind_Ok_inv in H as ([[t0 d0] v] & Hprep & H). simpl in H.
  apply bind_Ok_inv in H as (t1 & Hrange & H).
  apply bind_Ok_inv in H as (t2 & Hos & [= <- <-]).
  by exists t0, v, t1, t2.
Qed.

Lemma normalizeTasks_lookup (t : taskfile.Taskfile) (name : string) :
  taskfile.Tasks (normalizeTasks t) !! name
  = normalizeTask name <$> taskfile.Tasks t !! name.
Proof.
  unfold normalizeTasks. simpl. rewrite map_lookup_imap.
  by destruct (taskfile.Tasks t !! name).
Qed.

Lemma loadDeclaration_Ok_inv (W : World) (readerNode : ReaderNode)
    (t : taskfile.Taskfile) (dir : string) :
  loadDeclaration W readerNode = Ok (t, dir) ->
  exists root raw tasks,
    readDeclaration W root (nodePath W readerNode) = Ok raw /\
    forEach (defaultTaskDir dir) (taskfile.Tasks raw) = Ok tasks /\
    t = taskfile.setTasks tasks raw /\
    dir = filepath_Dir W (nodePath W readerNode).
Proof.
  unfold loadDeclaration. intros H.
  apply bind_Ok_inv in H as (root & _ & H).
  apply bind_Ok_inv in H as (raw & Hraw & H).
  apply bind_Ok_inv in H as (tasks & Htasks & [= <- <-]).
  by exists root, raw, tasks.
Qed.

Lemma prepare_Ok_inv (W : World) (readerNode : ReaderNode)
    (t : taskfile.Taskfile) (dir : string) (v : float) :
  prepare W readerNode = Ok (t, dir, v) ->
  exists t0,
    loadDeclaration W readerNode = Ok (t0, dir) /\
    ParsedVersion W t0 = Ok v /\
    t = annotateIncludes readerNode t0.
Proof.
  unfold prepare. intros H.
  apply bind_Ok_inv in H as ([t0 d0] & Hload & H). simpl in H.
  apply bind_Ok_inv in H as (v0 & Hv & [= <- <- <-]).
  by exists t0.
Qed.

(** The include as templated keeps everything but the two templates. *)
Lemma templateInclude_Ok_inv (W : World) (v : float)
    (i i' : taskfile.IncludedTaskfile) :
  templateInclude W v i = Ok i' ->
  taskfile.Inc_Optional i' = taskfile.Inc_Optional i /\
  taskfile.Inc_Internal i' = taskfile.Inc_Internal i /\
  taskfile.Inc_Aliases i' = taskfile.Inc_Aliases i /\
  taskfile.Inc_AdvancedImport i' = taskfile.Inc_AdvancedImport i /\
  taskfile.Inc_Vars i' = taskfile.Inc_Vars i /\
  taskfile.Inc_BaseDir i' = taskfile.Inc_BaseDir i.
Proof.
  unfold templateInclude. destruct (3 <=? v)%float.
  - intros H. apply bind_Ok_inv in H as (tf & _ & H).
    apply bind_Ok_inv in H as (d & _ & [= <-]). done.
  - by intros [= <-].
Qed.

Lemma includeTarget_Ok_inv (W : World) (readerNode : ReaderNode) (v : float)
    (i i' : taskfile.IncludedTaskfile) (child : ReaderNode) :
  includeTarget W readerNode v i = Ok (i', child) ->
  exists p path,
    templateInclude W v i = Ok i' /\
    FullTaskfilePath W i' = Ok p /\
    exists_ W p = Ok path /\
    child = includeNode W readerNode i' path.
Proof.
  unfold includeTarget. intros H.
  apply bind_Ok_inv in H as (i0 & Ht & H).
  apply bind_Ok_inv in H as (p & Hp & H).
  apply bind_Ok_inv in H as (path & Hpath & [= <- <-]).
  by exists p, path.
Qed.

(** The callback on an include whose file is found: the cycle guard, the
    recursive call, and what is done with its outcome. *)
Lemma includeStep_target (W : World) self (readerNode : ReaderNode) (v : float)
    (namespace : string) (i i' : taskfile.IncludedTaskfile)
    (child : ReaderNode) (t : taskfile.Taskfile) :
  includeTarget W readerNode v i = Ok (i', child) ->
  includeStep W self readerNode v namespace i t
  = (checkCircularIncludes W (Some child) ≫= fun _ =>
       followInclude W v namespace i' t (snd (self child))).
Proof.
  intros H. apply includeTarget_Ok_inv in H as (p & path & Ht & Hp & Hpath & ->).
  unfold includeStep. rewrite Ht. simpl. rewrite Hp. simpl. by rewrite Hpath.
Qed.

(* ================================================================= *)
(** ** The cycle guard *)

Lemma ReaderNode_chain_ind (P : ReaderNode -> Prop) :
  (forall d e o, P (mkReaderNode d e o None)) ->
  (forall d e o p, P p -> P (mkReaderNode d e o (Some p))) ->
  forall n, P n.
Proof.
  intros Hroot Hstep. fix IH 1. intros [d e o [p|]].
  - apply Hstep, IH.
  - apply Hroot.
Qed.

Lemma walkAncestors_unfold (W : World) (basePath parentPath : string)
    (n : ReaderNode) :
  walkAncestors W basePath parentPath n =
  match Parent n with
  | None => Ok tt
  | Some p =>
      if String.eqb (nodePath W p) basePath
      then Err (ErrIncludeCycle (nodePath W p) parentPath)
      else walkAncestors W basePath parentPath p
  end.
Proof. by destruct n. Qed.

(** The walk up the ancestors ends well or with a cycle error. *)
Lemma walkAncestors_outcome (W : World) (basePath parentPath : string)
    (n : ReaderNode) :
  walkAncestors W basePath parentPath n = Ok tt \/
  exists e, is_cycle_error e = true /\
            walkAncestors W basePath parentPath n = Err e.
Proof.
  induction n as [d e o|d e o p IH] using ReaderNode_chain_ind;
    rewrite walkAncestors_unfold; simpl.
  - by left.
  - destruct (String.eqb (nodePath W p) basePath); [|exact IH].
    right. eexists. split; [|reflexivity]. reflexivity.
Qed.

Lemma checkCircularIncludes_outcome (W : World) (n p : ReaderNode) :
  Parent n = Some p ->
  checkCircularIncludes W (Some n) = Ok tt \/
  exists e, is_cycle_error e = true /\ checkCircularIncludes W (Some n) = Err e.
Proof.
  intros Hp. unfold checkCircularIncludes. rewrite Hp.
  apply walkAncestors_outcome.
Qed.

(** A node whose grandparent lies at its own path is refused. *)
Lemma checkCircularIncludes_grandparent (W : World) (n p g : ReaderNode) :
  Parent n = Some p -> Parent p = Some g ->
  nodePath W n = nodePath W g ->
  exists e, is_cycle_error e = true /\ checkCircularIncludes W (Some n) = Err e.
Proof.
  intros Hp Hg Hpath. unfold checkCircularIncludes. rewrite Hp.
  rewrite walkAncestors_unfold, Hp.
  destruct (String.eqb (nodePath W p) _).
  { eexists. split; [|reflexivity]. reflexivity. }
  rewrite walkAncestors_unfold, Hg.
  rewrite Hpath, String.eqb_refl.
  eexists. split; [|reflexivity]. reflexivity.
Qed.

Lemma locate_Parent (W : World) (readerNode : ReaderNode) :
  Parent (fst (locate W readerNode)) = Parent readerNode /\
  Optional (fst (locate W readerNode)) = Optional readerNode.
Proof.
  unfold locate, defaultDir, defaultEntrypoint.
  destruct (is_empty (Dir readerNode)).
  - destruct (os_Getwd W) as [d| | |]; simpl; try done.
    destruct (is_empty _); [|done].
    destruct (searchForFile W _ _) as [[path []]| | |]; done.
  - destruct (is_empty _); [|done].
    destruct (searchForFile W _ _) as [[path []]| | |]; done.
Qed.

(* ================================================================= *)
(** ** Include cycles *)

Lemma resolve_first_include (W : World) self (n : ReaderNode)
    (t : taskfile.Taskfile) (dir : string) (v : float) (namespace : string)
    (i : taskfile.IncludedTaskfile)
    (rest : list (string * taskfile.IncludedTaskfile)) (e : error) :
  prepare W n = Ok (t, dir, v) ->
  taskfile.Includes t = (namespace, i) :: rest ->
  includeStep W self n v namespace i t = Err e ->
  resolve W self n = Err e.
Proof.
  intros Hprep Hincs Hstep. unfold resolve. rewrite Hprep. simpl.
  rewrite Hincs. simpl. by rewrite Hstep.
Qed.

Lemma includeNode_Parent (W : World) (n : ReaderNode)
    (i : taskfile.IncludedTaskfile) (path : string) :
  Parent (includeNode W n i path) = Some n.
Proof. done. Qed.

Lemma includeTarget_Parent (W : World) (n : ReaderNode) (v : float)
    (i i' : taskfile.IncludedTaskfile) (child : ReaderNode) :
  includeTarget W n v i = Ok (i', child) ->
  Parent child = Some n /\
  taskfile.Inc_Optional i' = taskfile.Inc_Optional i.
Proof.
  intros H. apply includeTarget_Ok_inv in H as (p & path & Ht & _ & _ & ->).
  split; [done|]. by apply templateInclude_Ok_inv in Ht as (? & _).
Qed.

(** The declaration that closes a cycle of two fails with the cycle error. *)
Lemma Range_fuel_mono (W : World) (fuel fuel' : nat) (n : ReaderNode)
    (v : float) (incs : list (string * taskfile.IncludedTaskfile))
    (t : taskfile.Taskfile) :
  fuel <= fuel' ->
  Range incs (includeStep W (Taskfile W fuel) n v) t <> OutOfFuel ->
  Range incs (includeStep W (Taskfile W fuel') n v) t
  = Range incs (includeStep W (Taskfile W fuel) n v) t.
Proof.
  intros Hle H. apply Range_ext_on; [|done].
  intros k i s Hs. apply includeStep_ext_on; [|done].
  intros m Hm. by apply Taskfile_fuel_mono.
Qed.

Lemma Taskfile_include_fails (W : World) (fuel : nat)
    (readerNode node : ReaderNode) (t t1 : taskfile.Taskfile) (dir : string)
    (v : float) (pre post : list (string * taskfile.IncludedTaskfile))
    (namespace : string) (i : taskfile.IncludedTaskfile) (e : error) :
  locate W readerNode = (node, Ok tt) ->
  prepare W node = Ok (t, dir, v) ->
  taskfile.Includes t = pre ++ (namespace, i) :: post ->
  Range pre (includeStep W (Taskfile W fuel) node v) t = Ok t1 ->
  includeStep W (Taskfile W fuel) node v namespace i t1 = Err e ->
  forall fuel', fuel < fuel' -> Taskfile W fuel' readerNode = (node, Err e).
Proof.
  intros Hloc Hprep Hincs Hpre Hstep.
  assert (Taskfile W (S fuel) readerNode = (node, Err e)) as H.
  { rewrite (Taskfile_located W fuel readerNode node Hloc). f_equal.
    unfold resolve. rewrite Hprep. simpl. rewrite Hincs, Range_app, Hpre.
    simpl. by rewrite Hstep. }
  intros fuel' Hfuel. rewrite <- H. apply Taskfile_fuel_mono; [|lia].
  by rewrite H.
Qed.

Lemma cycle_closing_node_fails (W : World) (fuelB : nat)
    (nA nodeB nB nodeA' : ReaderNode)
    (tB tB1 : taskfile.Taskfile) (dB : string) (vB : float) (nsA : string)
    (iBA iBA' : taskfile.IncludedTaskfile)
    (preB postB : list (string * taskfile.IncludedTaskfile)) :
  Parent nodeB = Some nA ->
  locate W nodeB = (nB, Ok tt) ->
  prepare W nB = Ok (tB, dB, vB) ->
  taskfile.Includes tB = preB ++ (nsA, iBA) :: postB ->
  Range preB (includeStep W (Taskfile W fuelB) nB vB) tB = Ok tB1 ->
  includeTarget W nB vB iBA = Ok (iBA', nodeA') ->
  nodePath W nodeA' = nodePath W nA ->
  exists e, is_cycle_error e = true /\
            forall fuel, fuelB < fuel -> Taskfile W fuel nodeB = (nB, Err e).
Proof.
  intros HpB HlocB HprepB HincsB HpreB HtargetBA Hpath.
  destruct (includeTarget_Parent _ _ _ _ _ _ HtargetBA) as [HpA' _].
  assert (Parent nB = Some nA) as HpnB.
  { pose proof (locate_Parent W nodeB) as [Hp _]. rewrite HlocB in Hp.
    simpl in Hp. congruence. }
  destruct (checkCircularIncludes_grandparent W nodeA' nB nA HpA' HpnB Hpath)
    as (e & He & Hcheck).
  exists e. split; [done|].
  apply (Taskfile_include_fails W fuelB nodeB nB tB tB1 dB vB preB postB
           nsA iBA e HlocB HprepB HincsB HpreB).
  rewrite (includeStep_target _ _ _ _ _ _ _ _ _ HtargetBA).
  by rewrite Hcheck.
Qed.

(** C1 (amended).  Let the declaration of [nodeA] have, among its
    includes, one of a file whose declaration has, among its own, one of the
    file of [nodeA] again (the two compared by the path of their nodes), and
    let the includes that stand before these two, each in its declaration,
    have merged.  The resolution of the included declaration fails with the
    cycle error, whatever the optional flags.  When the include of the first
    declaration is not optional, so does the resolution of that declaration.
    When it is optional and its own cycle guard passes, the include is
    skipped with the declaration unchanged: the cycle error raised below it
    is swallowed as any other failure of the included declaration. *)
Theorem include_cycle_fails_unless_first_edge_optional
    (W : World) (fuelA fuelB : nat) (nodeA nA nodeB nB nodeA' : ReaderNode)
    (tA tA1 tB tB1 : taskfile.Taskfile) (dA dB : string) (vA vB : float)
    (nsB nsA : string) (iAB iAB' iBA iBA' : taskfile.IncludedTaskfile)
    (preA postA preB postB : list (string * taskfile.IncludedTaskfile)) :
  locate W nodeA = (nA, Ok tt) ->
  prepare W nA = Ok (tA, dA, vA) ->
  taskfile.Includes tA = preA ++ (nsB, iAB) :: postA ->
  Range preA (includeStep W (Taskfile W fuelA) nA vA) tA = Ok tA1 ->
  includeTarget W nA vA iAB = Ok (iAB', nodeB) ->
  locate W nodeB = (nB, Ok tt) ->
  prepare W nB = Ok (tB, dB, vB) ->
  taskfile.Includes tB = preB ++ (nsA, iBA) :: postB ->
  Range preB (includeStep W (Taskfile W fuelB) nB vB) tB = Ok tB1 ->
  includeTarget W nB vB iBA = Ok (iBA', nodeA') ->
  nodePath W nodeA' = nodePath W nA ->
  (exists e, is_cycle_error e = true /\
     forall fuel, fuelB < fuel -> Taskfile W fuel nodeB = (nB, Err e)) /\
  (taskfile.Inc_Optional iAB = false ->
   exists e, is_cycle_error e = true /\
     forall fuel, fuelA < fuel -> S fuelB < fuel ->
       Taskfile W fuel nodeA = (nA, Err e)) /\
  (taskfile.Inc_Optional iAB = true ->
   checkCircularIncludes W (Some nodeB) = Ok tt ->
   forall fuel t, fuelB < fuel ->
     includeStep W (Taskfile W fuel) nA vA nsB iAB t = Ok t).
Proof.
  intros HlocA HprepA HincsA HpreA HtargetAB HlocB HprepB HincsB HpreB
    HtargetBA Hpath.
  destruct (includeTarget_Parent _ _ _ _ _ _ HtargetAB) as [HpB Hopt].
  destruct (cycle_closing_node_fails W fuelB nA nodeB nB nodeA' tB tB1 dB vB
              nsA iBA iBA' preB postB HpB HlocB HprepB HincsB HpreB
              HtargetBA Hpath)
    as (e & He & HB).
  split; [by exists e|]. split.
  - intros Hoptional.
    assert (exists e', is_cycle_error e' = true /\
              includeStep W (Taskfile W (fuelA `max` S fuelB)) nA vA nsB iAB
                tA1 = Err e') as (e' & He' & Hstep).
    { rewrite (includeStep_target _ _ _ _ _ _ _ _ _ HtargetAB).
      destruct (checkCircularIncludes_outcome W nodeB nA HpB)
        as [Hcheck|(e1 & He1 & Hcheck)]; rewrite Hcheck.
      - exists e. split; [done|]. simpl. rewrite HB by lia.
        unfold followInclude. simpl. by rewrite Hopt, Hoptional.
      - by exists e1. }
    exists e'. split; [done|]. intros fuel HfuelA HfuelB.
    apply (Taskfile_include_fails W (fuelA `max` S fuelB) nodeA nA tA tA1 dA
             vA preA postA nsB iAB e' HlocA HprepA HincsA); [|done|lia].
    rewrite <- HpreA. apply Range_fuel_mono; [lia|]. by rewrite HpreA.
  - intros Hoptional Hcheck fuel t Hfuel.
    rewrite (includeStep_target _ _ _ _ _ _ _ _ _ HtargetAB).
    rewrite Hcheck. simpl. rewrite HB by done. unfold followInclude. simpl.
    by rewrite Hopt, Hoptional.
Qed.

(* ================================================================= *)
(** ** Dotenv lists and optional includes *)

Lemma mergeInclude_dotenv (W : World) (v : float) (namespace : string)
    (i : taskfile.IncludedTaskfile) (c t : taskfile.Taskfile) :
  (3 <=? v)%float = true -> taskfile.Dotenv c <> [] ->
  mergeInclude W v namespace i c t = Err ErrIncludedTaskfilesCantHaveDotenvs.
Proof.
  intros Hv Hdotenv. unfold mergeInclude. rewrite Hv.
  by destruct (taskfile.Dotenv c).
Qed.

(** The callback on an include whose declaration resolves with a dotenv
    list, under a version of 3.0 or more: the optional flag plays no part. *)
Lemma includeStep_dotenv (W : World) self (node child : ReaderNode)
    (v : float) (namespace : string) (i i' : taskfile.IncludedTaskfile)
    (t c : taskfile.Taskfile) (cdir : string) :
  includeTarget W node v i = Ok (i', child) ->
  checkCircularIncludes W (Some child) = Ok tt ->
  snd (self child) = Ok (c, cdir) ->
  (3 <=? v)%float = true -> taskfile.Dotenv c <> [] ->
  includeStep W self node v namespace i t
  = Err ErrIncludedTaskfilesCantHaveDotenvs.
Proof.
  intros Htarget Hcheck Hchild Hv Hdotenv.
  rewrite (includeStep_target _ _ _ _ _ _ _ _ _ Htarget), Hcheck. simpl.
  rewrite Hchild. unfold followInclude. by apply mergeInclude_dotenv.
Qed.

(** A failing callback fails the resolution, once the includes before it
    have been merged. *)
(** C2.  Under a declaration whose version is 3.0 or more, an include
    reached after the ones before it have been merged, whose file is found
    and passes the cycle guard, and whose declaration resolves and lists a
    dotenv file, fails the resolution of the including declaration with the
    one error [ErrIncludedTaskfilesCantHaveDotenvs]. *)
Theorem dotenv_in_included_declaration_fails
    (W : World) (fuel : nat) (readerNode node child : ReaderNode)
    (t t1 c : taskfile.Taskfile) (dir cdir : string) (v : float)
    (pre post : list (string * taskfile.IncludedTaskfile))
    (namespace : string) (i i' : taskfile.IncludedTaskfile) :
  locate W readerNode = (node, Ok tt) ->
  prepare W node = Ok (t, dir, v) ->
  (3 <=? v)%float = true ->
  taskfile.Includes t = pre ++ (namespace, i) :: post ->
  Range pre (includeStep W (Taskfile W fuel) node v) t = Ok t1 ->
  includeTarget W node v i = Ok (i', child) ->
  checkCircularIncludes W (Some child) = Ok tt ->
  snd (Taskfile W fuel child) = Ok (c, cdir) ->
  taskfile.Dotenv c <> [] ->
  forall fuel', fuel < fuel' ->
    Taskfile W fuel' readerNode
    = (node, Err ErrIncludedTaskfilesCantHaveDotenvs).
Proof.
  intros Hloc Hprep Hv Hincs Hpre Htarget Hcheck Hchild Hdotenv.
  eapply Taskfile_include_fails; [done..|].
  by eapply includeStep_dotenv.
Qed.

(** C9.  Take an optional include under a declaration whose version is 3.0
    or more, reached after the includes before it have been merged, whose
    file is found and passes the cycle guard.  If the resolution of the
    included declaration fails, the include is skipped and the declaration
    is left as it was.  If it succeeds with a dotenv list, the callback
    returns [ErrIncludedTaskfilesCantHaveDotenvs] and the resolution of the
    including declaration fails with it, the include being optional or
    not. *)
Theorem optional_include_skips_failures_but_not_dotenv
    (W : World) (fuel : nat) (readerNode node child : ReaderNode)
    (t t1 : taskfile.Taskfile) (dir : string) (v : float)
    (pre post : list (string * taskfile.IncludedTaskfile))
    (namespace : string) (i i' : taskfile.IncludedTaskfile) :
  locate W readerNode = (node, Ok tt) ->
  prepare W node = Ok (t, dir, v) ->
  (3 <=? v)%float = true ->
  taskfile.Includes t = pre ++ (namespace, i) :: post ->
  Range pre (includeStep W (Taskfile W fuel) node v) t = Ok t1 ->
  includeTarget W node v i = Ok (i', child) ->
  checkCircularIncludes W (Some child) = Ok tt ->
  taskfile.Inc_Optional i = true ->
  (forall e, snd (Taskfile W fuel child) = Err e ->
     includeStep W (Taskfile W fuel) node v namespace i t1 = Ok t1 /\
     Range (pre ++ [(namespace, i)])
           (includeStep W (Taskfile W fuel) node v) t = Ok t1) /\
  (forall c cdir,
     snd (Taskfile W fuel child) = Ok (c, cdir) ->
     taskfile.Dotenv c <> [] ->
     includeStep W (Taskfile W fuel) node v namespace i t1
     = Err ErrIncludedTaskfilesCantHaveDotenvs /\
     forall fuel', fuel < fuel' ->
       Taskfile W fuel' readerNode
       = (node, Err ErrIncludedTaskfilesCantHaveDotenvs)).
Proof.
  intros Hloc Hprep Hv Hincs Hpre Htarget Hcheck Hopt.
  destruct (includeTarget_Parent _ _ _ _ _ _ Htarget) as [_ Hopt'].
  split.
  - intros e Hchild.
    assert (includeStep W (Taskfile W fuel) node v namespace i t1 = Ok t1) as H.
    { rewrite (includeStep_target _ _ _ _ _ _ _ _ _ Htarget), Hcheck. simpl.
      rewrite Hchild. unfold followInclude. by rewrite Hopt', Hopt. }
    split; [done|]. rewrite Range_app, Hpre. simpl. by rewrite H.
  - intros c cdir Hchild Hdotenv.
    assert (includeStep W (Taskfile W fuel) node v namespace i t1
            = Err ErrIncludedTaskfilesCantHaveDotenvs) as H
      by by eapply includeStep_dotenv.
    split; [done|]. by eapply Taskfile_include_fails.
Qed.

(* ================================================================= *)
(** ** Names of tasks *)

(** C4.  Let the resolver return a declaration for a node.  The run has
    read the declaration of the node, followed its includes from the first
    to the last and merged the sibling of the platform, in this order, and
    the declaration returned is what the final pass makes of the declaration
    [merged] that these merges have left: the same names, under each name the
    task that [merged] has there with its name set to the key, and the empty
    task with its name set to the key where [merged] has a nil entry; the
    rest of the declaration is as [merged] has it.  So every entry is a task,
    and the name of every task is the key it is stored under. *)
Theorem returned_tasks_are_named_by_their_key
    (W : World) (fuel : nat) (readerNode node : ReaderNode)
    (t : taskfile.Taskfile) (dir : string) :
  Taskfile W fuel readerNode = (node, Ok (t, dir)) ->
  exists (fuel0 : nat) (loaded included merged : taskfile.Taskfile)
         (v : float),
    fuel = S fuel0 /\
    prepare W node = Ok (loaded, dir, v) /\
    Range (taskfile.Includes loaded)
          (includeStep W (Taskfile W fuel0) node v) loaded = Ok included /\
    mergeOSTaskfile W node v included = Ok merged /\
    t = taskfile.setTasks (taskfile.Tasks t) merged /\
    (forall name,
       taskfile.Tasks t !! name =
       match taskfile.Tasks merged !! name with
       | Some (Some task) => Some (Some (taskfile.Task_setTask name task))
       | Some None => Some (Some (taskfile.Task_setTask name taskfile.emptyTask))
       | None => None
       end) /\
    (forall name entry,
       taskfile.Tasks t !! name = Some entry ->
       exists task, entry = Some task /\ taskfile.Task_Task task = name).
Proof.
  intros H.
  apply Taskfile_Ok_inv in H
    as (fuel0 & t0 & v & t1 & t2 & -> & _ & Hprep & Hrange & Hos & ->).
  exists fuel0, t0, t1, t2, v. do 4 (split; [done|]). split; [|split].
  - unfold normalizeTasks. by destruct t2.
  - intros name. rewrite normalizeTasks_lookup.
    by destruct (taskfile.Tasks t2 !! name) as [[task|]|].
  - intros name entry. rewrite normalizeTasks_lookup.
    destruct (taskfile.Tasks t2 !! name) as [e|]; simpl; [|done].
    intros [= <-]. unfold normalizeTask. eauto.
Qed.

(* ================================================================= *)
(** ** Advanced imports and the alias of the default task *)

Lemma Taskfile_no_nil_task (W : World) (fuel : nat) (readerNode : ReaderNode)
    (t : taskfile.Taskfile) (dir : string) (name : string)
    (entry : option taskfile.Task) :
  snd (Taskfile W fuel readerNode) = Ok (t, dir) ->
  taskfile.Tasks t !! name = Some entry -> is_Some entry.
Proof.
  destruct (Taskfile W fuel readerNode) as [node r] eqn:E. simpl.
  intros ->. apply Taskfile_Ok_inv in E
    as (fuel0 & t0 & v & t1 & t2 & _ & _ & _ & _ & _ & ->).
  rewrite normalizeTasks_lookup.
  destruct (taskfile.Tasks t2 !! name); simpl; [|done].
  intros [= <-]. by eexists.
Qed.

Lemma advancedImport_Ok (W : World) (i : taskfile.IncludedTaskfile)
    (c : taskfile.Taskfile) (dir : string) (vars env : taskfile.Vars) :
  FullDirPath W i = Ok dir ->
  taskfile.Vars_ c = Some vars ->
  taskfile.Env c = Some env ->
  (forall name entry, taskfile.Tasks c !! name = Some entry -> is_Some entry) ->
  exists c',
    advancedImport W i c = Ok c' /\
    taskfile.Vars_ c' = Some (taskfile.Vars_setDir dir vars) /\
    taskfile.Env c' = Some (taskfile.Vars_setDir dir env) /\
    forall name,
      taskfile.Tasks c' !! name
      = fmap (rebased W dir i (Some (taskfile.Vars_setDir dir vars)))
          <$> taskfile.Tasks c !! name.
Proof.
  intros Hdir Hvars Henv Hnonnil. unfold advancedImport.
  rewrite Hdir, Hvars, Henv. simpl.
  rewrite (forEach_Ok_intro _
             (fun _ entry =>
                rebased W dir i (Some (taskfile.Vars_setDir dir vars))
                  <$> entry)).
  - simpl. eexists. split; [done|]. split; [done|]. split; [done|].
    intros name. simpl. rewrite map_lookup_imap.
    by destruct (taskfile.Tasks c !! name).
  - intros name entry Hentry.
    by destruct (Hnonnil name entry Hentry) as [task ->].
Qed.

Lemma advancedImport_nil (W : World) (i : taskfile.IncludedTaskfile)
    (c : taskfile.Taskfile) (dir : string) :
  FullDirPath W i = Ok dir ->
  taskfile.Vars_ c = None \/
  (is_Some (taskfile.Vars_ c) /\ taskfile.Env c = None) ->
  advancedImport W i c = Panic NilDereference.
Proof.
  intros Hdir Hnil. unfold advancedImport. rewrite Hdir. simpl.
  destruct Hnil as [->|[[vars ->] ->]]; done.
Qed.

Lemma Vars_setDir_lookup (dir : string) (vs : taskfile.Vars) (name : string)
    (x : taskfile.Var) :
  taskfile.Mapping (taskfile.Vars_setDir dir vs) !! name = Some x ->
  taskfile.Var_Dir x = dir /\
  exists x0, taskfile.Mapping vs !! name = Some x0 /\
             taskfile.Var_Static x = taskfile.Var_Static x0.
Proof.
  unfold taskfile.Vars_setDir. simpl. rewrite lookup_fmap.
  destruct (taskfile.Mapping vs !! name) as [x0|]; simpl; [|done].
  intros [= <-]. eauto.
Qed.

(** C5 (amended).  Take an include whose file is found and passes the cycle
    guard, whose advanced-import flag is set, whose declaration resolves
    (with no dotenv list under a version of 3.0 or more) with a set of
    variables [vars] and an environment [env], neither of them nil, and
    whose full directory path is [dir].  Then the callback hands to the
    Merger, and to the alias step after it, a declaration [c'] whose
    variables and environment are [vars] and [env] with every entry keeping
    its name and its value and having [dir] for directory, and whose tasks
    are the tasks of the resolved declaration, under the same names, each
    with the directory [SmartJoin dir d] for the directory [d] it had, with
    the pointer to the variables of the include in [IncludeVars] and the
    variables of [c'] in [IncludedTaskfileVars] (two fields, neither merged
    into the other), with the include in [IncludedTaskfile], and with its
    other fields unchanged. *)
Theorem advanced_import_rebases_the_included_declaration
    (W : World) (fuel : nat) (node child : ReaderNode) (v : float)
    (namespace : string) (i0 i : taskfile.IncludedTaskfile)
    (t c : taskfile.Taskfile) (cdir dir : string)
    (vars env : taskfile.Vars) :
  includeTarget W node v i0 = Ok (i, child) ->
  checkCircularIncludes W (Some child) = Ok tt ->
  snd (Taskfile W fuel child) = Ok (c, cdir) ->
  (3 <=? v)%float && (0 <? length (taskfile.Dotenv c))%nat = false ->
  taskfile.Inc_AdvancedImport i0 = true ->
  FullDirPath W i = Ok dir ->
  taskfile.Vars_ c = Some vars ->
  taskfile.Env c = Some env ->
  exists c' vars' env',
    includeStep W (Taskfile W fuel) node v namespace i0 t
    = (Merge W t c' (Some i) [namespace] ≫= defaultAlias namespace i c') /\
    taskfile.Vars_ c' = Some vars' /\
    taskfile.Env c' = Some env' /\
    (forall name,
       taskfile.Mapping vars' !! name
       = taskfile.Var_setDir dir <$> taskfile.Mapping vars !! name) /\
    (forall name,
       taskfile.Mapping env' !! name
       = taskfile.Var_setDir dir <$> taskfile.Mapping env !! name) /\
    (forall name x,
       taskfile.Mapping vars' !! name = Some x \/
       taskfile.Mapping env' !! name = Some x ->
       taskfile.Var_Dir x = dir) /\
    (forall name entry,
       taskfile.Tasks c' !! name = Some entry ->
       exists task task',
         taskfile.Tasks c !! name = Some (Some task) /\
         entry = Some task' /\
         taskfile.Task_Dir task' = SmartJoin W dir (taskfile.Task_Dir task) /\
         taskfile.Task_IncludeVars task' = taskfile.Inc_Vars i0 /\
         taskfile.Task_IncludedTaskfileVars task' = Some vars' /\
         taskfile.Task_IncludedTaskfile task' = Some i /\
         task'
         = taskfile.Task_setImport (taskfile.Inc_Vars i0) (Some vars') i
             (taskfile.Task_setDir
                (SmartJoin W dir (taskfile.Task_Dir task)) task)) /\
    (forall name, is_Some (taskfile.Tasks c !! name) ->
                  is_Some (taskfile.Tasks c' !! name)).
Proof.
  intros Htarget Hcheck Hchild Hdotenv Hadv Hdir Hvars Henv.
  destruct (includeTarget_Ok_inv _ _ _ _ _ _ Htarget)
    as (p & path & Htempl & _ & _ & _).
  apply templateInclude_Ok_inv in Htempl as (_ & _ & _ & Hadv' & Hivars & _).
  destruct (advancedImport_Ok W i c dir vars env Hdir Hvars Henv)
    as (c' & Himp & HV & HE & HT).
  { intros name entry. by apply (Taskfile_no_nil_task W fuel child c cdir). }
  exists c', (taskfile.Vars_setDir dir vars), (taskfile.Vars_setDir dir env).
  split; [|split; [|split; [|split; [|split; [|split; [|split]]]]]].
  - rewrite (includeStep_target _ _ _ _ _ _ _ _ _ Htarget), Hcheck. simpl.
    rewrite Hchild. unfold followInclude, mergeInclude.
    by rewrite Hdotenv, Hadv', Hadv, Himp.
  - exact HV.
  - exact HE.
  - intros name. unfold taskfile.Vars_setDir. simpl. by rewrite lookup_fmap.
  - intros name. unfold taskfile.Vars_setDir. simpl. by rewrite lookup_fmap.
  - intros name x [H|H]; by apply Vars_setDir_lookup in H as [? _].
  - intros name entry. rewrite HT.
    destruct (taskfile.Tasks c !! name) as [[task|]|] eqn:E; simpl; try done.
    + intros [= <-].
      exists task,
        (rebased W dir i (Some (taskfile.Vars_setDir dir vars)) task).
      unfold rebased. rewrite Hivars. by repeat split.
    + intros _.
      by destruct (Taskfile_no_nil_task W fuel child c cdir name None Hchild E).
  - intros name [entry H]. rewrite HT, H. by eexists.
Qed.

Lemma index_Some {A} (m : gmap string (option A)) (k : string) (a : A) :
  index m k = Some a <-> m !! k = Some (Some a).
Proof.
  unfold index. destruct (m !! k) as [[a'|]|]; simpl; split; congruence.
Qed.

(** C6.  Let an include be merged under [namespace]: the declaration handed
    to the Merger (the resolved one, rebased if the import is advanced)
    defines a task under the key [default], and the merge leaves the
    declaration [merged].  If [merged] has no task under the key
    [namespace] and has the task [task] under [namespace:default], then the
    callback returns [merged] with that one entry changed: the aliases of
    the task are its aliases, then [namespace], then the aliases of the
    include, in this order. *)
Theorem default_task_takes_the_namespace_as_alias
    (W : World) (v : float) (namespace : string)
    (i : taskfile.IncludedTaskfile) (c c' t merged : taskfile.Taskfile)
    (default task : taskfile.Task) :
  (3 <=? v)%float && (0 <? length (taskfile.Dotenv c))%nat = false ->
  (if taskfile.Inc_AdvancedImport i then advancedImport W i c else Ok c)
  = Ok c' ->
  Merge W t c' (Some i) [namespace] = Ok merged ->
  index (taskfile.Tasks c') "default" = Some default ->
  index (taskfile.Tasks merged) namespace = None ->
  index (taskfile.Tasks merged) (namespace +:+ ":default") = Some task ->
  exists t',
    mergeInclude W v namespace i c t = Ok t' /\
    index (taskfile.Tasks t') (namespace +:+ ":default")
    = Some (taskfile.Task_setAliases
              (taskfile.Task_Aliases task ++ [namespace]
                 ++ taskfile.Inc_Aliases i) task) /\
    (forall name, name <> namespace +:+ ":default" ->
       taskfile.Tasks t' !! name = taskfile.Tasks merged !! name) /\
    t' = taskfile.setTasks (taskfile.Tasks t') merged.
Proof.
  intros Hdotenv Hc' Hmerge Hdefault Hnone Htask.
  eexists. split; [|split; [|split]].
  - unfold mergeInclude. rewrite Hdotenv, Hc'. simpl. rewrite Hmerge. simpl.
    unfold defaultAlias. by rewrite Hdefault, Hnone, Htask.
  - simpl. apply index_Some. by rewrite lookup_insert_eq.
  - intros name Hne. simpl. by rewrite lookup_insert_ne.
  - done.
Qed.

(* ================================================================= *)
(** ** The loaders *)

(** C7.  Let a manifest open, read and decode to the scripts mapping with
    the one entry [build: tsc], in a process that has a working directory,
    and let the scan of the content for the entry return.  If no
    [yarn.lock] is found beside the manifest, the declaration read has the
    one task [build], whose commands are
    [npm install --silent --frozen-lockfile] and [npm run build]; if one is
    found, the two commands start with [yarn] instead. *)
Theorem manifest_with_build_script
    (W : World) (projectRoot file : string) (f : File)
    (fd wd relFile ln : string) (p : packageJson) :
  os_Open W file = Ok f ->
  ioutil_ReadAll W f = Ok fd ->
  json_Unmarshal W fd = Ok p ->
  Scripts p = {[ "build" := "tsc" ]} ->
  os_Getwd W = Ok wd ->
  orElse file (filepath_Rel W wd file) = Ok relFile ->
  findLineNumber W fd "build" = Ok ln ->
  (forall e,
     os_Stat W (filepath_Join W (filepath_Dir W file) "yarn.lock") = Err e ->
     exists t task,
       run (readPackageJson W projectRoot file) = Ok t /\
       taskfile.Tasks t = {[ "build" := Some task ]} /\
       taskfile.Task_Cmds task
       = [ taskfile.mkCmd "npm install --silent --frozen-lockfile";
           taskfile.mkCmd "npm run build" ]) /\
  (forall fi,
     os_Stat W (filepath_Join W (filepath_Dir W file) "yarn.lock") = Ok fi ->
     exists t task,
       run (readPackageJson W projectRoot file) = Ok t /\
       taskfile.Tasks t = {[ "build" := Some task ]} /\
       taskfile.Task_Cmds task
       = [ taskfile.mkCmd "yarn install --silent --frozen-lockfile";
           taskfile.mkCmd "yarn run build" ]).
Proof.
  intros Hopen Hread Hjson Hscripts Hwd Hrel Hln.
  set (task := fun cmd name : string =>
         taskfile.mkTask EmptyString EmptyString file
           (arrow +:+ " " +:+ relFile +:+ ln)
           [ taskfile.mkCmd (cmd +:+ " install --silent --frozen-lockfile");
             taskfile.mkCmd (cmd +:+ " run " +:+ name) ]
           [] false None None None).
  assert (forall cmd, lockfileCmd W file = Ok cmd ->
          run (readPackageJson W projectRoot file)
          = Ok (taskfile.setTasks {[ "build" := Some (task cmd "build") ]}
                  (taskfile.mkTaskfile "3" ∅ [] None None []))) as Hcmd.
  { intros cmd Hlock. unfold readPackageJson. io_unfold.
    io_with Hopen. io_with Hread. io_with Hjson. io_with Hwd. io_with Hrel.
    io_with Hlock.
    rewrite Hscripts, <- insert_empty.
    rewrite (forEach_Ok_intro _ (fun name _ => Some (task cmd name))).
    - simpl. reflexivity.
    - intros k a Hk. apply lookup_insert_Some in Hk as [[<- <-]|[_ Hk]].
      + unfold packageTask. by rewrite Hln.
      + by rewrite lookup_empty in Hk. }
  split.
  - intros e Hstat. eexists. exists (task "npm" "build").
    split; [apply Hcmd; unfold lockfileCmd; by rewrite Hstat|].
    split; reflexivity.
  - intros fi Hstat. eexists. exists (task "yarn" "build").
    split; [apply Hcmd; unfold lockfileCmd; by rewrite Hstat|].
    split; reflexivity.
Qed.

(** C8 (amended).  Neither loader closes what it opens: whenever it
    returns, by whichever exit, the table of open handles is the one it
    started from with, if [os.Open] succeeded, the handle opened added to
    it. *)
Theorem loaders_leave_their_file_open
    (W : World) (projectRoot file : string) (h : list File) :
  snd (readTaskfile W file h)
  = match os_Open W file with Ok f => f :: h | _ => h end /\
  snd (readPackageJson W projectRoot file h)
  = match os_Open W file with Ok f => f :: h | _ => h end.
Proof.
  split.
  - unfold readTaskfile. io_unfold.
    destruct (os_Open W file) as [f| | |]; try done. cbn beta iota.
    destruct (wrapErr _ (yaml_Decode W f)) as [t| | |]; try done.
    cbn beta iota. by destruct (forEach _ _).
  - unfold readPackageJson. io_unfold.
    destruct (os_Open W file) as [f| | |]; try done. cbn beta iota.
    destruct (ioutil_ReadAll W f) as [fd| | |]; try done. cbn beta iota.
    destruct (json_Unmarshal W fd) as [p| | |]; try done. cbn beta iota.
    destruct (panicOnErr (os_Getwd W)) as [wd| | |]; try done. cbn beta iota.
    destruct (orElse file _) as [relFile| | |]; try done. cbn beta iota.
    destruct (lockfileCmd W file) as [cmd| | |]; try done. cbn beta iota.
    by destruct (forEach _ _).
Qed.

(* ================================================================= *)
(** ** The node of the caller *)

(** C10.  The node that [Taskfile] leaves to its caller, whatever the
    outcome of the call.  A node with a directory and an entrypoint is left
    as it was.  A node with no directory gets the working directory.  A node
    with no entrypoint gets, for directory and entrypoint, the directory and
    the base name of the default file found in its directory (the working
    directory if it had none); its other fields are kept. *)
Theorem Taskfile_updates_the_node_of_its_caller
    (W : World) (fuel : nat) (readerNode : ReaderNode) :
  (is_empty (Dir readerNode) = false ->
   is_empty (Entrypoint readerNode) = false ->
   fst (Taskfile W (S fuel) readerNode) = readerNode) /\
  (forall wd,
     is_empty (Dir readerNode) = true ->
     os_Getwd W = Ok wd ->
     is_empty (Entrypoint readerNode) = false ->
     fst (Taskfile W (S fuel) readerNode)
     = mkReaderNode wd (Entrypoint readerNode) (Optional readerNode)
                    (Parent readerNode)) /\
  (forall dir path,
     (if is_empty (Dir readerNode) then os_Getwd W = Ok dir
      else dir = Dir readerNode) ->
     is_empty (Entrypoint readerNode) = true ->
     searchForFile W (SmartJoin W dir (Entrypoint readerNode)) "Taskfile.yml"
     = Ok (path, true) ->
     fst (Taskfile W (S fuel) readerNode)
     = mkReaderNode (filepath_Dir W path) (filepath_Base W path)
                    (Optional readerNode) (Parent readerNode)).
Proof.
  rewrite Taskfile_node. unfold locate, defaultDir, defaultEntrypoint.
  destruct readerNode as [d e o p]. simpl.
  split; [|split].
  - intros Hd He. rewrite Hd. simpl. by rewrite He.
  - intros wd Hd Hwd He. rewrite Hd, Hwd. simpl. by rewrite He.
  - intros dir path Hdir He Hsearch.
    destruct (is_empty d); [rewrite Hdir|subst dir]; simpl;
      by rewrite He, Hsearch.
Qed.

(* ================================================================= *)
(** ** Directories of tasks *)

Lemma hasDir_inv (entry : option taskfile.Task) :
  hasDir entry = true ->
  exists task, entry = Some task /\ is_empty (taskfile.Task_Dir task) = false.
Proof.
  destruct entry as [task|]; simpl; [|done].
  intros H. apply negb_true_iff in H. eauto.
Qed.

Lemma hasDir_defaultTaskDir (dir k : string) (a b : option taskfile.Task) :
  is_empty dir = false -> defaultTaskDir dir k a = Ok b -> hasDir b = true.
Proof.
  intros Hdir. destruct a as [task|]; simpl; [|done]. intros [= <-].
  unfold defaulted.
  destruct (is_empty (taskfile.Task_Dir task)) eqn:E; simpl.
  - by rewrite Hdir.
  - by rewrite E.
Qed.

Lemma normalizeTasks_tasksHaveDir (t : taskfile.Taskfile) :
  tasksHaveDir t -> tasksHaveDir (normalizeTasks t).
Proof.
  intros Ht k e. rewrite normalizeTasks_lookup.
  destruct (taskfile.Tasks t !! k) as [e0|] eqn:E; simpl; [|done].
  intros [= <-]. specialize (Ht k e0 E). by destruct e0.
Qed.

Lemma defaultAlias_tasksHaveDir (namespace : string)
    (i : taskfile.IncludedTaskfile) (c t t' : taskfile.Taskfile) :
  defaultAlias namespace i c t = Ok t' -> tasksHaveDir t -> tasksHaveDir t'.
Proof.
  unfold defaultAlias. intros H Ht.
  destruct (index (taskfile.Tasks c) "default"); [|by injection H as <-].
  destruct (index (taskfile.Tasks t) namespace); [by injection H as <-|].
  destruct (index (taskfile.Tasks t) (namespace +:+ ":default")) as [task|] eqn:E;
    [|done].
  injection H as <-. intros k e. simpl.
  destruct (decide (namespace +:+ ":default" = k)) as [<-|Hne].
  - rewrite lookup_insert_eq. intros [= <-]. simpl.
    apply index_Some in E. by specialize (Ht _ _ E).
  - rewrite lookup_insert_ne by done. apply Ht.
Qed.

Section directories.
Context (W : World).
Hypothesis Dir_nonempty : forall p, is_empty (filepath_Dir W p) = false.
Hypothesis SmartJoin_nonempty :
  forall a b, is_empty b = false -> is_empty (SmartJoin W a b) = false.
Hypothesis Merge_keeps_dirs :
  forall t1 t2 i ns t,
    Merge W t1 t2 i ns = Ok t ->
    tasksHaveDir t1 -> tasksHaveDir t2 -> tasksHaveDir t.
Hypothesis sibling_has_dirs :
  forall n t0 d v fi sib,
    prepare W n = Ok (t0, d, v) ->
    (v <? 3)%float = true ->
    os_Stat W (osTaskfilePath W n) = Ok fi ->
    run (readTaskfile W (osTaskfilePath W n)) = Ok sib ->
    tasksHaveDir sib.

Lemma loadDeclaration_tasksHaveDir readerNode t dir :
  loadDeclaration W readerNode = Ok (t, dir) -> tasksHaveDir t.
Proof using Dir_nonempty.
  intros Hload.
  apply loadDeclaration_Ok_inv in Hload
    as (root & raw & tasks & _ & Htasks & -> & ->).
  unfold tasksHaveDir. simpl.
  apply (forEach_Forall _ (fun b => hasDir b = true) _ _ Htasks).
  intros k a b _. by apply hasDir_defaultTaskDir.
Qed.

Lemma prepare_tasksHaveDir readerNode t dir v :
  prepare W readerNode = Ok (t, dir, v) -> tasksHaveDir t.
Proof using Dir_nonempty.
  intros H. apply prepare_Ok_inv in H as (t0 & Hload & _ & ->).
  by apply loadDeclaration_tasksHaveDir in Hload.
Qed.

Lemma advancedImport_tasksHaveDir i c c' :
  advancedImport W i c = Ok c' -> tasksHaveDir c -> tasksHaveDir c'.
Proof using SmartJoin_nonempty.
  unfold advancedImport. intros H Hc.
  apply bind_Ok_inv in H as (dir & _ & H).
  apply bind_Ok_inv in H as (vars & _ & H).
  apply bind_Ok_inv in H as (env & _ & H).
  apply bind_Ok_inv in H as (tasks & Htasks & [= <-]).
  unfold tasksHaveDir. simpl.
  apply (forEach_Forall _ (fun b => hasDir b = true) _ _ Htasks).
  intros k a b Ha. specialize (Hc k a Ha).
  destruct a as [task|]; simpl; [|done]. intros [= <-]. simpl.
  simpl in Hc. apply negb_true_iff in Hc. by rewrite SmartJoin_nonempty.
Qed.

Lemma mergeInclude_tasksHaveDir v namespace i c t t' :
  mergeInclude W v namespace i c t = Ok t' ->
  tasksHaveDir c -> tasksHaveDir t -> tasksHaveDir t'.
Proof using SmartJoin_nonempty Merge_keeps_dirs.
  unfold mergeInclude. intros H Hc Ht.
  destruct (_ && _); [done|].
  apply bind_Ok_inv in H as (c' & Hc' & H).
  apply bind_Ok_inv in H as (t1 & Hmerge & H).
  assert (tasksHaveDir c') as Hc'dir.
  { destruct (taskfile.Inc_AdvancedImport i).
    - by eapply advancedImport_tasksHaveDir.
    - by injection Hc' as <-. }
  eapply defaultAlias_tasksHaveDir; [done|].
  by eapply Merge_keeps_dirs.
Qed.

Lemma includeStep_tasksHaveDir self readerNode v namespace i t t' :
  (forall n n' c d, self n = (n', Ok (c, d)) -> tasksHaveDir c) ->
  includeStep W self readerNode v namespace i t = Ok t' ->
  tasksHaveDir t -> tasksHaveDir t'.
Proof using SmartJoin_nonempty Merge_keeps_dirs.
  intros Hself H Ht. unfold includeStep in H.
  apply bind_Ok_inv in H as (i' & _ & H).
  apply bind_Ok_inv in H as (p & _ & H).
  destruct (exists_ W p) as [path|e| |]; try done.
  - apply bind_Ok_inv in H as ([] & _ & H). unfold followInclude in H.
    destruct (self (includeNode W readerNode i' path)) as [n' [[c d]|e| |]] eqn:E;
      simpl in H; try done.
    + eapply mergeInclude_tasksHaveDir; [done| |done]. by eapply Hself.
    + destruct (taskfile.Inc_Optional i'); [by injection H as <-|done].
  - destruct (taskfile.Inc_Optional i'); [by injection H as <-|done].
Qed.

Lemma mergeOSTaskfile_tasksHaveDir readerNode t0 d v t t' :
  prepare W readerNode = Ok (t0, d, v) ->
  mergeOSTaskfile W readerNode v t = Ok t' ->
  tasksHaveDir t -> tasksHaveDir t'.
Proof using Merge_keeps_dirs sibling_has_dirs.
  intros Hprep H Ht. unfold mergeOSTaskfile in H.
  destruct (v <? 3)%float eqn:Hv; [|by injection H as <-].
  destruct (os_Stat W (osTaskfilePath W readerNode)) as [fi|e| |] eqn:Hstat;
    try done; [|by injection H as <-].
  apply bind_Ok_inv in H as (sib & Hsib & Hmerge).
  eapply Merge_keeps_dirs; [exact Hmerge|done|].
  by eapply sibling_has_dirs.
Qed.

Lemma Taskfile_tasksHaveDir fuel readerNode node t dir :
  Taskfile W fuel readerNode = (node, Ok (t, dir)) -> tasksHaveDir t.
Proof using All.
  revert readerNode node t dir.
  induction fuel as [|fuel IH]; intros readerNode node t dir H; [done|].
  apply Taskfile_Ok_inv in H
    as (fuel0 & t0 & v & t1 & t2 & [= <-] & _ & Hprep & Hrange & Hos & ->).
  apply normalizeTasks_tasksHaveDir.
  eapply mergeOSTaskfile_tasksHaveDir; [exact Hprep|exact Hos|].
  eapply (Range_invariant tasksHaveDir); [| |exact Hrange].
  - intros k i s s' Hs Hstep. eapply includeStep_tasksHaveDir; [|done|done].
    intros n n' c d. apply IH.
  - by eapply prepare_tasksHaveDir.
Qed.

End directories.

(** C3 (amended).  In a world where [filepath.Dir] returns no empty path,
    [SmartJoin] returns none for a second argument that is not empty, the
    Merger returns only tasks with a directory when the two declarations it
    is given have only such, and the sibling of the platform that is read
    for a declaration of a version below 3.0 has only tasks with a
    directory:
    - the tasks of a declaration just read are the tasks the loader returned,
      each with its own directory if it has one and with the directory of
      the file if it has none;
    - every entry of the task mapping of a declaration the resolver returns
      is a task whose directory is not empty.
    The defaulting is applied to the tasks of the file of the node and to
    no other: the tasks of a sibling are merged with the directory the
    sibling gives them, and the task that the final pass makes for a nil
    entry has the empty directory. *)
Theorem returned_tasks_have_a_directory
    (W : World) (fuel : nat) (readerNode node : ReaderNode)
    (t : taskfile.Taskfile) (dir : string) :
  (forall p, is_empty (filepath_Dir W p) = false) ->
  (forall a b, is_empty b = false -> is_empty (SmartJoin W a b) = false) ->
  (forall t1 t2 i ns t,
     Merge W t1 t2 i ns = Ok t ->
     tasksHaveDir t1 -> tasksHaveDir t2 -> tasksHaveDir t) ->
  (forall n t0 d v fi sib,
     prepare W n = Ok (t0, d, v) ->
     (v <? 3)%float = true ->
     os_Stat W (osTaskfilePath W n) = Ok fi ->
     run (readTaskfile W (osTaskfilePath W n)) = Ok sib ->
     tasksHaveDir sib) ->
  Taskfile W fuel readerNode = (node, Ok (t, dir)) ->
  (forall n t0 d,
     loadDeclaration W n = Ok (t0, d) ->
     d = filepath_Dir W (nodePath W n) /\
     exists root raw,
       readDeclaration W root (nodePath W n) = Ok raw /\
       forall name entry,
         taskfile.Tasks t0 !! name = Some entry ->
         exists task,
           taskfile.Tasks raw !! name = Some (Some task) /\
           entry = Some (defaulted d task) /\
           is_empty (taskfile.Task_Dir (defaulted d task)) = false) /\
  (forall name entry,
     taskfile.Tasks t !! name = Some entry ->
     exists task,
       entry = Some task /\ is_empty (taskfile.Task_Dir task) = false) /\
  (forall fi sib merged v included,
     (v <? 3)%float = true ->
     os_Stat W (osTaskfilePath W node) = Ok fi ->
     run (readTaskfile W (osTaskfilePath W node)) = Ok sib ->
     Merge W included sib None [] = Ok merged ->
     mergeOSTaskfile W node v included = Ok merged) /\
  (forall name,
     exists task,
       normalizeTask name None = Some task /\
       taskfile.Task_Dir task = EmptyString).
Proof.
  intros HDir HJoin HMerge Hsibling Hrun. split; [|split; [|split]].
  - intros n t0 d Hload.
    pose proof (loadDeclaration_tasksHaveDir W HDir n t0 d Hload) as Hdirs.
    apply loadDeclaration_Ok_inv in Hload
      as (root & raw & tasks & Hraw & Htasks & -> & ->).
    split; [done|]. exists root, raw. split; [done|].
    intros name entry Hentry. simpl in Hentry.
    pose proof (forEach_Ok_inv _ _ _ Htasks name) as Hinv.
    destruct (taskfile.Tasks raw !! name) as [[task|]|];
      [|by destruct Hinv as (? & ? & _)|congruence].
    destruct Hinv as (b & [= <-] & Hb). exists task.
    rewrite Hb in Hentry. injection Hentry as <-.
    split; [done|]. split; [done|].
    specialize (Hdirs name _ Hb). simpl in Hdirs. by apply negb_true_iff.
  - intros name entry Hentry. apply hasDir_inv.
    by apply (Taskfile_tasksHaveDir W HDir HJoin HMerge Hsibling
                fuel readerNode node t dir Hrun name).
  - intros fi sib merged v included Hv Hstat Hsib Hmerge.
    unfold mergeOSTaskfile. by rewrite Hv, Hstat, Hsib.
  - intros name. by eexists.
Qed.

(* ================================================================= *)
(** ** The worlds in memory *)

Lemma mem_dir_nonempty (p : string) : is_empty (mem.dir p) = false.
Proof.
  unfold mem.dir. destruct (mem.splitLast p) as [[d b]|]; [|done].
  by destruct d.
Qed.

Lemma mem_smartJoin_nonempty (a b : string) :
  is_empty b = false -> is_empty (mem.smartJoin a b) = false.
Proof.
  intros Hb. unfold mem.smartJoin, mem.join.
  destruct (mem.isAbs b); [done|].
  destruct a; simpl; [done|]. by rewrite Hb.
Qed.

(** The Merger in memory returns tasks of the two declarations it is
    given, and no other. *)
Lemma mem_Merge_tasks (t1 t2 t : taskfile.Taskfile)
    (i : option taskfile.IncludedTaskfile) (ns : list string)
    (k : string) (e : option taskfile.Task) :
  mem.Merge t1 t2 i ns = Ok t ->
  taskfile.Tasks t !! k = Some e ->
  taskfile.Tasks t1 !! k = Some e \/
  exists k0, taskfile.Tasks t2 !! k0 = Some e.
Proof.
  unfold mem.Merge. case_bool_decide; [|done]. intros [= <-]. simpl.
  intros Hk. apply lookup_union_Some_raw in Hk as [Hk|[_ Hk]]; [by left|].
  right. apply elem_of_list_to_map_2 in Hk.
  apply list_elem_of_fmap in Hk as ([k0 e0] & [= -> ->] & Hin).
  apply elem_of_map_to_list in Hin. eauto.
Qed.

Lemma mem_Merge_keeps_dirs (t1 t2 t : taskfile.Taskfile)
    (i : option taskfile.IncludedTaskfile) (ns : list string) :
  mem.Merge t1 t2 i ns = Ok t ->
  tasksHaveDir t1 -> tasksHaveDir t2 -> tasksHaveDir t.
Proof.
  intros Hmerge H1 H2 k e Hk.
  destruct (mem_Merge_tasks _ _ _ _ _ _ _ Hmerge Hk) as [Hk1|[k0 Hk2]].
  - by apply (H1 k).
  - by apply (H2 k0).
Qed.

Lemma endsWith_refl (s : string) : mem.endsWith s s = true.
Proof. destruct s; simpl; [done|]. by rewrite Ascii.eqb_refl, String.eqb_refl. Qed.

Lemma endsWith_app (suffix p s : string) :
  mem.endsWith suffix s = true -> mem.endsWith suffix (p +:+ s) = true.
Proof.
  intros H. induction p as [|c p IH]; simpl; [done|].
  rewrite IH. apply orb_true_r.
Qed.

Lemma mem_find_endsWith (files : mem.Files) (suffix path : string) :
  mem.endsWith suffix path = true ->
  forallb (fun '(p, _) => negb (mem.endsWith suffix p)) files = true ->
  mem.find files path = None.
Proof.
  intros Hpath. induction files as [|[p e] files IH]; simpl; [done|].
  intros H. apply andb_true_iff in H as [Hp Hrest].
  destruct (String.eqb p path) eqn:E; [|by apply IH].
  apply String.eqb_eq in E as ->. by rewrite Hpath in Hp.
Qed.

Lemma mem_sibling_path (wd goos : string) (files : mem.Files)
    (n : ReaderNode) :
  mem.endsWith ("Taskfile_" +:+ goos +:+ ".yml")
    (osTaskfilePath (mem.world wd goos files) n) = true.
Proof.
  unfold osTaskfilePath. simpl.
  unfold mem.smartJoin, mem.join. simpl.
  destruct (is_empty (Dir n)); [apply endsWith_refl|].
  apply endsWith_app, (endsWith_app _ "/"), endsWith_refl.
Qed.

(** A table with no path that ends like the sibling of the platform holds
    no such sibling, whatever the directory. *)
Lemma mem_no_sibling (wd goos : string) (files : mem.Files) (n : ReaderNode) :
  forallb (fun '(p, _) =>
             negb (mem.endsWith ("Taskfile_" +:+ goos +:+ ".yml") p))
          files = true ->
  is_ok (os_Stat (mem.world wd goos files)
           (osTaskfilePath (mem.world wd goos files) n)) = false.
Proof.
  intros Hfiles. simpl. unfold mem.Stat.
  rewrite (mem_find_endsWith files ("Taskfile_" +:+ goos +:+ ".yml"));
    [done| |done].
  exact (mem_sibling_path wd goos files n).
Qed.

Lemma mem_find_forallb (P : string * mem.Entry -> bool) (files : mem.Files)
    (path : string) (e : mem.Entry) :
  forallb P files = true -> mem.find files path = Some e -> P (path, e) = true.
Proof.
  induction files as [|[p e0] files IH]; simpl; [done|].
  intros H. apply andb_true_iff in H as [Hp Hrest].
  destruct (String.eqb p path) eqn:E; [|by apply IH].
  apply String.eqb_eq in E as ->. by intros [= <-].
Qed.

(** What the native loader returns in a world in memory is a declaration of
    the table, each of its tasks stamped with the path. *)
Lemma mem_readTaskfile_inv (wd goos : string) (files : mem.Files)
    (path : string) (sib : taskfile.Taskfile) :
  run (readTaskfile (mem.world wd goos files) path) = Ok sib ->
  exists t,
    mem.find files path = Some (mem.Declaration t) /\
    forall name entry,
      taskfile.Tasks sib !! name = Some entry ->
      exists task,
        taskfile.Tasks t !! name = Some (Some task) /\
        entry = Some (taskfile.Task_setTaskfile path task).
Proof.
  unfold readTaskfile. io_unfold. simpl. unfold mem.Open, mem.Decode.
  destruct (mem.find files path) as [[|t|content p|]|] eqn:E; simpl;
    rewrite ?E; simpl; try done.
  destruct (forEach (stampTaskfile path) (taskfile.Tasks t))
    as [tasks| | |] eqn:Hloop; simpl; try done.
  intros [= <-]. exists t. split; [done|]. intros name entry Hentry.
  simpl in Hentry.
  pose proof (forEach_Ok_inv _ _ _ Hloop name) as Hname.
  destruct (taskfile.Tasks t !! name) as [[task|]|]; simpl in Hname.
  - destruct Hname as (b & [= <-] & Hb). exists task. split; [done|].
    congruence.
  - by destruct Hname as (b & ? & _).
  - congruence.
Qed.

(** A table whose declarations at the paths that end like the sibling of the
    platform give every task a directory: every sibling read has only tasks
    with a directory. *)
Lemma mem_sibling_has_dirs (wd goos : string) (files : mem.Files)
    (n : ReaderNode) (sib : taskfile.Taskfile) :
  forallb (fun '(p, e) =>
             negb (mem.endsWith ("Taskfile_" +:+ goos +:+ ".yml") p) ||
             match e with
             | mem.Declaration t =>
                 bool_decide
                   (map_Forall (fun _ task => hasDir task = true)
                      (taskfile.Tasks t))
             | _ => true
             end)
          files = true ->
  run (readTaskfile (mem.world wd goos files)
         (osTaskfilePath (mem.world wd goos files) n)) = Ok sib ->
  tasksHaveDir sib.
Proof.
  intros Hfiles Hsib.
  apply mem_readTaskfile_inv in Hsib as (t & Hfind & Htasks).
  apply (mem_find_forallb _ _ _ _ Hfiles) in Hfind.
  rewrite mem_sibling_path in Hfind. simpl in Hfind.
  apply bool_decide_eq_true_1 in Hfind.
  intros name entry Hentry.
  destruct (Htasks name entry Hentry) as (task & Htask & ->).
  exact (Hfind name _ Htask).
Qed.

(* ================================================================= *)
(** ** The statements on the sample projects *)

(** Two declarations that include each other, each after an include of a
    third one, the first edge not optional and the second optional: the
    resolution of the first fails with the cycle error. *)
Lemma include_cycle_fails_unless_first_edge_optional_witness :
  taskfile.Includes (sample.prepared cases.ringWorld cases.ringA)
  = [ ("lib", cases.under "/r" (sample.include "L.yml" false));
      ("b", cases.under "/r" (sample.include "B.yml" false)) ] /\
  taskfile.Includes (sample.prepared cases.ringWorld cases.ringB)
  = [ ("lib", cases.under "/r" (sample.include "L.yml" false));
      ("a", cases.under "/r" (sample.include "A.yml" true)) ] /\
  nodePath cases.ringWorld cases.ringA'
  = nodePath cases.ringWorld cases.ringA /\
  exists e, is_cycle_error e = true /\
    forall fuel, 1 < fuel -> 2 < fuel ->
      Taskfile cases.ringWorld fuel cases.ringA = (cases.ringA, Err e).
Proof.
  split; [by vm_compute|]. split; [by vm_compute|]. split; [by vm_compute|].
  refine (proj1 (proj2 (include_cycle_fails_unless_first_edge_optional
            cases.ringWorld 1 1
            cases.ringA cases.ringA cases.ringB cases.ringB cases.ringA'
            (sample.prepared cases.ringWorld cases.ringA)
            (cases.afterLib cases.ringA)
            (sample.prepared cases.ringWorld cases.ringB)
            (cases.afterLib cases.ringB)
            "/r" "/r" 3 3 "b" "a"
            (cases.under "/r" (sample.include "B.yml" false))
            (cases.under "/r" (sample.include "B.yml" false))
            (cases.under "/r" (sample.include "A.yml" true))
            (cases.under "/r" (sample.include "A.yml" true))
            [ ("lib", cases.under "/r" (sample.include "L.yml" false)) ] []
            [ ("lib", cases.under "/r" (sample.include "L.yml" false)) ] []
            _ _ _ _ _ _ _ _ _ _ _)) _); by vm_compute.
Defined.

(** C1, as stated, fails: with the first edge optional (and the second
    optional or not) the two declarations still include each other, and the
    resolution of the first one succeeds, with the tasks of the first
    declaration alone. *)
Lemma optional_first_edge_swallows_the_cycle :
  (includeTarget (sample.cycleWorld true false) sample.nodeA 3
     (sample.edge "B.yml" true)
   = Ok (sample.edge "B.yml" true, sample.nodeB true) /\
   includeTarget (sample.cycleWorld true false) (sample.nodeB true) 3
     (sample.edge "A.yml" false)
   = Ok (sample.edge "A.yml" false, sample.nodeA' true false) /\
   nodePath (sample.cycleWorld true false) (sample.nodeA' true false)
   = nodePath (sample.cycleWorld true false) sample.nodeA) /\
  (forall fuel, 2 <= fuel ->
     Taskfile (sample.cycleWorld true false) fuel sample.nodeA
     = (sample.nodeA, Ok (sample.cycleResult, "/p"))) /\
  (forall fuel, 2 <= fuel ->
     Taskfile (sample.cycleWorld true true) fuel sample.nodeA
     = (sample.nodeA, Ok (sample.cycleResult, "/p"))) /\
  dom (taskfile.Tasks sample.cycleResult) = {[ "a" ]}.
Proof.
  split; [by vm_compute|]. split; [|split].
  - intros fuel Hfuel.
    rewrite (Taskfile_fuel_mono _ 2 fuel); [by vm_compute| |done].
    by vm_compute.
  - intros fuel Hfuel.
    rewrite (Taskfile_fuel_mono _ 2 fuel); [by vm_compute| |done].
    by vm_compute.
  - by vm_compute.
Qed.

(** A declaration of version 3 whose first include resolves to a
    declaration with a dotenv list. *)
Lemma dotenv_in_included_declaration_fails_witness :
  (exists c,
     snd (Taskfile (sample.dotenvWorld false) 1 (sample.libNode false))
     = Ok (c, "/p/lib") /\
     taskfile.Dotenv c = [ ".env" ]) /\
  forall fuel', 1 < fuel' ->
    Taskfile (sample.dotenvWorld false) fuel' sample.rootNode
    = (sample.rootNode, Err ErrIncludedTaskfilesCantHaveDotenvs).
Proof.
  split; [eexists; split; by vm_compute|].
  refine (dotenv_in_included_declaration_fails
            (sample.dotenvWorld false) 1 sample.rootNode sample.rootNode
            (sample.libNode false)
            (sample.prepared (sample.dotenvWorld false) sample.rootNode)
            (sample.prepared (sample.dotenvWorld false) sample.rootNode)
            (sample.declarationOf
               (Taskfile (sample.dotenvWorld false) 1 (sample.libNode false)))
            "/p" "/p/lib" 3 [] [ ("gone", sample.edge "gone/Taskfile.yml" false) ]
            "lib" (sample.edge "lib/Taskfile.yml" false)
            (sample.edge "lib/Taskfile.yml" false)
            _ _ _ _ _ _ _ _ _); by vm_compute.
Defined.

(** An optional include whose file does not decode is skipped; an optional
    include whose declaration has a dotenv list fails the resolution. *)
Lemma optional_include_skips_failures_but_not_dotenv_witness :
  ((exists e, snd (Taskfile sample.brokenWorld 1 (sample.libNode true)) = Err e) /\
   includeStep sample.brokenWorld (Taskfile sample.brokenWorld 1)
     sample.rootNode 3 "lib" (sample.edge "lib/Taskfile.yml" true)
     (sample.prepared sample.brokenWorld sample.rootNode)
   = Ok (sample.prepared sample.brokenWorld sample.rootNode)) /\
  (taskfile.Inc_Optional (sample.edge "lib/Taskfile.yml" true) = true /\
   forall fuel', 1 < fuel' ->
     Taskfile (sample.dotenvWorld true) fuel' sample.rootNode
     = (sample.rootNode, Err ErrIncludedTaskfilesCantHaveDotenvs)).
Proof.
  split.
  - split; [eexists; by vm_compute|].
    refine (proj1 (proj1 (optional_include_skips_failures_but_not_dotenv
              sample.brokenWorld 1 sample.rootNode sample.rootNode
              (sample.libNode true)
              (sample.prepared sample.brokenWorld sample.rootNode)
              (sample.prepared sample.brokenWorld sample.rootNode)
              "/p" 3 [] [] "lib" (sample.edge "lib/Taskfile.yml" true)
              (sample.edge "lib/Taskfile.yml" true)
              _ _ _ _ _ _ _ _)
              (ErrParse "/p/lib/Taskfile.yml" (ErrForeign "yaml: cannot decode"))
              _)); by vm_compute.
  - split; [done|].
    refine (proj2 (proj2 (optional_include_skips_failures_but_not_dotenv
              (sample.dotenvWorld true) 1 sample.rootNode sample.rootNode
              (sample.libNode true)
              (sample.prepared (sample.dotenvWorld true) sample.rootNode)
              (sample.prepared (sample.dotenvWorld true) sample.rootNode)
              "/p" 3 []
              [ ("gone", sample.edge "gone/Taskfile.yml" true) ]
              "lib" (sample.edge "lib/Taskfile.yml" true)
              (sample.edge "lib/Taskfile.yml" true)
              _ _ _ _ _ _ _ _)
              (sample.declarationOf
                 (Taskfile (sample.dotenvWorld true) 1 (sample.libNode true)))
              "/p/lib" _ _)); by vm_compute.
Defined.

(** The project with the advanced import satisfies what the directory
    statement asks of a world, and every task it resolves to has a
    directory; so does the project of version 2 whose sibling gives its task
    a directory, the task of the sibling included. *)
Lemma returned_tasks_have_a_directory_witness :
  (Taskfile sample.importWorld 2 sample.importNode
   = (sample.importNode, Ok (sample.importResult, "/q")) /\
   is_Some (taskfile.Tasks sample.importResult !! "sub:build") /\
   forall name entry,
     taskfile.Tasks sample.importResult !! name = Some entry ->
     exists task,
       entry = Some task /\ is_empty (taskfile.Task_Dir task) = false) /\
  (Taskfile cases.tidyWorld 1 cases.tidyNode
   = (cases.tidyNode, Ok (cases.tidyResult, "/w")) /\
   taskfile.Task_Taskfile <$> index (taskfile.Tasks cases.tidyResult) "build"
   = Some "/w/Taskfile_linux.yml" /\
   forall name entry,
     taskfile.Tasks cases.tidyResult !! name = Some entry ->
     exists task,
       entry = Some task /\ is_empty (taskfile.Task_Dir task) = false).
Proof.
  split.
  - split; [by vm_compute|]. split; [eexists; by vm_compute|].
    refine (proj1 (proj2 (returned_tasks_have_a_directory
              sample.importWorld 2 sample.importNode sample.importNode
              sample.importResult "/q" _ _ _ _ _))).
    + exact mem_dir_nonempty.
    + exact mem_smartJoin_nonempty.
    + intros t1 t2 i ns t. apply mem_Merge_keeps_dirs.
    + intros n t0 d v fi sib _ _ _. apply mem_sibling_has_dirs.
      by vm_compute.
    + by vm_compute.
  - split; [by vm_compute|]. split; [by vm_compute|].
    refine (proj1 (proj2 (returned_tasks_have_a_directory
              cases.tidyWorld 1 cases.tidyNode cases.tidyNode
              cases.tidyResult "/w" _ _ _ _ _))).
    + exact mem_dir_nonempty.
    + exact mem_smartJoin_nonempty.
    + intros t1 t2 i ns t. apply mem_Merge_keeps_dirs.
    + intros n t0 d v fi sib _ _ _. apply mem_sibling_has_dirs.
      by vm_compute.
    + by vm_compute.
Defined.

(** C3, as stated, fails.  A declaration of version 2 with a sibling for the
    platform resolves: the sibling is found, read and merged, and the task
    the declaration returned takes from it has the empty directory the
    sibling gave it. *)
Lemma legacy_sibling_task_has_no_directory :
  Taskfile sample.legacyWorld 1 sample.legacyNode
  = (sample.legacyNode, Ok (sample.legacyResult, "/l")) /\
  is_ok (os_Stat sample.legacyWorld
           (osTaskfilePath sample.legacyWorld sample.legacyNode)) = true /\
  exists task,
    taskfile.Tasks sample.legacyResult !! "build" = Some (Some task) /\
    taskfile.Task_Taskfile task = "/l/Taskfile_linux.yml" /\
    taskfile.Task_Dir task = EmptyString.
Proof.
  split; [by vm_compute|]. split; [by vm_compute|]. eexists; by vm_compute.
Qed.

(** The project with the advanced import: what it resolves to is the final
    pass over what the merges have left. *)
Lemma returned_tasks_are_named_by_their_key_witness :
  Taskfile sample.importWorld 2 sample.importNode
  = (sample.importNode, Ok (sample.importResult, "/q")) /\
  forall name entry,
    taskfile.Tasks sample.importResult !! name = Some entry ->
    exists task, entry = Some task /\ taskfile.Task_Task task = name.
Proof.
  split; [by vm_compute|].
  destruct (returned_tasks_are_named_by_their_key
              sample.importWorld 2 sample.importNode sample.importNode
              sample.importResult "/q")
    as (fuel0 & loaded & included & merged & v & _ & _ & _ & _ & _ & _ & H);
    [by vm_compute|exact H].
Defined.

(** The advanced import of the sample project. *)
Lemma advanced_import_rebases_the_included_declaration_witness :
  snd (Taskfile sample.importWorld 1 sample.subNode)
  = Ok (sample.subResult, "/q/sub") /\
  taskfile.Inc_AdvancedImport sample.subEdge = true /\
  FullDirPath sample.importWorld sample.subEdge = Ok "/q/sub" /\
  exists c',
    includeStep sample.importWorld (Taskfile sample.importWorld 1)
      sample.importNode 3 "sub" sample.subEdge
      (sample.prepared sample.importWorld sample.importNode)
    = (Merge sample.importWorld
         (sample.prepared sample.importWorld sample.importNode) c'
         (Some sample.subEdge) [ "sub" ]
       ≫= defaultAlias "sub" sample.subEdge c') /\
    taskfile.Vars_ c'
    = Some (taskfile.mkVars {[ "NAME" := taskfile.mkVar "x" "/q/sub" ]}) /\
    (forall name entry,
       taskfile.Tasks c' !! name = Some entry ->
       exists task task',
         taskfile.Tasks sample.subResult !! name = Some (Some task) /\
         entry = Some task' /\
         taskfile.Task_Dir task'
         = SmartJoin sample.importWorld "/q/sub" (taskfile.Task_Dir task) /\
         taskfile.Task_IncludeVars task' = Some (sample.vars "MODE" "fast") /\
         taskfile.Task_IncludedTaskfileVars task' = taskfile.Vars_ c').
Proof.
  split; [by vm_compute|]. split; [done|]. split; [by vm_compute|].
  destruct (advanced_import_rebases_the_included_declaration
              sample.importWorld 1 sample.importNode sample.subNode 3 "sub"
              sample.subEdge sample.subEdge
              (sample.prepared sample.importWorld sample.importNode)
              sample.subResult "/q/sub" "/q/sub"
              (sample.vars "NAME" "x") (sample.vars "HOME" "y"))
    as (c' & vars' & env' & Hstep & HV & _ & Hvars' & _ & _ & HT & _);
    [by vm_compute..|].
  assert (vars' = taskfile.mkVars {[ "NAME" := taskfile.mkVar "x" "/q/sub" ]})
    as ->.
  { destruct vars' as [m]. f_equal. apply map_eq. intros name.
    specialize (Hvars' name). simpl in Hvars'. rewrite Hvars'.
    unfold sample.vars. simpl.
    destruct (decide (name = "NAME")) as [->|Hne].
    - by rewrite !lookup_singleton_eq.
    - by rewrite !lookup_singleton_ne. }
  exists c'. split; [exact Hstep|]. split; [exact HV|].
  intros name entry Hentry.
  destruct (HT name entry Hentry)
    as (task & task' & Htask & Hentry' & Hdir & Hiv & Htv & _).
  exists task, task'.
  split; [exact Htask|]. split; [exact Hentry'|]. split; [exact Hdir|].
  split; [exact Hiv|]. by rewrite Htv, HV.
Defined.

(** C5, as stated, fails.  A manifest resolves to a declaration whose
    variables are nil, and its advanced import dereferences them: the
    resolution of the declaration that imports it panics.  And where the
    import goes through, a task is not put under the directory of the
    include: the task that declared no directory has the directory of its
    file, an absolute one, and [SmartJoin] in the world of the sample leaves
    it there, while the task that declared a relative one is put under the
    directory of the include. *)
Lemma advanced_import_panics_on_nil_vars_and_keeps_an_absolute_directory :
  (taskfile.Inc_AdvancedImport cases.webInclude = true /\
   is_ok (snd (Taskfile cases.webWorld 1 cases.webChild)) = true /\
   taskfile.Vars_
     (sample.declarationOf (Taskfile cases.webWorld 1 cases.webChild))
   = None /\
   forall fuel, 2 <= fuel ->
     Taskfile cases.webWorld fuel cases.webNode
     = (cases.webNode, Panic NilDereference)) /\
  (taskfile.Inc_AdvancedImport cases.otherInclude = true /\
   FullDirPath cases.otherWorld (cases.under "/q" cases.otherInclude)
   = Ok "/q/other" /\
   Taskfile cases.otherWorld 2 sample.importNode
   = (sample.importNode, Ok (cases.otherResult, "/q")) /\
   taskfile.Task_Dir
     <$> index (taskfile.Tasks
                  (sample.declarationOf
                     (Taskfile cases.otherWorld 1 sample.subNode)))
               "default"
   = Some "/q/sub" /\
   taskfile.Task_Dir
     <$> index (taskfile.Tasks cases.otherResult) "sub:default"
   = Some "/q/sub" /\
   taskfile.Task_Dir
     <$> index (taskfile.Tasks cases.otherResult) "sub:build"
   = Some "/q/other/out").
Proof.
  split.
  - split; [done|]. split; [by vm_compute|]. split; [by vm_compute|].
    intros fuel Hfuel.
    rewrite (Taskfile_fuel_mono _ 2 fuel); [by vm_compute| |done].
    by vm_compute.
  - split; [done|]. split; [by vm_compute|]. split; [by vm_compute|].
    split; [by vm_compute|]. split; by vm_compute.
Qed.

(** What the advanced import of the sample project hands to the Merger. *)
Example advanced_import_of_the_sample :
  exists c' default build,
    advancedImport sample.importWorld sample.subEdge sample.subResult = Ok c' /\
    taskfile.Tasks c' = {[ "default" := Some default; "build" := Some build ]} /\
    taskfile.Task_Dir default = "/q/sub" /\
    taskfile.Task_Dir build = "/q/sub/out" /\
    taskfile.Task_IncludeVars build = Some (sample.vars "MODE" "fast") /\
    taskfile.Task_IncludedTaskfileVars build
    = Some (taskfile.mkVars {[ "NAME" := taskfile.mkVar "x" "/q/sub" ]}) /\
    taskfile.Vars_ c'
    = Some (taskfile.mkVars {[ "NAME" := taskfile.mkVar "x" "/q/sub" ]}) /\
    taskfile.Env c'
    = Some (taskfile.mkVars {[ "HOME" := taskfile.mkVar "y" "/q/sub" ]}).
Proof.
  eexists.
  exists (rebased sample.importWorld "/q/sub" sample.subEdge
            (Some (taskfile.mkVars {[ "NAME" := taskfile.mkVar "x" "/q/sub" ]}))
            (taskfile.Task_setTask "default"
               (taskfile.Task_setTaskfile "/q/sub/Taskfile.yml"
                  (sample.task "/q/sub")))).
  exists (rebased sample.importWorld "/q/sub" sample.subEdge
            (Some (taskfile.mkVars {[ "NAME" := taskfile.mkVar "x" "/q/sub" ]}))
            (taskfile.Task_setTask "build"
               (taskfile.Task_setTaskfile "/q/sub/Taskfile.yml"
                  (sample.task "out")))).
  split; [vm_compute; reflexivity|].
  split; [vm_compute; reflexivity|].
  split; [vm_compute; reflexivity|].
  split; [vm_compute; reflexivity|].
  split; [vm_compute; reflexivity|].
  split; [vm_compute; reflexivity|].
  split; vm_compute; reflexivity.
Qed.

(** The include of the sample project under the namespace [sub]: the
    merged declaration has no task [sub], and its task [sub:default], which
    had no alias, gets the namespace and the alias of the include. *)
Lemma default_task_takes_the_namespace_as_alias_witness :
  Merge sample.importWorld
    (sample.prepared sample.importWorld sample.importNode)
    sample.subRebased (Some sample.subEdge) [ "sub" ]
  = Ok sample.subMerged /\
  index (taskfile.Tasks sample.subMerged) "sub" = None /\
  taskfile.Task_Aliases
    <$> index (taskfile.Tasks sample.subMerged) "sub:default" = Some [] /\
  taskfile.Inc_Aliases sample.subEdge = [ "s" ] /\
  exists t',
    mergeInclude sample.importWorld 3 "sub" sample.subEdge sample.subResult
      (sample.prepared sample.importWorld sample.importNode)
    = Ok t' /\
    taskfile.Task_Aliases <$> index (taskfile.Tasks t') "sub:default"
    = Some [ "sub"; "s" ].
Proof.
  split; [by vm_compute|]. split; [by vm_compute|]. split; [by vm_compute|].
  split; [done|].
  edestruct (default_task_takes_the_namespace_as_alias
               sample.importWorld 3 "sub" sample.subEdge sample.subResult
               sample.subRebased
               (sample.prepared sample.importWorld sample.importNode)
               sample.subMerged)
    as (t' & Hmerge & Halias & _);
    [vm_compute; reflexivity..|].
  exists t'. split; [exact Hmerge|].
  change "sub:default" with ("sub" +:+ ":default").
  rewrite Halias. vm_compute. reflexivity.
Defined.

(** The manifest of the sample, without and with a lockfile of yarn beside
    it. *)
Lemma manifest_with_build_script_witness :
  (exists t task,
     run (readPackageJson sample.npmWorld "/n" "/n/package.json") = Ok t /\
     taskfile.Tasks t = {[ "build" := Some task ]} /\
     taskfile.Task_Cmds task
     = [ taskfile.mkCmd "npm install --silent --frozen-lockfile";
         taskfile.mkCmd "npm run build" ]) /\
  (exists t task,
     run (readPackageJson sample.yarnWorld "/n" "/n/package.json") = Ok t /\
     taskfile.Tasks t = {[ "build" := Some task ]} /\
     taskfile.Task_Cmds task
     = [ taskfile.mkCmd "yarn install --silent --frozen-lockfile";
         taskfile.mkCmd "yarn run build" ]).
Proof.
  split.
  - refine (proj1 (manifest_with_build_script
              sample.npmWorld "/n" "/n/package.json" "/n/package.json"
              sample.manifestContent "/n" "/n/package.json" ":3"
              (mkPackageJson {[ "build" := "tsc" ]}) _ _ _ _ _ _ _)
              (ErrForeign "no such file or directory") _);
      vm_compute; reflexivity.
  - refine (proj2 (manifest_with_build_script
              sample.yarnWorld "/n" "/n/package.json" "/n/package.json"
              sample.manifestContent "/n" "/n/package.json" ":3"
              (mkPackageJson {[ "build" := "tsc" ]}) _ _ _ _ _ _ _)
              (mkFileInfo true) _);
      vm_compute; reflexivity.
Defined.

(** C8, as stated, fails.  The native loader returns a declaration, or the
    error of a file that does not decode, and the manifest adapter returns a
    declaration: each time the handle the loader opened is still in the
    table, and nothing has closed it. *)
Lemma loaders_release_no_handle :
  (exists t,
     readTaskfile (sample.cycleWorld false false) "/p/A.yml" []
     = (Ok t, [ "/p/A.yml" ])) /\
  (exists e,
     readTaskfile sample.brokenWorld "/p/lib/Taskfile.yml" []
     = (Err e, [ "/p/lib/Taskfile.yml" ])) /\
  (exists t,
     readPackageJson sample.npmWorld "/n" "/n/package.json" []
     = (Ok t, [ "/n/package.json" ])) /\
  snd (io_Close "/p/A.yml"
         (snd (readTaskfile (sample.cycleWorld false false) "/p/A.yml" [])))
  = [].
Proof.
  split; [eexists; vm_compute; reflexivity|].
  split; [eexists; vm_compute; reflexivity|].
  split; [eexists; vm_compute; reflexivity|].
  vm_compute. reflexivity.
Qed.

(** The node of a caller that names nothing is moved to the default file
    found in the working directory, and the node of a caller that names a
    file only gets the working directory. *)
Example blank_node_is_moved_to_the_file_found :
  fst (Taskfile sample.yarnWorld 1 sample.blankNode)
  = mkReaderNode "/n" "package.json" false None /\
  fst (Taskfile sample.brokenWorld 1
         (mkReaderNode EmptyString "Taskfile.yml" false None))
  = mkReaderNode "/p" "Taskfile.yml" false None.
Proof. split; vm_compute; reflexivity. Qed.

(* ================================================================= *)
(** ** More on the cycle guard *)

Lemma walkAncestors_clear (W : World) (basePath parentPath : string)
    (n : ReaderNode) :
  walkAncestors W basePath parentPath n = Ok tt <->
  (forall a, a ∈ ancestors n -> nodePath W a <> basePath).
Proof.
  induction n as [d e o|d e o p IH] using ReaderNode_chain_ind;
    rewrite walkAncestors_unfold; simpl.
  - split; [|done]. intros _ a Ha. by apply elem_of_nil in Ha.
  - destruct (String.eqb (nodePath W p) basePath) eqn:E.
    + apply String.eqb_eq in E. split; [done|].
      intros H. destruct (H p); [by left|done].
    + apply String.eqb_neq in E. rewrite IH. split.
      * intros H a Ha. apply elem_of_cons in Ha as [->|Ha]; auto.
      * intros H a Ha. apply H. by right.
Qed.

Lemma walkAncestors_first (W : World) (basePath parentPath : string)
    (n a : ReaderNode) (pre post : list ReaderNode) :
  ancestors n = pre ++ a :: post ->
  (forall b, b ∈ pre -> nodePath W b <> basePath) ->
  nodePath W a = basePath ->
  walkAncestors W basePath parentPath n
  = Err (ErrIncludeCycle (nodePath W a) parentPath).
Proof.
  revert n. induction pre as [|b pre IH]; intros n Hanc Hpre Ha;
    rewrite walkAncestors_unfold; destruct n as [d e o [p|]]; simpl in *;
    try done.
  - injection Hanc as -> _. by rewrite Ha, String.eqb_refl.
  - injection Hanc as -> Hanc.
    assert (nodePath W b <> basePath) as Hb by (apply Hpre; by left).
    apply String.eqb_neq in Hb. rewrite Hb. apply IH; [done| |done].
    intros c Hc. apply Hpre. by right.
Qed.

(** The cycle guard is a membership test over the ancestors of the node.
    Run on no node, or on a node with no parent, it fails with an error of
    its own.  On a node with a parent it passes exactly when no ancestor
    lies at the path of the node; and when some do, the error names the
    nearest of them and the parent of the node.  Nothing but the ancestors
    is compared. *)
Theorem cycle_guard_tests_the_ancestors (W : World) (n : ReaderNode) :
  checkCircularIncludes W None = Err ErrCycleNilNode /\
  (Parent n = None ->
   checkCircularIncludes W (Some n) = Err ErrCycleNilParent) /\
  (forall p, Parent n = Some p ->
     (checkCircularIncludes W (Some n) = Ok tt <->
      forall a, a ∈ ancestors n -> nodePath W a <> nodePath W n) /\
     (forall pre a post,
        ancestors n = pre ++ a :: post ->
        (forall b, b ∈ pre -> nodePath W b <> nodePath W n) ->
        nodePath W a = nodePath W n ->
        checkCircularIncludes W (Some n)
        = Err (ErrIncludeCycle (nodePath W a) (nodePath W p)))).
Proof.
  split; [done|]. split.
  - intros Hp. unfold checkCircularIncludes. by rewrite Hp.
  - intros p Hp. unfold checkCircularIncludes. rewrite Hp. split.
    + apply walkAncestors_clear.
    + intros pre a post. apply walkAncestors_first.
Qed.

(* ================================================================= *)
(** ** The lookup of a declaration file *)

Lemma probe_Ok_inv (W : World) (path : string) (names : list string)
    (fpath : string) :
  probe W path names = Ok fpath ->
  exists pre n post,
    names = pre ++ n :: post /\
    fpath = SmartJoin W path n /\
    is_ok (os_Stat W fpath) = true /\
    forall m, m ∈ pre -> exists e, os_Stat W (SmartJoin W path m) = Err e.
Proof.
  induction names as [|n names IH]; simpl; [done|].
  destruct (os_Stat W (SmartJoin W path n)) as [fi|e| |] eqn:E; try done.
  - intros [= <-]. exists [], n, names. repeat split; [by rewrite E|].
    intros m Hm. by apply elem_of_nil in Hm.
  - intros H. destruct (IH H) as (pre & n' & post & -> & -> & Hok & Hpre).
    exists (n :: pre), n', post. repeat split; [done|].
    intros m Hm. apply elem_of_cons in Hm as [->|Hm]; eauto.
Qed.

Lemma probe_none (W : World) (path : string) (names : list string) :
  (forall n, n ∈ names -> exists e, os_Stat W (SmartJoin W path n) = Err e) ->
  probe W path names = Err (ErrNoTaskfileFound path).
Proof.
  induction names as [|n names IH]; intros H; simpl; [done|].
  destruct (H n) as [e ->]; [by left|]. apply IH. intros m Hm. apply H. by right.
Qed.

(** What [exists] returns is a path that [os.Stat] accepts: the path it was
    given when that is a regular file, and otherwise the first of the
    default names, in their fixed order, that is found under the path, every
    name before it having been tried and not found. *)
Theorem exists_returns_the_first_default_file
    (W : World) (path fpath : string) :
  exists_ W path = Ok fpath ->
  is_ok (os_Stat W fpath) = true /\
  exists fi,
    os_Stat W path = Ok fi /\
    if IsRegular fi then fpath = path
    else exists pre n post,
        defaultTaskfiles = pre ++ n :: post /\
        fpath = SmartJoin W path n /\
        forall m, m ∈ pre ->
          exists e, os_Stat W (SmartJoin W path m) = Err e.
Proof.
  unfold exists_. intros H. apply bind_Ok_inv in H as (fi & Hfi & H).
  destruct (IsRegular fi) eqn:E.
  - injection H as <-. split; [by rewrite Hfi|]. exists fi. by rewrite E.
  - apply probe_Ok_inv in H as (pre & n & post & Hnames & -> & Hok & Hpre).
    split; [done|]. exists fi. rewrite E. split; [done|].
    by exists pre, n, post.
Qed.

(** A path that [os.Stat] rejects is rejected by [exists] with the same
    error; a path that is no regular file and has none of the default names
    under it is rejected with the error that no declaration file was found
    there. *)
Theorem exists_fails_on_a_missing_path_or_an_empty_directory
    (W : World) (path : string) :
  (forall e, os_Stat W path = Err e -> exists_ W path = Err e) /\
  (forall fi,
     os_Stat W path = Ok fi -> IsRegular fi = false ->
     (forall n, n ∈ defaultTaskfiles ->
        exists e, os_Stat W (SmartJoin W path n) = Err e) ->
     exists_ W path = Err (ErrNoTaskfileFound path)).
Proof.
  unfold exists_. split.
  - intros e ->. done.
  - intros fi -> Hreg Hnone. cbn [mbind outcome_bind]. rewrite Hreg.
    by apply probe_none.
Qed.

(* ================================================================= *)
(** ** The line of a script *)

Lemma scanFor_first (needle : string) (pre post : list string) (l : string)
    (line : nat) :
  (forall x, x ∈ pre -> strings_Contains x needle = false) ->
  strings_Contains l needle = true ->
  scanFor needle (pre ++ l :: post) line
  = Some (":" +:+ pretty (line + length pre)).
Proof.
  revert line. induction pre as [|x pre IH]; intros line Hpre Hl; simpl.
  - rewrite Hl. by rewrite Nat.add_0_r.
  - rewrite (Hpre x) by by left. rewrite IH; [|intros y Hy; apply Hpre; by right|done].
    do 3 f_equal. lia.
Qed.

Lemma scanFor_none (needle : string) (lines : list string) (line : nat) :
  (forall x, x ∈ lines -> strings_Contains x needle = false) ->
  scanFor needle lines line = None.
Proof.
  revert line. induction lines as [|x lines IH]; intros line H; simpl; [done|].
  rewrite (H x) by by left. apply IH. intros y Hy. apply H. by right.
Qed.

(** [findLineNumber] returns a colon and the number, counted from one and
    written in decimal, of the first line that contains the name of the
    script between double quotes and followed by a colon; what the scanner
    says after that line, an error included, plays no part. *)
Theorem findLineNumber_points_at_the_first_match
    (W : World) (f scriptName : string) (pre post : list string) (l : string)
    (err : option error) :
  bufio_Scan W f = (pre ++ l :: post, err) ->
  (forall x, x ∈ pre ->
     strings_Contains x (dquote +:+ scriptName +:+ dquote +:+ ":") = false) ->
  strings_Contains l (dquote +:+ scriptName +:+ dquote +:+ ":") = true ->
  findLineNumber W f scriptName = Ok (":" +:+ pretty (S (length pre))).
Proof.
  intros Hscan Hpre Hl. unfold findLineNumber. rewrite Hscan.
  by rewrite (scanFor_first _ pre post l 1 Hpre Hl).
Qed.

(** When no line contains the quoted name, [findLineNumber] returns the
    empty suffix if the scanner ended well, and panics with the error of the
    scanner if it did not. *)
Theorem findLineNumber_without_a_match
    (W : World) (f scriptName : string) (lines : list string)
    (err : option error) :
  bufio_Scan W f = (lines, err) ->
  (forall x, x ∈ lines ->
     strings_Contains x (dquote +:+ scriptName +:+ dquote +:+ ":") = false) ->
  findLineNumber W f scriptName
  = match err with
    | None => Ok EmptyString
    | Some e => Panic (PanicError e)
    end.
Proof.
  intros Hscan Hnone. unfold findLineNumber. rewrite Hscan.
  by rewrite (scanFor_none _ lines 1 Hnone).
Qed.

(* ================================================================= *)
(** ** The loaders *)

Lemma forEach_Panic {A B} (body : string -> A -> outcome B)
    (m : gmap string A) (p : panic) :
  (forall k a, m !! k = Some a ->
     body k a = Panic p \/ exists b, body k a = Ok b) ->
  (exists k a, m !! k = Some a /\ body k a = Panic p) ->
  forEach body m = Panic p.
Proof.
  intros Hall Hbad.
  enough (forEach body m = Panic p \/
          (forall k a, m !! k = Some a -> exists b, body k a = Ok b) /\
          exists r, forEach body m = Ok r) as [H|[H _]].
  { done. }
  { destruct Hbad as (k & a & Hk & Hp). destruct (H k a Hk) as [b Hb].
    congruence. }
  clear Hbad. revert Hall. unfold forEach.
  apply (map_fold_weak_ind
           (fun r m =>
              (forall k a, m !! k = Some a ->
                 body k a = Panic p \/ exists b, body k a = Ok b) ->
              r = Panic p \/
              (forall k a, m !! k = Some a -> exists b, body k a = Ok b) /\
              exists r', r = Ok r')).
  - intros _. right. split; [|by eauto].
    intros k a Hk. by rewrite lookup_empty in Hk.
  - intros i x m' r Hi IH Hall.
    destruct IH as [->|[IH [r' ->]]].
    { intros k a Hk. apply Hall. rewrite lookup_insert_ne; [done|].
      intros ->. congruence. }
    + by left.
    + destruct (Hall i x) as [Hp|[b Hb]]; [by rewrite lookup_insert_eq| |].
      * left. by rewrite Hp.
      * right. rewrite Hb. split; [|by eauto]. intros k a Hk.
        apply lookup_insert_Some in Hk as [[<- <-]|[_ Hk]]; eauto.
Qed.

Lemma readTaskfile_decoded (W : World) (file : string) (f : File)
    (raw : taskfile.Taskfile) :
  os_Open W file = Ok f ->
  yaml_Decode W f = Ok raw ->
  run (readTaskfile W file)
  = (tasks ← forEach (stampTaskfile file) (taskfile.Tasks raw);
     Ok (taskfile.setTasks tasks raw)).
Proof.
  intros Hopen Hdecode. unfold readTaskfile. io_unfold.
  io_with Hopen. io_with Hdecode.
  by destruct (forEach _ _).
Qed.

Lemma readTaskfile_undecoded (W : World) (file : string) (f : File)
    (e : error) :
  os_Open W file = Ok f ->
  yaml_Decode W f = Err e ->
  run (readTaskfile W file) = Err (ErrParse (TryAbsToRel W file) e).
Proof.
  intros Hopen Hdecode. unfold readTaskfile. io_unfold.
  io_with Hopen. by io_with Hdecode.
Qed.

(** What the native loader returns.  An error of [os.Open] is returned as it
    is; an error of the decoder is returned wrapped in a parse error that
    names the file as [TryAbsToRel] shows it.  When the file decodes and
    every entry of its task mapping holds a task, the declaration decoded is
    returned with the same task names, each task carrying the path the
    loader was given as its file and nothing else of it changed; the rest of
    the declaration is as decoded. *)
Theorem readTaskfile_stamps_the_tasks_with_the_file
    (W : World) (file : string) :
  (forall e, os_Open W file = Err e -> run (readTaskfile W file) = Err e) /\
  (forall f e,
     os_Open W file = Ok f -> yaml_Decode W f = Err e ->
     run (readTaskfile W file) = Err (ErrParse (TryAbsToRel W file) e)) /\
  (forall f raw,
     os_Open W file = Ok f -> yaml_Decode W f = Ok raw ->
     (forall name entry,
        taskfile.Tasks raw !! name = Some entry -> is_Some entry) ->
     exists t,
       run (readTaskfile W file) = Ok t /\
       t = taskfile.setTasks (taskfile.Tasks t) raw /\
       forall name,
         taskfile.Tasks t !! name
         = fmap (taskfile.Task_setTaskfile file)
             <$> taskfile.Tasks raw !! name).
Proof.
  split; [|split].
  - intros e Hopen. unfold readTaskfile. io_unfold. by io_with Hopen.
  - intros f e. apply readTaskfile_undecoded.
  - intros f raw Hopen Hdecode Hsome.
    rewrite (readTaskfile_decoded W file f raw Hopen Hdecode).
    rewrite (forEach_Ok_intro _
               (fun _ entry => taskfile.Task_setTaskfile file <$> entry)).
    + eexists. split; [reflexivity|]. split; [by destruct raw|].
      intros name. cbn. rewrite map_lookup_imap.
      by destruct (taskfile.Tasks raw !! name).
    + intros k a Hk. destruct (Hsome k a Hk) as [task ->]. done.
Qed.

(** An entry of the task mapping that holds no task (a name with an empty
    body) is dereferenced by the native loader: the loader panics, and so
    does [Taskfile] on a node whose file decodes to such a mapping.  The
    replacement of such entries by an empty task, at the end of [Taskfile],
    is not reached by an entry that was read from the file of the node. *)
Theorem nil_task_entry_panics_the_native_loader
    (W : World) (readerNode node : ReaderNode) (root : string) (f : File)
    (raw : taskfile.Taskfile) (name : string) :
  locate W readerNode = (node, Ok tt) ->
  filepath_Abs W (Dir node) = Ok root ->
  strings_HasSuffix (nodePath W node) "package.json" = false ->
  os_Open W (nodePath W node) = Ok f ->
  yaml_Decode W f = Ok raw ->
  taskfile.Tasks raw !! name = Some None ->
  run (readTaskfile W (nodePath W node)) = Panic NilDereference /\
  forall fuel,
    Taskfile W (S fuel) readerNode = (node, Panic NilDereference).
Proof.
  intros Hlocate Habs Hsuffix Hopen Hdecode Hnil.
  assert (run (readTaskfile W (nodePath W node)) = Panic NilDereference)
    as Hread.
  { rewrite (readTaskfile_decoded W _ f raw Hopen Hdecode).
    rewrite (forEach_Panic _ _ NilDereference); [done| |].
    - intros k [task|] _; [right|left]; by eauto.
    - by exists name, None. }
  split; [done|]. intros fuel.
  rewrite (Taskfile_located W fuel readerNode node Hlocate). f_equal.
  unfold resolve, prepare, loadDeclaration. rewrite Habs. cbn [wrapErr].
  unfold readDeclaration. fold (nodePath W node). rewrite Hsuffix, Hread.
  done.
Qed.

Lemma findLineNumber_returns (W : World) (fd scriptName : string) :
  snd (bufio_Scan W fd) = None ->
  exists ln, findLineNumber W fd scriptName = Ok ln.
Proof.
  unfold findLineNumber. destruct (bufio_Scan W fd) as [ls err]. simpl.
  intros ->. destruct (scanFor _ _ _); eauto.
Qed.

(** The manifest adapter, for any scripts mapping.  When the manifest opens,
    reads and decodes, the process has a working directory and the scanner
    ends without an error, the declaration returned has version 3, no
    include, no dotenv, nil variables and a nil environment, and exactly one
    task per script, under the name of the script: its file is the path of
    the manifest, its two commands are
    [<cmd> install --silent --frozen-lockfile] and [<cmd> run <name>], where
    [<cmd>] is [yarn] for all tasks if [os.Stat] finds a [yarn.lock] beside
    the manifest and [npm] for all tasks if it does not, and its description
    is the eight bytes of [arrow], a space, the relative path of the
    manifest and the line suffix of the script.  Its directory, its name and
    its aliases are empty.  The text of a script is not looked at. *)
Theorem readPackageJson_makes_one_task_per_script
    (W : World) (projectRoot file : string) (f : File)
    (fd wd relFile : string) (p : packageJson) :
  os_Open W file = Ok f ->
  ioutil_ReadAll W f = Ok fd ->
  json_Unmarshal W fd = Ok p ->
  os_Getwd W = Ok wd ->
  orElse file (filepath_Rel W wd file) = Ok relFile ->
  (exists fi,
     os_Stat W (filepath_Join W (filepath_Dir W file) "yarn.lock") = Ok fi) \/
  (exists e,
     os_Stat W (filepath_Join W (filepath_Dir W file) "yarn.lock") = Err e) ->
  snd (bufio_Scan W fd) = None ->
  let cmd :=
    if is_ok (os_Stat W (filepath_Join W (filepath_Dir W file) "yarn.lock"))
    then "yarn" else "npm" in
  exists t,
    run (readPackageJson W projectRoot file) = Ok t /\
    taskfile.Version t = "3" /\
    taskfile.Includes t = [] /\
    taskfile.Dotenv t = [] /\
    taskfile.Vars_ t = None /\
    taskfile.Env t = None /\
    forall name,
      match Scripts p !! name with
      | None => taskfile.Tasks t !! name = None
      | Some _ =>
          exists ln,
            findLineNumber W fd name = Ok ln /\
            taskfile.Tasks t !! name
            = Some (Some (taskfile.mkTask
                            EmptyString EmptyString file
                            (arrow +:+ " " +:+ relFile +:+ ln)
                            [ taskfile.mkCmd
                                (cmd +:+ " install --silent --frozen-lockfile");
                              taskfile.mkCmd (cmd +:+ " run " +:+ name) ]
                            [] false None None None))
      end.
Proof.
  intros Hopen Hread Hjson Hwd Hrel Hstat Hscan cmd.
  assert (lockfileCmd W file = Ok cmd) as Hlock.
  { unfold lockfileCmd, cmd. by destruct Hstat as [[fi ->]|[e ->]]. }
  clearbody cmd.
  destruct (forEach (packageTask W file relFile cmd fd) (Scripts p))
    as [tasks| | |] eqn:Hloop.
  - exists (taskfile.setTasks tasks
              (taskfile.mkTaskfile "3" ∅ [] None None [])).
    split.
    { unfold readPackageJson. io_unfold.
      io_with Hopen. io_with Hread. io_with Hjson. io_with Hwd. io_with Hrel.
      io_with Hlock. by rewrite Hloop. }
    do 5 (split; [done|]). intros name.
    pose proof (forEach_Ok_inv _ _ _ Hloop name) as Hname.
    destruct (Scripts p !! name) as [script|]; [|done].
    destruct Hname as (b & Hb & Hlookup). unfold packageTask in Hb.
    apply bind_Ok_inv in Hb as (ln & Hln & Hb). injection Hb as <-.
    by exists ln.
  - exfalso. revert Hloop. unfold forEach.
    apply (map_fold_weak_ind (fun r _ => r <> Err e)); [done|].
    intros i x m r _ IH. destruct r as [r| | |]; try done. cbn.
    unfold packageTask.
    destruct (findLineNumber_returns W fd i Hscan) as [ln ->]. done.
  - exfalso. revert Hloop. unfold forEach.
    apply (map_fold_weak_ind (fun r _ => r <> Panic p0)); [done|].
    intros i x m r _ IH. destruct r as [r| | |]; try done. cbn.
    unfold packageTask.
    destruct (findLineNumber_returns W fd i Hscan) as [ln ->]. done.
  - exfalso. revert Hloop. unfold forEach.
    apply (map_fold_weak_ind (fun r _ => r <> OutOfFuel)); [done|].
    intros i x m r _ IH. destruct r as [r| | |]; try done. cbn.
    unfold packageTask.
    destruct (findLineNumber_returns W fd i Hscan) as [ln ->]. done.
Qed.

(** The manifest adapter needs a working directory, which it uses for the
    description only: when the manifest opens, reads and decodes but
    [os.Getwd] fails, the adapter panics with the error of [os.Getwd],
    whatever the scripts. *)
Theorem readPackageJson_panics_without_a_working_directory
    (W : World) (projectRoot file : string) (f : File) (fd : string)
    (p : packageJson) (e : error) :
  os_Open W file = Ok f ->
  ioutil_ReadAll W f = Ok fd ->
  json_Unmarshal W fd = Ok p ->
  os_Getwd W = Err e ->
  run (readPackageJson W projectRoot file) = Panic (PanicError e).
Proof.
  intros Hopen Hread Hjson Hwd. unfold readPackageJson. io_unfold.
  io_with Hopen. io_with Hread. io_with Hjson. by io_with Hwd.
Qed.

(* ================================================================= *)
(** ** Includes that are not followed *)

Lemma Taskfile_from (W : World) (fuel : nat) (readerNode : ReaderNode)
    (r : ReaderNode * outcome (taskfile.Taskfile * string)) :
  Taskfile W (S fuel) readerNode = r ->
  snd r <> OutOfFuel ->
  forall fuel', fuel < fuel' -> Taskfile W fuel' readerNode = r.
Proof.
  intros H Hr fuel' Hfuel. rewrite <- H.
  apply Taskfile_fuel_mono; [by rewrite H|lia].
Qed.

Lemma includeStep_missing (W : World) self (node : ReaderNode) (v : float)
    (namespace : string) (i i' : taskfile.IncludedTaskfile) (p : string)
    (e : error) (t : taskfile.Taskfile) :
  templateInclude W v i = Ok i' ->
  FullTaskfilePath W i' = Ok p ->
  exists_ W p = Err e ->
  includeStep W self node v namespace i t
  = if taskfile.Inc_Optional i then Ok t else Err e.
Proof.
  intros Htempl Hpath Hexists. unfold includeStep.
  rewrite Htempl. cbn [mbind outcome_bind]. rewrite Hpath.
  cbn [mbind outcome_bind]. rewrite Hexists.
  by destruct (templateInclude_Ok_inv W v i i' Htempl) as (-> & _).
Qed.

(** An include whose file [exists] does not find is skipped when it is
    optional: the loop goes on with the next include, from the declaration
    as it was.  When it is not optional the loop ends with the error of
    [exists].  No node is made for the include and nothing is read. *)
Theorem include_of_a_missing_file_is_skipped_only_if_optional
    (W : World) self (node : ReaderNode) (v : float) (namespace : string)
    (i i' : taskfile.IncludedTaskfile) (p : string) (e : error)
    (t : taskfile.Taskfile)
    (post : list (string * taskfile.IncludedTaskfile)) :
  templateInclude W v i = Ok i' ->
  FullTaskfilePath W i' = Ok p ->
  exists_ W p = Err e ->
  Range ((namespace, i) :: post) (includeStep W self node v) t
  = if taskfile.Inc_Optional i
    then Range post (includeStep W self node v) t
    else Err e.
Proof.
  intros Htempl Hpath Hexists. cbn [Range].
  rewrite (includeStep_missing W self node v namespace i i' p e t
             Htempl Hpath Hexists).
  by destruct (taskfile.Inc_Optional i).
Qed.

Lemma includeStep_guard_fails (W : World) self (node child : ReaderNode)
    (v : float) (namespace : string) (i i' : taskfile.IncludedTaskfile)
    (t : taskfile.Taskfile) (e : error) :
  includeTarget W node v i = Ok (i', child) ->
  checkCircularIncludes W (Some child) = Err e ->
  includeStep W self node v namespace i t = Err e.
Proof.
  intros Htarget Hguard.
  rewrite (includeStep_target W self node v namespace i i' child t Htarget).
  by rewrite Hguard.
Qed.

(** The optional flag of an include covers the lookup of its file and the
    resolution of the file, and nothing else of the callback.  An error of
    the templater, an error of [FullTaskfilePath], and an error of the cycle
    guard on the node of the include each end the loop and fail [Taskfile]
    with that error, whether the include is optional or not. *)
Theorem optional_flag_covers_neither_the_path_nor_the_cycle_guard
    (W : World) (fuel : nat) (readerNode node : ReaderNode)
    (t t1 : taskfile.Taskfile) (dir : string) (v : float)
    (pre post : list (string * taskfile.IncludedTaskfile))
    (namespace : string) (i : taskfile.IncludedTaskfile) (e : error) :
  locate W readerNode = (node, Ok tt) ->
  prepare W node = Ok (t, dir, v) ->
  taskfile.Includes t = pre ++ (namespace, i) :: post ->
  Range pre (includeStep W (Taskfile W fuel) node v) t = Ok t1 ->
  templateInclude W v i = Err e \/
  (exists i', templateInclude W v i = Ok i' /\
              FullTaskfilePath W i' = Err e) \/
  (exists i' child, includeTarget W node v i = Ok (i', child) /\
                    checkCircularIncludes W (Some child) = Err e) ->
  forall fuel', fuel < fuel' -> Taskfile W fuel' readerNode = (node, Err e).
Proof.
  intros Hloc Hprep Hincs Hpre Hcause.
  apply (Taskfile_include_fails W fuel readerNode node t t1 dir v pre post
           namespace i e Hloc Hprep Hincs Hpre).
  destruct Hcause as [Htempl|[(i' & Htempl & Hpath)|(i' & child & Ht & Hg)]].
  - unfold includeStep. by rewrite Htempl.
  - unfold includeStep. rewrite Htempl. cbn [mbind outcome_bind].
    by rewrite Hpath.
  - by apply (includeStep_guard_fails W _ node child v namespace i i').
Qed.

(** A declaration that includes its own file fails with the cycle error that
    names its path twice, whether the include is optional or not: the guard
    runs on the node of the include before anything of it is resolved, and
    its error is not subject to the optional flag. *)
Theorem self_include_is_a_cycle_even_if_optional
    (W : World) (fuel : nat) (readerNode node child : ReaderNode)
    (t t1 : taskfile.Taskfile) (dir : string) (v : float)
    (pre post : list (string * taskfile.IncludedTaskfile))
    (namespace : string) (i i' : taskfile.IncludedTaskfile) :
  locate W readerNode = (node, Ok tt) ->
  prepare W node = Ok (t, dir, v) ->
  taskfile.Includes t = pre ++ (namespace, i) :: post ->
  Range pre (includeStep W (Taskfile W fuel) node v) t = Ok t1 ->
  includeTarget W node v i = Ok (i', child) ->
  nodePath W child = nodePath W node ->
  forall fuel', fuel < fuel' ->
    Taskfile W fuel' readerNode
    = (node, Err (ErrIncludeCycle (nodePath W node) (nodePath W node))).
Proof.
  intros Hloc Hprep Hincs Hpre Htarget Hpath.
  apply (Taskfile_include_fails W fuel readerNode node t t1 dir v pre post
           namespace i _ Hloc Hprep Hincs Hpre).
  apply (includeStep_guard_fails W _ node child v namespace i i');
    [done|].
  destruct (includeTarget_Parent W node v i i' child Htarget) as [Hparent _].
  unfold checkCircularIncludes. rewrite Hparent.
  rewrite walkAncestors_unfold, Hparent, Hpath.
  by rewrite String.eqb_refl.
Qed.

(* ================================================================= *)
(** ** What a run returns *)

(** The directory that [Taskfile] returns with a declaration is the
    directory of the file of the node as the call leaves the node; that
    file was read, by the loader its name selects, and the directory of the
    node has an absolute form. *)
Theorem Taskfile_returns_the_directory_of_the_file_read
    (W : World) (fuel : nat) (readerNode node : ReaderNode)
    (t : taskfile.Taskfile) (dir : string) :
  Taskfile W fuel readerNode = (node, Ok (t, dir)) ->
  dir = filepath_Dir W (SmartJoin W (Dir node) (Entrypoint node)) /\
  exists root raw,
    filepath_Abs W (Dir node) = Ok root /\
    (if strings_HasSuffix (SmartJoin W (Dir node) (Entrypoint node))
          "package.json"
     then run (readPackageJson W root
                 (SmartJoin W (Dir node) (Entrypoint node)))
     else run (readTaskfile W (SmartJoin W (Dir node) (Entrypoint node))))
    = Ok raw.
Proof.
  intros H.
  apply Taskfile_Ok_inv in H
    as (fuel0 & t0 & v & t1 & t2 & _ & _ & Hprep & _ & _ & _).
  apply prepare_Ok_inv in Hprep as (t00 & Hload & _ & _).
  unfold loadDeclaration in Hload.
  apply bind_Ok_inv in Hload as (root & Hroot & Hload).
  apply bind_Ok_inv in Hload as (raw & Hraw & Hload).
  apply bind_Ok_inv in Hload as (tasks & _ & Hload).
  injection Hload as _ <-. split; [done|].
  exists root, raw. split; [|exact Hraw].
  by destruct (filepath_Abs W (Dir node)); inversion Hroot.
Qed.

(** A node with no entrypoint in whose directory (the working directory, if
    it names none) the search finds no declaration file: [Taskfile] fails
    with the error that names that directory, and the node of the caller is
    left with that directory written in it.  Nothing is read. *)
Theorem Taskfile_fails_where_no_declaration_file_is_found
    (W : World) (readerNode : ReaderNode) (d path : string) :
  is_empty (Entrypoint readerNode) = true ->
  (if is_empty (Dir readerNode) then os_Getwd W = Ok d
   else d = Dir readerNode) ->
  searchForFile W (SmartJoin W d (Entrypoint readerNode)) "Taskfile.yml"
  = Ok (path, false) ->
  forall fuel,
    Taskfile W (S fuel) readerNode
    = (ReaderNode_setDir d readerNode, Err (ErrNoTaskfileFound d)).
Proof.
  intros Hentry Hdir Hsearch fuel. rewrite Taskfile_S.
  unfold TaskfileBody, locate, defaultDir.
  destruct readerNode as [nd ne no np]. cbn in *.
  destruct (is_empty nd) eqn:E.
  - rewrite Hdir. unfold defaultEntrypoint. cbn. rewrite Hentry, Hsearch.
    done.
  - subst d. unfold defaultEntrypoint. cbn. rewrite Hentry, Hsearch. done.
Qed.

(* ================================================================= *)
(** ** The base directory of the includes *)

(** The annotation pass keeps the names and the order of the includes and
    everything else of the declaration.  For a node with a directory, every
    include has a base directory after the pass; an include that had one
    keeps it; and a second pass, for whichever node, changes nothing. *)
Theorem annotateIncludes_sets_an_empty_base_directory_once
    (readerNode other : ReaderNode) (t : taskfile.Taskfile) :
  is_empty (Dir readerNode) = false ->
  map fst (taskfile.Includes (annotateIncludes readerNode t))
  = map fst (taskfile.Includes t) /\
  annotateIncludes readerNode t
  = taskfile.setIncludes
      (taskfile.Includes (annotateIncludes readerNode t)) t /\
  (forall k i,
     (k, i) ∈ taskfile.Includes (annotateIncludes readerNode t) ->
     is_empty (taskfile.Inc_BaseDir i) = false) /\
  (forall k i,
     (k, i) ∈ taskfile.Includes t ->
     is_empty (taskfile.Inc_BaseDir i) = false ->
     (k, i) ∈ taskfile.Includes (annotateIncludes readerNode t)) /\
  annotateIncludes other (annotateIncludes readerNode t)
  = annotateIncludes readerNode t.
Proof.
  intros Hdir. unfold annotateIncludes. cbn [taskfile.Includes taskfile.setIncludes].
  split; [|split; [|split; [|split]]].
  - rewrite map_map. apply map_ext. by intros [k i].
  - done.
  - intros k i Hin. apply list_elem_of_fmap in Hin as ([k0 i0] & Heq & _).
    injection Heq as -> ->.
    destruct (is_empty (taskfile.Inc_BaseDir i0)) eqn:E; [exact Hdir|exact E].
  - intros k i Hin Hbase. apply list_elem_of_fmap. exists (k, i).
    split; [|done]. by rewrite Hbase.
  - unfold taskfile.setIncludes. cbn. f_equal.
    rewrite map_map. apply map_ext. intros [k i].
    destruct (is_empty (taskfile.Inc_BaseDir i)) eqn:E.
    + cbn. by rewrite Hdir.
    + by rewrite E.
Qed.

(* ================================================================= *)
(** ** Includes that add no alias *)

(** When the included declaration has no task [default], or the merged
    declaration has a task under the bare namespace, the callback adds no
    alias: it returns the declaration as the Merger left it. *)
Theorem no_alias_without_a_default_task_or_a_free_namespace
    (W : World) (v : float) (namespace : string)
    (i : taskfile.IncludedTaskfile) (c c' t merged : taskfile.Taskfile) :
  (3 <=? v)%float && (0 <? length (taskfile.Dotenv c))%nat = false ->
  (if taskfile.Inc_AdvancedImport i then advancedImport W i c else Ok c)
  = Ok c' ->
  Merge W t c' (Some i) [namespace] = Ok merged ->
  index (taskfile.Tasks c') "default" = None \/
  is_Some (index (taskfile.Tasks merged) namespace) ->
  mergeInclude W v namespace i c t = Ok merged.
Proof.
  intros Hdotenv Himport Hmerge Hfree. unfold mergeInclude.
  rewrite Hdotenv, Himport. cbn [mbind outcome_bind]. rewrite Hmerge.
  cbn [mbind outcome_bind]. unfold defaultAlias.
  destruct Hfree as [->|[task ->]]; [done|].
  by destruct (index (taskfile.Tasks c') "default").
Qed.

(* ================================================================= *)
(** ** The sibling of a legacy declaration *)

(** Once the includes of a declaration have merged: under a version of 3 or
    more, or when [os.Stat] does not find the file [Taskfile_<GOOS>.yml] in
    the directory of the node, [Taskfile] returns the declaration the
    include loop left, with its tasks named by the final pass; under a
    version below 3 with a sibling that opens but does not decode, [Taskfile]
    fails with the parse error of the sibling. *)
Theorem platform_sibling_is_read_below_version_3_only
    (W : World) (fuel : nat) (readerNode node : ReaderNode)
    (t t1 : taskfile.Taskfile) (dir : string) (v : float) :
  locate W readerNode = (node, Ok tt) ->
  prepare W node = Ok (t, dir, v) ->
  Range (taskfile.Includes t) (includeStep W (Taskfile W fuel) node v) t
  = Ok t1 ->
  ((v <? 3)%float = false \/
   (exists e, os_Stat W (osTaskfilePath W node) = Err e) ->
   forall fuel', fuel < fuel' ->
     Taskfile W fuel' readerNode = (node, Ok (normalizeTasks t1, dir))) /\
  (forall fi f e,
     (v <? 3)%float = true ->
     os_Stat W (osTaskfilePath W node) = Ok fi ->
     os_Open W (osTaskfilePath W node) = Ok f ->
     yaml_Decode W f = Err e ->
     forall fuel', fuel < fuel' ->
       Taskfile W fuel' readerNode
       = (node,
          Err (ErrParse (TryAbsToRel W (osTaskfilePath W node)) e))).
Proof.
  intros Hloc Hprep Hrange.
  assert (forall r,
            mergeOSTaskfile W node v t1 ≫=
              (fun t => Ok (normalizeTasks t, dir)) = r ->
            r <> OutOfFuel ->
            forall fuel', fuel < fuel' ->
              Taskfile W fuel' readerNode = (node, r)) as Hrun.
  { intros r Hr Hfuel. apply Taskfile_from; [|done].
    rewrite (Taskfile_located W fuel readerNode node Hloc). f_equal.
    unfold resolve. rewrite Hprep. cbn [mbind outcome_bind].
    rewrite Hrange. exact Hr. }
  split.
  - intros Hskip. apply Hrun; [|done]. unfold mergeOSTaskfile.
    destruct (v <? 3)%float; [|done].
    destruct Hskip as [|[e ->]]; done.
  - intros fi f e Hv Hstat Hopen Hdecode. apply Hrun; [|done].
    unfold mergeOSTaskfile. rewrite Hv, Hstat.
    by rewrite (readTaskfile_undecoded W _ f e Hopen Hdecode).
Qed.

(* ================================================================= *)
(** ** The list of the task names *)

Lemma string_compare_trans (s1 s2 s3 : string) :
  String.compare s1 s2 <> Gt -> String.compare s2 s3 <> Gt ->
  String.compare s1 s3 <> Gt.
Proof.
  revert s2 s3.
  induction s1 as [|a s1 IH]; intros [|b s2] [|c s3]; simpl; try done.
  unfold Ascii.compare.
  destruct (N.compare_spec (N_of_ascii a) (N_of_ascii b)) as [Hab|Hab|Hab],
           (N.compare_spec (N_of_ascii b) (N_of_ascii c)) as [Hbc|Hbc|Hbc],
           (N.compare_spec (N_of_ascii a) (N_of_ascii c)) as [Hac|Hac|Hac];
    try done; try lia; eauto.
Qed.

#[global] Instance stringLe_total : Total stringLe.
Proof. intros a b. apply String.leb_total. Qed.

#[global] Instance stringLe_trans : Transitive stringLe.
Proof.
  intros a b c. unfold stringLe, String.leb. intros Hab Hbc.
  pose proof (string_compare_trans a b c) as H.
  destruct (String.compare a b), (String.compare b c),
    (String.compare a c); try done; exfalso; by apply H.
Qed.

#[global] Instance stringLe_antisym : AntiSymm (=) stringLe.
Proof. intros a b. apply String.leb_antisym. Qed.

Lemma strings_TrimRight_end (s cutset y : string) (c : ascii) :
  strings_TrimRight s cutset = y +:+ String c EmptyString ->
  inCutset cutset c = false.
Proof.
  revert y. induction s as [|a s IH]; intros y; simpl.
  - by destruct y.
  - destruct (is_empty (strings_TrimRight s cutset)) eqn:E; simpl.
    + destruct (inCutset cutset a) eqn:Ea; [by destruct y|].
      destruct (strings_TrimRight s cutset); [|done].
      destruct y as [|b y]; simpl; [by intros [= <-]|].
      intros [= _ H]. by destruct y.
    + destruct y as [|b y]; simpl.
      * intros [= _ H]. by rewrite H in E.
      * intros [= _ H]. by apply (IH y).
Qed.

Lemma strings_TrimRight_prefix (s cutset : string) :
  exists tail,
    s = strings_TrimRight s cutset +:+ tail /\
    forall c, c ∈ list_ascii_of_string tail -> inCutset cutset c = true.
Proof.
  induction s as [|a s (tail & Hs & Htail)]; simpl.
  - exists EmptyString. split; [done|]. intros c Hc.
    by apply elem_of_nil in Hc.
  - destruct (is_empty (strings_TrimRight s cutset)) eqn:E; simpl.
    + destruct (inCutset cutset a) eqn:Ea.
      * exists (String a tail). split.
        { rewrite Hs at 1. by destruct (strings_TrimRight s cutset). }
        intros c Hc. simpl in Hc.
        apply elem_of_cons in Hc as [->|Hc]; auto.
      * exists tail. split; [|done]. by rewrite Hs at 1.
    + exists tail. split; [|done]. by rewrite Hs at 1.
Qed.

Lemma collectNames_spec (allTasks : bool)
    (tasks : gmap string (option taskfile.Task)) :
  (collectNames allTasks tasks = Panic NilDereference /\
   exists name, tasks !! name = Some None) \/
  ((forall name entry, tasks !! name = Some entry -> is_Some entry) /\
   exists s,
     collectNames allTasks tasks = Ok s /\
     s ≡ₚ map_to_list tasks ≫=
            (fun kv => from_option (namesOfTask allTasks) [] kv.2)).
Proof.
  unfold collectNames.
  apply (map_fold_weak_ind
           (fun r (m : gmap string (option taskfile.Task)) =>
              (r = Panic NilDereference /\
               exists name, m !! name = Some None) \/
              ((forall name entry, m !! name = Some entry -> is_Some entry) /\
               exists s,
                 r = Ok s /\
                 s ≡ₚ map_to_list m ≫=
                        (fun kv =>
                           from_option (namesOfTask allTasks) [] kv.2)))).
  - right. split.
    + intros name entry H. by rewrite lookup_empty in H.
    + exists []. by rewrite map_to_list_empty.
  - intros i x m r Hi [[-> (name & Hname)]|[Hsome (s & -> & Hs)]].
    + left. split; [done|]. exists name. rewrite lookup_insert_ne; [done|].
      intros ->. congruence.
    + destruct x as [task|].
      * right. split.
        { intros name entry H.
          apply lookup_insert_Some in H as [[_ <-]|[_ H]]; eauto. }
        eexists. split; [reflexivity|].
        rewrite map_to_list_insert by done. cbn.
        rewrite Hs. apply Permutation_app_comm.
      * left. split; [done|]. exists i. by rewrite lookup_insert_eq.
Qed.

Lemma collectNames_elem_of (allTasks : bool)
    (tasks : gmap string (option taskfile.Task)) (s : list string) :
  collectNames allTasks tasks = Ok s ->
  forall x,
    x ∈ s <->
    exists name task,
      tasks !! name = Some (Some task) /\ x ∈ namesOfTask allTasks task.
Proof.
  intros H x.
  destruct (collectNames_spec allTasks tasks)
    as [[Hp _]|[_ (s' & Hs' & Hperm)]]; [congruence|].
  assert (s' = s) as -> by congruence.
  rewrite Hperm, list_elem_of_bind. split.
  - intros ([name [task|]] & Hx & Hin); simpl in Hx.
    + apply elem_of_map_to_list in Hin. by exists name, task.
    + by apply elem_of_nil in Hx.
  - intros (name & task & Hlookup & Hx). exists (name, Some task).
    split; [done|]. by apply elem_of_map_to_list.
Qed.

Lemma namesOfTask_elem_of (allTasks : bool) (task : taskfile.Task)
    (x : string) :
  x ∈ namesOfTask allTasks task <->
  taskfile.Task_Internal task = false /\
  (allTasks = true \/ taskfile.Task_Desc task <> EmptyString) /\
  (x = strings_TrimRight (taskfile.Task_Task task) ":" \/
   exists alias,
     alias ∈ taskfile.Task_Aliases task /\
     x = strings_TrimRight alias ":").
Proof.
  unfold namesOfTask.
  assert (negb (is_empty (taskfile.Task_Desc task)) = true <->
          taskfile.Task_Desc task <> EmptyString) as Hdesc.
  { by destruct (taskfile.Task_Desc task). }
  destruct (taskfile.Task_Internal task).
  { rewrite andb_false_r. split; [intros H; by apply elem_of_nil in H|].
    by intros [? _]. }
  rewrite andb_true_r.
  destruct (allTasks || negb (is_empty (taskfile.Task_Desc task))) eqn:E.
  - apply orb_true_iff in E. rewrite Hdesc in E.
    rewrite elem_of_cons.
    change (map ?f ?l) with (f <$> l). rewrite list_elem_of_fmap.
    split.
    + intros [->|(alias & -> & Hin)]; (split; [done|split; [done|]]); eauto.
    + intros (_ & _ & [->|(alias & Hin & ->)]); eauto.
  - apply orb_false_iff in E as [-> E]. split.
    + intros H. by apply elem_of_nil in H.
    + intros (_ & [?|Hd] & _); [done|]. apply Hdesc in Hd. congruence.
Qed.

(** [ListTaskNames] on a declaration whose entries all hold a task: the
    lines written are in the byte-wise order of [sort.Strings], and a line
    is written exactly when it is the name or an alias, with the colons at
    its end cut, of a task that is not internal and, unless all tasks are
    asked for, has a description.  The key under which a task is kept plays
    no part. *)
Theorem ListTaskNames_writes_the_sorted_names_of_the_listed_tasks
    (allTasks : bool) (tf : taskfile.Taskfile) :
  (forall name entry,
     taskfile.Tasks tf !! name = Some entry -> is_Some entry) ->
  exists s,
    ListTaskNames allTasks tf = Ok s /\
    Sorted stringLe s /\
    forall x,
      x ∈ s <->
      exists name task,
        taskfile.Tasks tf !! name = Some (Some task) /\
        taskfile.Task_Internal task = false /\
        (allTasks = true \/ taskfile.Task_Desc task <> EmptyString) /\
        (x = strings_TrimRight (taskfile.Task_Task task) ":" \/
         exists alias,
           alias ∈ taskfile.Task_Aliases task /\
           x = strings_TrimRight alias ":").
Proof.
  intros Hsome.
  destruct (collectNames_spec allTasks (taskfile.Tasks tf))
    as [[_ (name & Hnil)]|[_ (s & Hs & _)]].
  { by destruct (Hsome name None Hnil). }
  exists (sort_Strings s). split; [|split].
  - unfold ListTaskNames. by rewrite Hs.
  - apply Sorted_merge_sort, _.
  - intros x. unfold sort_Strings. rewrite merge_sort_Permutation.
    rewrite (collectNames_elem_of allTasks _ s Hs).
    by setoid_rewrite namesOfTask_elem_of.
Qed.

(** The lines written depend on the names collected as a multiset only:
    whatever the order in which the task mapping is visited, the list
    written is the same, and it has one line for each name collected, a name
    collected twice being written twice. *)
Theorem ListTaskNames_does_not_depend_on_the_order_of_the_visits
    (allTasks : bool) (tf : taskfile.Taskfile) (names : list string) :
  collectNames allTasks (taskfile.Tasks tf) = Ok names ->
  exists s,
    ListTaskNames allTasks tf = Ok s /\
    s ≡ₚ names /\
    forall visited, visited ≡ₚ names -> sort_Strings visited = s.
Proof.
  intros Hnames. exists (sort_Strings names). split; [|split].
  - unfold ListTaskNames. by rewrite Hnames.
  - apply merge_sort_Permutation.
  - intros visited Hperm. unfold sort_Strings.
    apply (Sorted_unique stringLe); [apply Sorted_merge_sort, _..|].
    by rewrite !merge_sort_Permutation.
Qed.

(** No line that [ListTaskNames] writes ends with a colon, and each line is
    the name or an alias of a task of the declaration from whose end colons,
    and nothing but colons, were cut. *)
Theorem ListTaskNames_cuts_the_colons_at_the_end
    (allTasks : bool) (tf : taskfile.Taskfile) (s : list string)
    (x : string) :
  ListTaskNames allTasks tf = Ok s ->
  x ∈ s ->
  (forall y, x <> y +:+ ":") /\
  exists name task original tail,
    taskfile.Tasks tf !! name = Some (Some task) /\
    (original = taskfile.Task_Task task \/
     original ∈ taskfile.Task_Aliases task) /\
    original = x +:+ tail /\
    forall c, c ∈ list_ascii_of_string tail -> c = ":"%char.
Proof.
  unfold ListTaskNames. intros H Hx.
  apply bind_Ok_inv in H as (names & Hnames & [= <-]).
  unfold sort_Strings in Hx. rewrite merge_sort_Permutation in Hx.
  apply (collectNames_elem_of allTasks _ names Hnames) in Hx
    as (name & task & Hlookup & Hx).
  apply namesOfTask_elem_of in Hx as (_ & _ & Hx).
  assert (exists original,
            (original = taskfile.Task_Task task \/
             original ∈ taskfile.Task_Aliases task) /\
            x = strings_TrimRight original ":") as (original & Horig & ->).
  { destruct Hx as [->|(alias & Hin & ->)]; eauto. }
  split.
  - intros y Hy. apply strings_TrimRight_end in Hy. done.
  - destruct (strings_TrimRight_prefix original ":") as (tail & Htail & Hcut).
    exists name, task, original, tail. do 3 (split; [done|]).
    intros c Hc. apply Hcut in Hc. unfold inCutset in Hc. simpl in Hc.
    rewrite orb_false_r in Hc. by apply Ascii.eqb_eq in Hc.
Qed.

(** On a declaration that [Taskfile] returned, [ListTaskNames] does not
    dereference a missing task; and when all tasks are asked for, the key of
    every task that is not internal is among the lines written, with the
    colons at its end cut. *)
Theorem ListTaskNames_lists_the_keys_of_a_resolved_declaration
    (W : World) (fuel : nat) (readerNode : ReaderNode)
    (t : taskfile.Taskfile) (dir : string) :
  snd (Taskfile W fuel readerNode) = Ok (t, dir) ->
  forall allTasks,
  exists s,
    ListTaskNames allTasks t = Ok s /\
    (allTasks = true ->
     forall name task,
       taskfile.Tasks t !! name = Some (Some task) ->
       taskfile.Task_Internal task = false ->
       strings_TrimRight name ":" ∈ s).
Proof.
  intros Hrun allTasks.
  destruct (collectNames_spec allTasks (taskfile.Tasks t))
    as [[_ (name & Hnil)]|[_ (s & Hs & _)]].
  { by destruct (Taskfile_no_nil_task W fuel readerNode t dir name None
                   Hrun Hnil). }
  exists (sort_Strings s). split.
  { unfold ListTaskNames. by rewrite Hs. }
  intros -> name task Hlookup Hinternal.
  unfold sort_Strings. rewrite merge_sort_Permutation.
  apply (collectNames_elem_of true _ s Hs). exists name, task.
  split; [done|]. apply namesOfTask_elem_of.
  split; [done|]. split; [by left|]. left.
  destruct (Taskfile W fuel readerNode) as [node r] eqn:Hr.
  simpl in Hrun. subst r.
  apply Taskfile_Ok_inv in Hr
    as (fuel0 & t0 & v & t1 & t2 & _ & _ & _ & _ & _ & ->).
  rewrite normalizeTasks_lookup in Hlookup.
  destruct (taskfile.Tasks t2 !! name) as [entry|]; [|done].
  simpl in Hlookup. injection Hlookup as <-. done.
Qed.

(* ================================================================= *)
(** ** What the optional flag leaves out after the resolution *)

(** Once an include has resolved, the optional flag plays no part: an error
    of [FullDirPath] under an advanced import, and an error of the Merger,
    end the loop and fail [Taskfile] with that error, whether the include is
    optional or not. *)
Theorem optional_flag_does_not_cover_the_merge
    (W : World) (fuel : nat) (readerNode node child : ReaderNode)
    (t t1 c : taskfile.Taskfile) (dir cdir : string) (v : float)
    (pre post : list (string * taskfile.IncludedTaskfile))
    (namespace : string) (i i' : taskfile.IncludedTaskfile) (e : error) :
  locate W readerNode = (node, Ok tt) ->
  prepare W node = Ok (t, dir, v) ->
  taskfile.Includes t = pre ++ (namespace, i) :: post ->
  Range pre (includeStep W (Taskfile W fuel) node v) t = Ok t1 ->
  includeTarget W node v i = Ok (i', child) ->
  checkCircularIncludes W (Some child) = Ok tt ->
  snd (Taskfile W fuel child) = Ok (c, cdir) ->
  (3 <=? v)%float && (0 <? length (taskfile.Dotenv c))%nat = false ->
  (taskfile.Inc_AdvancedImport i' = true /\ FullDirPath W i' = Err e) \/
  (exists c',
     (if taskfile.Inc_AdvancedImport i' then advancedImport W i' c else Ok c)
     = Ok c' /\
     Merge W t1 c' (Some i') [namespace] = Err e) ->
  forall fuel', fuel < fuel' -> Taskfile W fuel' readerNode = (node, Err e).
Proof.
  intros Hloc Hprep Hincs Hpre Htarget Hguard Hchild Hdotenv Hcause.
  apply (Taskfile_include_fails W fuel readerNode node t t1 dir v pre post
           namespace i e Hloc Hprep Hincs Hpre).
  rewrite (includeStep_target W _ node v namespace i i' child t1 Htarget).
  rewrite Hguard. cbn [mbind outcome_bind].
  unfold followInclude. rewrite Hchild. unfold mergeInclude.
  rewrite Hdotenv.
  destruct Hcause as [[Hadv Hdir]|(c' & Himport & Hmerge)].
  - rewrite Hadv. unfold advancedImport. by rewrite Hdir.
  - rewrite Himport. cbn [mbind outcome_bind]. by rewrite Hmerge.
Qed.

(* ================================================================= *)
(** ** The choice of the loader *)

Lemma string_length_app (p s : string) :
  String.length (p +:+ s) = String.length p + String.length s.
Proof.
  induction p as [|a p IH]; [done|].
  change (String a p +:+ s) with (String a (p +:+ s)). simpl. by rewrite IH.
Qed.

Lemma substring_whole (s : string) : substring 0 (String.length s) s = s.
Proof. induction s as [|a s IH]; [done|]. simpl. by rewrite IH. Qed.

Lemma substring_skip (p s : string) :
  substring (String.length p) (String.length s) (p +:+ s) = s.
Proof.
  induction p as [|a p IH]; [apply substring_whole|].
  change (String a p +:+ s) with (String a (p +:+ s)). simpl. exact IH.
Qed.

Lemma substring_split (s : string) (n : nat) :
  n <= String.length s ->
  s = substring 0 n s +:+ substring n (String.length s - n) s.
Proof.
  revert n. induction s as [|a s IH]; intros [|n] Hn; simpl in *; try done.
  - change (String a (substring 0 (String.length s) s))
      with (EmptyString +:+ String a (substring 0 (String.length s) s)).
    by rewrite substring_whole.
  - change (String a (substring 0 n s) +:+ ?x)
      with (String a (substring 0 n s +:+ x)).
    f_equal. apply IH. lia.
Qed.

Lemma strings_HasSuffix_spec (s suffix : string) :
  strings_HasSuffix s suffix = true <-> exists p, s = p +:+ suffix.
Proof.
  unfold strings_HasSuffix. rewrite andb_true_iff, Nat.leb_le, String.eqb_eq.
  split.
  - intros [Hlen Hsub].
    exists (substring 0 (String.length s - String.length suffix) s).
    pose proof (substring_split s (String.length s - String.length suffix))
      as H.
    replace (String.length s - (String.length s - String.length suffix))
      with (String.length suffix) in H by lia.
    rewrite Hsub in H. apply H. lia.
  - intros [p ->]. rewrite string_length_app. split; [lia|].
    replace (String.length p + String.length suffix - String.length suffix)
      with (String.length p) by lia.
    apply substring_skip.
Qed.

(** The loader is chosen by the end of the path alone: a path that ends with
    [package.json], whatever stands before it (a file [my-package.json]
    included), is read by the manifest adapter, and every other path by the
    native loader. *)
Theorem manifest_adapter_is_chosen_by_the_end_of_the_path
    (W : World) (projectRoot path : string) :
  ((exists prefix, path = prefix +:+ "package.json") ->
   readDeclaration W projectRoot path
   = run (readPackageJson W projectRoot path)) /\
  ((forall prefix, path <> prefix +:+ "package.json") ->
   readDeclaration W projectRoot path = run (readTaskfile W path)).
Proof.
  unfold readDeclaration. split.
  - intros Hend. apply strings_HasSuffix_spec in Hend. by rewrite Hend.
  - intros Hend.
    destruct (strings_HasSuffix path "package.json") eqn:E; [|done].
    apply strings_HasSuffix_spec in E as [prefix ->]. by destruct (Hend prefix).
Qed.

(* ================================================================= *)
(** ** The two modes of the list *)

Lemma bind_submseteq {A B} (f g : A -> list B) (l : list A) :
  (forall x, f x ⊆+ g x) -> l ≫= f ⊆+ l ≫= g.
Proof.
  intros H. induction l as [|x l IH]; [done|].
  cbn. by apply submseteq_app.
Qed.

Lemma namesOfTask_all (t : taskfile.Task) :
  namesOfTask false t ⊆+ namesOfTask true t.
Proof.
  unfold namesOfTask. simpl.
  destruct (negb (is_empty (taskfile.Task_Desc t))); simpl; [done|].
  apply submseteq_nil_l.
Qed.

(** Asking for all tasks only adds lines: when [ListTaskNames] writes a list
    for the described tasks, it writes one for all tasks too, and every line
    of the first is in the second at least as many times. *)
Theorem ListTaskNames_of_all_tasks_keeps_the_lines_of_the_described_ones
    (tf : taskfile.Taskfile) (s : list string) :
  ListTaskNames false tf = Ok s ->
  exists s', ListTaskNames true tf = Ok s' /\ s ⊆+ s'.
Proof.
  unfold ListTaskNames. intros H.
  apply bind_Ok_inv in H as (names & Hnames & [= <-]).
  destruct (collectNames_spec false (taskfile.Tasks tf))
    as [[Hp _]|[Hsome (names0 & Hnames0 & Hperm)]]; [congruence|].
  assert (names0 = names) as -> by congruence.
  destruct (collectNames_spec true (taskfile.Tasks tf))
    as [[_ (name & Hnil)]|[_ (names' & Hnames' & Hperm')]].
  { by destruct (Hsome name None Hnil). }
  exists (sort_Strings names'). split; [by rewrite Hnames'|].
  unfold sort_Strings. rewrite !merge_sort_Permutation, Hperm, Hperm'.
  apply bind_submseteq. intros [name [task|]]; simpl; [|done].
  apply namesOfTask_all.
Qed.

(* ================================================================= *)
(** ** The further properties on the sample projects *)

Lemma exists_returns_the_first_default_file_witness :
  exists_ sample.npmWorld "/n" = Ok "/n/package.json" /\
  is_ok (os_Stat sample.npmWorld "/n/package.json") = true.
Proof.
  split; [by vm_compute|].
  refine (proj1 (exists_returns_the_first_default_file
                   sample.npmWorld "/n" "/n/package.json" _)).
  by vm_compute.
Defined.

Lemma findLineNumber_points_at_the_first_match_witness :
  findLineNumber sample.npmWorld sample.manifestContent "build" = Ok ":3".
Proof.
  refine (findLineNumber_points_at_the_first_match
            sample.npmWorld sample.manifestContent "build"
            (take 2 (mem.lines EmptyString sample.manifestContent))
            (drop 3 (mem.lines EmptyString sample.manifestContent))
            ("  " +:+ dquote +:+ "build" +:+ dquote +:+ ": "
               +:+ dquote +:+ "tsc" +:+ dquote)
            None _ _ _).
  - by vm_compute.
  - apply Forall_forall, (bool_decide_unpack _). by vm_compute.
  - by vm_compute.
Defined.

Lemma findLineNumber_without_a_match_witness :
  findLineNumber sample.npmWorld sample.manifestContent "test"
  = Ok EmptyString.
Proof.
  refine (findLineNumber_without_a_match
            sample.npmWorld sample.manifestContent "test"
            (mem.lines EmptyString sample.manifestContent) None _ _).
  - by vm_compute.
  - apply Forall_forall, (bool_decide_unpack _). by vm_compute.
Defined.

Lemma nil_task_entry_panics_the_native_loader_witness :
  taskfile.Tasks cases.ghostDeclaration !! "ghost" = Some None /\
  forall fuel,
    Taskfile cases.ghostWorld (S fuel) cases.ghostNode
    = (cases.ghostNode, Panic NilDereference).
Proof.
  split; [by vm_compute|].
  refine (proj2 (nil_task_entry_panics_the_native_loader
                   cases.ghostWorld cases.ghostNode cases.ghostNode "/g"
                   "/g/Taskfile.yml" cases.ghostDeclaration "ghost"
                   _ _ _ _ _ _)); by vm_compute.
Defined.

Lemma readPackageJson_makes_one_task_per_script_witness :
  exists t,
    run (readPackageJson sample.yarnWorld "/n" "/n/package.json") = Ok t /\
    taskfile.Version t = "3" /\
    taskfile.Task_Cmds <$> index (taskfile.Tasks t) "build"
    = Some [ taskfile.mkCmd "yarn install --silent --frozen-lockfile";
             taskfile.mkCmd "yarn run build" ] /\
    taskfile.Tasks t !! "test" = None.
Proof.
  destruct (readPackageJson_makes_one_task_per_script
              sample.yarnWorld "/n" "/n/package.json" "/n/package.json"
              sample.manifestContent "/n" "/n/package.json"
              (mkPackageJson {[ "build" := "tsc" ]}))
    as (t & Hrun & Hversion & _ & _ & _ & _ & Htasks);
    [by vm_compute..|left; eexists; by vm_compute|by vm_compute|].
  exists t. split; [exact Hrun|]. split; [exact Hversion|]. split.
  - pose proof (Htasks "build") as Hbuild.
    change (Scripts (mkPackageJson {[ "build" := "tsc" ]}) !! "build")
      with (({[ "build" := "tsc" ]} : gmap string string) !! "build")
      in Hbuild.
    rewrite lookup_singleton_eq in Hbuild.
    destruct Hbuild as (ln & _ & Hbuild). unfold index.
    rewrite Hbuild. by vm_compute.
  - exact (Htasks "test").
Defined.

Lemma readPackageJson_panics_without_a_working_directory_witness :
  run (readPackageJson cases.noCwdWorld "/n" "/n/package.json")
  = Panic (PanicError (ErrForeign "getwd: no such file or directory")).
Proof.
  refine (readPackageJson_panics_without_a_working_directory
            cases.noCwdWorld "/n" "/n/package.json" "/n/package.json"
            sample.manifestContent (mkPackageJson {[ "build" := "tsc" ]})
            _ _ _ _ _); by vm_compute.
Defined.

Lemma include_of_a_missing_file_is_skipped_only_if_optional_witness :
  (forall self t,
     Range [ ("gone", sample.edge "gone/Taskfile.yml" true) ]
       (includeStep (sample.dotenvWorld true) self sample.rootNode 3) t
     = Ok t) /\
  (forall self t,
     Range [ ("gone", sample.edge "gone/Taskfile.yml" false) ]
       (includeStep (sample.dotenvWorld false) self sample.rootNode 3) t
     = Err (ErrForeign "no such file or directory")).
Proof.
  split; intros self t.
  - refine (include_of_a_missing_file_is_skipped_only_if_optional
              (sample.dotenvWorld true) self sample.rootNode 3 "gone"
              (sample.edge "gone/Taskfile.yml" true)
              (sample.edge "gone/Taskfile.yml" true)
              "/p/gone/Taskfile.yml"
              (ErrForeign "no such file or directory") t [] _ _ _);
      by vm_compute.
  - refine (include_of_a_missing_file_is_skipped_only_if_optional
              (sample.dotenvWorld false) self sample.rootNode 3 "gone"
              (sample.edge "gone/Taskfile.yml" false)
              (sample.edge "gone/Taskfile.yml" false)
              "/p/gone/Taskfile.yml"
              (ErrForeign "no such file or directory") t [] _ _ _);
      by vm_compute.
Defined.

Lemma optional_flag_covers_neither_the_path_nor_the_cycle_guard_witness :
  taskfile.Inc_Optional cases.selfEdge = true /\
  forall fuel', 0 < fuel' ->
    Taskfile cases.selfWorld fuel' cases.selfNode
    = (cases.selfNode, Err (ErrIncludeCycle "/s/Taskfile.yml" "/s/Taskfile.yml")).
Proof.
  split; [done|].
  refine (optional_flag_covers_neither_the_path_nor_the_cycle_guard
            cases.selfWorld 0 cases.selfNode cases.selfNode
            (sample.prepared cases.selfWorld cases.selfNode)
            (sample.prepared cases.selfWorld cases.selfNode)
            "/s" 3 [] [] "me" cases.selfEdge
            (ErrIncludeCycle "/s/Taskfile.yml" "/s/Taskfile.yml")
            _ _ _ _ _); [by vm_compute..|].
  right. right. exists cases.selfEdge, cases.selfChild.
  split; by vm_compute.
Defined.

Lemma self_include_is_a_cycle_even_if_optional_witness :
  taskfile.Inc_Optional cases.selfEdge = true /\
  forall fuel', 0 < fuel' ->
    Taskfile cases.selfWorld fuel' cases.selfNode
    = (cases.selfNode,
       Err (ErrIncludeCycle (nodePath cases.selfWorld cases.selfNode)
              (nodePath cases.selfWorld cases.selfNode))).
Proof.
  split; [done|].
  refine (self_include_is_a_cycle_even_if_optional
            cases.selfWorld 0 cases.selfNode cases.selfNode cases.selfChild
            (sample.prepared cases.selfWorld cases.selfNode)
            (sample.prepared cases.selfWorld cases.selfNode)
            "/s" 3 [] [] "me" cases.selfEdge cases.selfEdge
            _ _ _ _ _ _); by vm_compute.
Defined.

Lemma Taskfile_returns_the_directory_of_the_file_read_witness :
  Taskfile sample.importWorld 2 sample.importNode
  = (sample.importNode, Ok (sample.importResult, "/q")) /\
  "/q" = filepath_Dir sample.importWorld "/q/Taskfile.yml".
Proof.
  split; [by vm_compute|].
  refine (proj1 (Taskfile_returns_the_directory_of_the_file_read
                   sample.importWorld 2 sample.importNode sample.importNode
                   sample.importResult "/q" _)).
  by vm_compute.
Defined.

Lemma Taskfile_fails_where_no_declaration_file_is_found_witness :
  os_Getwd cases.emptyWorld = Ok "/e" /\
  forall fuel,
    Taskfile cases.emptyWorld (S fuel) sample.blankNode
    = (mkReaderNode "/e" EmptyString false None,
       Err (ErrNoTaskfileFound "/e")).
Proof.
  split; [done|].
  refine (Taskfile_fails_where_no_declaration_file_is_found
            cases.emptyWorld sample.blankNode "/e" EmptyString _ _ _);
    by vm_compute.
Defined.

Lemma annotateIncludes_sets_an_empty_base_directory_once_witness :
  map fst (taskfile.Includes
             (annotateIncludes sample.rootNode
                (sample.declaration "3" ∅
                   [ ("lib", sample.include "lib/Taskfile.yml" false);
                     ("far", sample.edge "far/Taskfile.yml" false) ])))
  = [ "lib"; "far" ] /\
  annotateIncludes sample.subNode
    (annotateIncludes sample.rootNode
       (sample.declaration "3" ∅
          [ ("lib", sample.include "lib/Taskfile.yml" false);
            ("far", sample.edge "far/Taskfile.yml" false) ]))
  = annotateIncludes sample.rootNode
      (sample.declaration "3" ∅
         [ ("lib", sample.include "lib/Taskfile.yml" false);
           ("far", sample.edge "far/Taskfile.yml" false) ]).
Proof.
  destruct (annotateIncludes_sets_an_empty_base_directory_once
              sample.rootNode sample.subNode
              (sample.declaration "3" ∅
                 [ ("lib", sample.include "lib/Taskfile.yml" false);
                   ("far", sample.edge "far/Taskfile.yml" false) ]))
    as (Hnames & _ & _ & _ & Honce); [done|].
  split; [exact Hnames|exact Honce].
Defined.

Lemma no_alias_without_a_default_task_or_a_free_namespace_witness :
  exists merged,
    mergeInclude sample.importWorld 3 "tools"
      (sample.edge "tools/Taskfile.yml" false)
      cases.toolsDeclaration cases.hostDeclaration
    = Ok merged /\
    taskfile.Task_Aliases <$> index (taskfile.Tasks merged) "tools:lint"
    = Some [] /\
    index (taskfile.Tasks merged) "tools" = None.
Proof.
  eexists. split.
  - refine (no_alias_without_a_default_task_or_a_free_namespace
              sample.importWorld 3 "tools"
              (sample.edge "tools/Taskfile.yml" false)
              cases.toolsDeclaration cases.toolsDeclaration
              cases.hostDeclaration
              (sample.valueOf
                 (Merge sample.importWorld cases.hostDeclaration
                    cases.toolsDeclaration
                    (Some (sample.edge "tools/Taskfile.yml" false))
                    [ "tools" ]))
              _ _ _ _); [by vm_compute..|].
    left. by vm_compute.
  - split; by vm_compute.
Defined.

Lemma platform_sibling_is_read_below_version_3_only_witness :
  (forall fuel', 0 < fuel' ->
     Taskfile cases.siblingWorld fuel' sample.legacyNode
     = (sample.legacyNode,
        Err (ErrParse "/l/Taskfile_linux.yml"
               (ErrForeign "yaml: cannot decode")))) /\
  (forall fuel', 0 < fuel' ->
     Taskfile sample.npmWorld fuel'
       (mkReaderNode "/n" "package.json" false None)
     = (mkReaderNode "/n" "package.json" false None,
        Ok (normalizeTasks
              (sample.prepared sample.npmWorld
                 (mkReaderNode "/n" "package.json" false None)),
            "/n"))).
Proof.
  split.
  - refine (proj2 (platform_sibling_is_read_below_version_3_only
                     cases.siblingWorld 0 sample.legacyNode sample.legacyNode
                     (sample.prepared cases.siblingWorld sample.legacyNode)
                     (sample.prepared cases.siblingWorld sample.legacyNode)
                     "/l" 2 _ _ _)
                  (mkFileInfo true) "/l/Taskfile_linux.yml"
                  (ErrForeign "yaml: cannot decode") _ _ _ _);
      by vm_compute.
  - refine (proj1 (platform_sibling_is_read_below_version_3_only
                     sample.npmWorld 0
                     (mkReaderNode "/n" "package.json" false None)
                     (mkReaderNode "/n" "package.json" false None)
                     (sample.prepared sample.npmWorld
                        (mkReaderNode "/n" "package.json" false None))
                     (sample.prepared sample.npmWorld
                        (mkReaderNode "/n" "package.json" false None))
                     "/n" 3 _ _ _) _); [by vm_compute..|].
    left. by vm_compute.
Defined.

Lemma ListTaskNames_writes_the_sorted_names_of_the_listed_tasks_witness :
  ListTaskNames false cases.listed = Ok [ "b"; "build"; "make" ] /\
  ListTaskNames true cases.listed = Ok [ "b"; "build"; "make"; "plain" ] /\
  exists s,
    ListTaskNames true cases.listed = Ok s /\ Sorted stringLe s /\
    "plain" ∈ s /\ ~ "secret" ∈ s.
Proof.
  split; [by vm_compute|]. split; [by vm_compute|].
  destruct (ListTaskNames_writes_the_sorted_names_of_the_listed_tasks
              true cases.listed) as (s & Hs & Hsorted & Hin).
  - change (map_Forall (fun _ entry => is_Some entry)
              (taskfile.Tasks cases.listed)).
    apply (bool_decide_unpack _). by vm_compute.
  - exists s. split; [exact Hs|]. split; [exact Hsorted|]. split.
    + apply Hin. exists "plain:", (cases.named "plain:" EmptyString [] false).
      split; [by vm_compute|]. split; [done|]. split; [by left|].
      left. by vm_compute.
    + assert (s = [ "b"; "build"; "make"; "plain" ]) as ->.
      { assert (Ok s = Ok [ "b"; "build"; "make"; "plain" ]) as [= ->];
          [|done].
        rewrite <- Hs. by vm_compute. }
      apply (bool_decide_unpack _). by vm_compute.
Defined.

Lemma ListTaskNames_does_not_depend_on_the_order_of_the_visits_witness :
  exists names s,
    collectNames true (taskfile.Tasks cases.listed) = Ok names /\
    ListTaskNames true cases.listed = Ok s /\
    sort_Strings (reverse names) = s.
Proof.
  edestruct (ListTaskNames_does_not_depend_on_the_order_of_the_visits
               true cases.listed) as (s & Hs & _ & Hsort);
    [vm_compute; reflexivity|].
  eexists _, s. split; [vm_compute; reflexivity|].
  split; [exact Hs|]. apply Hsort, reverse_Permutation.
Defined.

Lemma ListTaskNames_cuts_the_colons_at_the_end_witness :
  "plain" ∈ [ "b"; "build"; "make"; "plain" ] /\
  forall y, "plain" <> y +:+ ":".
Proof.
  split; [by apply (bool_decide_unpack _)|].
  refine (proj1 (ListTaskNames_cuts_the_colons_at_the_end
                   true cases.listed [ "b"; "build"; "make"; "plain" ]
                   "plain" _ _)).
  - by vm_compute.
  - by apply (bool_decide_unpack _).
Defined.

Lemma ListTaskNames_lists_the_keys_of_a_resolved_declaration_witness :
  exists s,
    ListTaskNames true sample.importResult = Ok s /\
    "sub:build" ∈ s.
Proof.
  destruct (ListTaskNames_lists_the_keys_of_a_resolved_declaration
              sample.importWorld 2 sample.importNode sample.importResult
              "/q") with (allTasks := true) as (s & Hs & Hin);
    [by vm_compute|].
  exists s. split; [exact Hs|].
  assert (exists task,
            taskfile.Tasks sample.importResult !! "sub:build"
            = Some (Some task) /\
            taskfile.Task_Internal task = false) as (task & Htask & Hint).
  { eexists. split; by vm_compute. }
  exact (Hin eq_refl "sub:build" task Htask Hint).
Defined.

Lemma optional_flag_does_not_cover_the_merge_witness :
  taskfile.Inc_Optional cases.clashEdge = true /\
  forall fuel', 1 < fuel' ->
    Taskfile cases.clashWorld fuel' cases.clashNode
    = (cases.clashNode, Err (ErrForeign "task: colliding task names")).
Proof.
  split; [done|].
  refine (optional_flag_does_not_cover_the_merge
            cases.clashWorld 1 cases.clashNode cases.clashNode
            cases.clashChild
            (sample.prepared cases.clashWorld cases.clashNode)
            (sample.prepared cases.clashWorld cases.clashNode)
            (sample.declarationOf
               (Taskfile cases.clashWorld 1 cases.clashChild))
            "/c" "/c/lib" 3 [] [] "lib" cases.clashEdge cases.clashEdge
            (ErrForeign "task: colliding task names")
            _ _ _ _ _ _ _ _ _); [by vm_compute..|].
  right. eexists. split; [vm_compute; reflexivity|].
  vm_compute. reflexivity.
Defined.

Lemma ListTaskNames_of_all_tasks_keeps_the_lines_of_the_described_ones_witness :
  exists s',
    ListTaskNames true cases.listed = Ok s' /\
    [ "b"; "build"; "make" ] ⊆+ s'.
Proof.
  refine (ListTaskNames_of_all_tasks_keeps_the_lines_of_the_described_ones
            cases.listed [ "b"; "build"; "make" ] _).
  by vm_compute.
Defined.
